(** * kgs_otel: tracing and metric middleware for gin and gRPC

    A shallow embedding of the two middlewares of the repository
    ([otelgrpc.TracingMiddleware], a gRPC [stats.Handler], and
    [otelgin.Tracing], a gin handler) together with the statements the
    specification makes about them.

    The telemetry backend (spans, metric instruments, the error handler) is
    an external collaborator.  Every call the middlewares make on it is kept
    as an [Effect]; a computation is a function from the process state to a
    result, a new state and the effects it emitted, in program order. *)

From Stdlib Require Import ZArith NArith List String Ascii Bool Lia.
From Stdlib.Strings Require Import Byte.
From stdpp Require Import base option list strings gmap.
Import ListNotations.

Local Open Scope string_scope.
Local Open Scope Z_scope.
Local Open Scope list_scope.

(* ===================================================================== *)
(** ** The OpenTelemetry API as the middlewares see it *)
(* ===================================================================== *)

Module otel.

(** [attribute.KeyValue]; only the value kinds the middlewares build. *)
Inductive Value :=
| StringValue (s : string)
| IntValue (n : Z).

Record KeyValue := { Key : string; Val : Value }.

Definition String_ (k v : string) : KeyValue := {| Key := k; Val := StringValue v |}.
Definition Int_ (k : string) (n : Z) : KeyValue := {| Key := k; Val := IntValue n |}.

Definition has_key (k : string) (kvs : list KeyValue) : bool :=
  existsb (fun kv => String.eqb (Key kv) k) kvs.

(** [codes.Code] of a span status. *)
Inductive Code := Unset | Error | Ok.

Inductive SpanKind := SpanKindServer | SpanKindClient.

(** [trace.SpanContext]: the identifiers are fixed-width byte strings
    (16 bytes for a trace, 8 for a span). *)
Record SpanContext := {
  TraceID : list byte;
  SpanID : list byte;
  TraceFlags : byte;
  Remote : bool
}.

Definition all_zero (bs : list byte) : bool :=
  forallb (fun b => Byte.eqb b x00) bs.

Definition IsValid (sc : SpanContext) : bool :=
  negb (all_zero (TraceID sc)) && negb (all_zero (SpanID sc)).

Definition emptySpanContext : SpanContext :=
  {| TraceID := repeat x00 16; SpanID := repeat x00 8;
     TraceFlags := x00; Remote := false |}.

(** [trace.Span]: a span of the SDK records; the no-op span and the
    span wrapped around a remote span context do not. *)
Record Span := { sp_ctx : SpanContext; sp_recording : bool }.

Definition noopSpan : Span := {| sp_ctx := emptySpanContext; sp_recording := false |}.

Record Tracer := { t_provider : string; t_scope : string }.

(** Metric instruments. *)
Inductive InstrumentKind := Float64Histogram | Int64Histogram | Int64UpDownCounter.

Record InstrumentSpec := {
  i_kind : InstrumentKind;
  i_name : string;
  i_description : string;
  i_unit : string
}.

(** An instrument is one the meter built or, when the meter failed and
    returned nothing, the [noop] one of its kind. *)
Inductive Instrument :=
| Real (spec : InstrumentSpec)
| Noop (k : InstrumentKind).

(** What [meter.Float64Histogram] and its siblings return: an
    instrument and no error, or an error with or without an instrument. *)
Inductive MeterResult :=
| Created (i : Instrument)
| Failed (partial : option Instrument) (err : string).

Definition Meter := InstrumentSpec -> MeterResult.

(** A histogram sample.  A duration is recorded in milliseconds as
    [float64(d) / float64(time.Millisecond)]; the quotient is kept
    symbolic over the nanosecond count [d]. *)
Inductive Sample :=
| SInt (n : Z)
| SMillis (nanos : Z).

(** Calls on the telemetry backend. *)
Inductive Effect :=
| SpanStart (sc : SpanContext) (parent : SpanContext) (t : Tracer)
            (name : string) (kind : SpanKind) (attrs : list KeyValue)
| SpanSetStatus (sc : SpanContext) (code : Code) (description : string)
| SpanSetAttributes (sc : SpanContext) (attrs : list KeyValue)
| SpanEnd (sc : SpanContext)
| InstrumentCreate (spec : InstrumentSpec)
| MetricRecord (instrument : string) (v : Sample) (attrs : list KeyValue)
| MetricAdd (instrument : string) (n : Z) (attrs : list KeyValue)
| ErrorHandled (err : string).

End otel.
Export otel.

(** A propagation carrier: [http.Header] and gRPC [metadata.MD] are both
    [map[string][]string]. *)
Abbreviation Header := (gmap string (list string)).

Definition carrier_Get (c : Header) (k : string) : string :=
  match c !! k with
  | Some (v :: _) => v
  | _ => ""
  end.

Definition carrier_Set (c : Header) (k v : string) : Header := <[k := [v]]> c.

(* ===================================================================== *)
(** ** Contexts and the process state *)
(* ===================================================================== *)

(** The values of a [context.Context] the middlewares read or attach. *)
Record Context := {
  ctx_span : option Span;              (* trace.SpanFromContext *)
  ctx_baggage : list (string * string);
  ctx_gctx : option nat;               (* Value(gRPCContextKey{}), a *gRPCContext *)
  ctx_peer : option string;            (* peer.FromContext: p.Addr.Network() *)
  ctx_md_in : Header;                  (* metadata.FromIncomingContext *)
  ctx_md_out : Header                  (* metadata.FromOutgoingContext *)
}.

Definition background : Context :=
  {| ctx_span := None; ctx_baggage := []; ctx_gctx := None; ctx_peer := None;
     ctx_md_in := ∅; ctx_md_out := ∅ |}.

Definition SpanFromContext (ctx : Context) : Span :=
  match ctx_span ctx with
  | Some s => s
  | None => noopSpan
  end.

Definition SpanContextFromContext (ctx : Context) : SpanContext :=
  sp_ctx (SpanFromContext ctx).

Definition ContextWithSpan (ctx : Context) (s : Span) : Context :=
  {| ctx_span := Some s; ctx_baggage := ctx_baggage ctx; ctx_gctx := ctx_gctx ctx;
     ctx_peer := ctx_peer ctx; ctx_md_in := ctx_md_in ctx; ctx_md_out := ctx_md_out ctx |}.

Definition ContextWithRemoteSpanContext (ctx : Context) (sc : SpanContext) : Context :=
  ContextWithSpan ctx
    {| sp_ctx := {| TraceID := TraceID sc; SpanID := SpanID sc;
                    TraceFlags := TraceFlags sc; Remote := true |};
       sp_recording := false |}.

(** [propagation.TextMapPropagator]. *)
Record TextMapPropagator := {
  Inject : Context -> Header -> Header;
  Extract : Context -> Header -> Context
}.

(** Per-call state of the gRPC handler, [gRPCContext] in the source. *)
Record gRPCContext := {
  messagesReceived : Z;
  messagesSent : Z;
  metricAttrs : list KeyValue;
  record : bool
}.

(** The process state: the [gRPCContext] objects allocated so far (a
    context holds the address of one), the identifier generator of the
    tracer and the clock, in nanoseconds. *)
Record World := {
  gctxs : list gRPCContext;
  idgen : nat;
  clock : Z
}.

(** Computations: state passing plus the effects emitted, oldest first. *)
Definition M (A : Type) : Type := World -> (A * World) * list Effect.

Definition ret {A} (a : A) : M A := fun w => ((a, w), []).

Definition bind {A B} (m : M A) (f : A -> M B) : M B :=
  fun w =>
    let r1 := m w in
    let r2 := f (fst (fst r1)) (snd (fst r1)) in
    (fst r2, snd r1 ++ snd r2).

Definition emit (e : Effect) : M unit := fun w => ((tt, w), [e]).

#[global] Instance M_ret : MRet M := @ret.
#[global] Instance M_bind : MBind M := fun A B f m => bind m f.

Definition result {A} (r : (A * World) * list Effect) : A := fst (fst r).
Definition final {A} (r : (A * World) * list Effect) : World := snd (fst r).
Definition effects {A} (r : (A * World) * list Effect) : list Effect := snd r.

Fixpoint forM_ {A} (l : list A) (f : A -> M unit) : M unit :=
  match l with
  | [] => ret tt
  | x :: l' => f x ;; forM_ l' f
  end.

(** *** Spans *)

Definition span_SetStatus (s : Span) (c : Code) (d : string) : M unit :=
  if sp_recording s then emit (SpanSetStatus (sp_ctx s) c d) else ret tt.

Definition span_SetAttributes (s : Span) (kvs : list KeyValue) : M unit :=
  if sp_recording s then emit (SpanSetAttributes (sp_ctx s) kvs) else ret tt.

Definition span_End (s : Span) : M unit :=
  if sp_recording s then emit (SpanEnd (sp_ctx s)) else ret tt.

(** Identifiers the SDK draws at random are taken from a counter,
    written big-endian on [k] bytes. *)
Definition byte_of_N (n : N) : byte :=
  match Byte.of_N n with
  | Some b => b
  | None => x00
  end.

Fixpoint be_bytes (k : nat) (n : N) : list byte :=
  match k with
  | O => []
  | S k' => be_bytes k' (n / 256)%N ++ [byte_of_N (n mod 256)%N]
  end.

(** [tracer.Start]: a new recording span, child of the span context the
    context carries when that one is valid, a root otherwise. *)
Definition tracer_Start (t : Tracer) (ctx : Context) (name : string)
    (kind : SpanKind) (attrs : list KeyValue) : M (Context * Span) :=
  fun w =>
    let n := N.of_nat (S (idgen w)) in
    let parent := SpanContextFromContext ctx in
    let sc := {| TraceID := if IsValid parent then TraceID parent else be_bytes 16 n;
                 SpanID := be_bytes 8 n;
                 TraceFlags := x01;
                 Remote := false |} in
    let s := {| sp_ctx := sc; sp_recording := true |} in
    (((ContextWithSpan ctx s, s),
      {| gctxs := gctxs w; idgen := S (idgen w); clock := clock w |}),
     [SpanStart sc parent t name kind attrs]).

(** *** Instruments *)

Definition instrument_Record (i : Instrument) (v : Sample) (attrs : list KeyValue) : M unit :=
  match i with
  | Real spec => emit (MetricRecord (i_name spec) v attrs)
  | Noop _ => ret tt
  end.

Definition instrument_Add (i : Instrument) (n : Z) (attrs : list KeyValue) : M unit :=
  match i with
  | Real spec => emit (MetricAdd (i_name spec) n attrs)
  | Noop _ => ret tt
  end.

(** One of the five identical blocks of [newConfig] (four in [Tracing]):
    ask the meter for the instrument; on an error report it to
    [otel.Handle] and fall back to the no-op instrument when the meter
    returned none. *)
Definition create_instrument (meter : Meter) (spec : InstrumentSpec) : M Instrument :=
  emit (InstrumentCreate spec) ;;
  match meter spec with
  | Created i => ret i
  | Failed partial err =>
      emit (ErrorHandled err) ;;
      ret (match partial with
           | Some i => i
           | None => Noop (i_kind spec)
           end)
  end.

(** The process-wide registry [otel.GetTracerProvider],
    [otel.GetMeterProvider] and [otel.GetTextMapPropagator] read. *)
Record Globals := {
  g_TracerProvider : string;
  g_Meter : Meter;
  g_Propagators : TextMapPropagator
}.

(* ===================================================================== *)
(** ** Code of the repository that the middlewares call *)
(* ===================================================================== *)

(** The packages [kgs/otel/internal] and [kgs/otel/internal/semconvutil]
    build attribute sets from a request or a method name.  The middlewares
    only pass their results on, so they are taken as given. *)
Record HttpRequestLine := { Method : string; URLPath : string }.

Record Internal := {
  ParseFullMethod : string -> string * list KeyValue;
  NetTransport : string -> KeyValue;
  HTTPServerRequest : string -> HttpRequestLine -> Header -> list KeyValue;
  HTTPServerRequestMetrics : string -> HttpRequestLine -> Header -> list KeyValue;
  HTTPServerStatus : Z -> Code * string
}.

(** Keys and values of [semconv] the middlewares name. *)
Definition RPCGRPCStatusCodeKey : string := "rpc.grpc.status_code".
Definition RPCSystemGRPC : KeyValue := String_ "rpc.system" "grpc".
Definition HTTPRoute (route : string) : KeyValue := String_ "http.route" route.
Definition HTTPStatusCode (status : Z) : KeyValue := Int_ "http.status_code" status.

(* ===================================================================== *)
(** ** The gRPC stats handler (package otelgrpc) *)
(* ===================================================================== *)

Module otelgrpc.

(** *** role.go *)

Inductive Role := RoleServer | RoleClient.

Definition Role_String (r : Role) : string :=
  match r with
  | RoleServer => "server"
  | RoleClient => "client"
  end.

Definition isServer (r : Role) : bool :=
  match r with
  | RoleServer => true
  | RoleClient => false
  end.

(** *** gRPC types *)

(** [codes.Code] of gRPC is a [uint32]. *)
Module grpcCodes.
Definition OK : Z := 0.
Definition Canceled : Z := 1.
Definition Unknown : Z := 2.
Definition InvalidArgument : Z := 3.
Definition DeadlineExceeded : Z := 4.
Definition NotFound : Z := 5.
Definition AlreadyExists : Z := 6.
Definition PermissionDenied : Z := 7.
Definition ResourceExhausted : Z := 8.
Definition FailedPrecondition : Z := 9.
Definition Aborted : Z := 10.
Definition OutOfRange : Z := 11.
Definition Unimplemented : Z := 12.
Definition Internal : Z := 13.
Definition Unavailable : Z := 14.
Definition DataLoss : Z := 15.
Definition Unauthenticated : Z := 16.
End grpcCodes.

(** [status.Status] through its two accessors. *)
Record Status := { Code_ : Z; Message : string }.

(** A Go [error]: one made by the [status] package, or any other. *)
Inductive error :=
| StatusError (s : Status)
| OtherError (msg : string).

(** [status.FromError] on a non-nil error: the status the error
    carries, or [Unknown] with the error's text. *)
Definition FromError (e : error) : Status :=
  match e with
  | StatusError s => s
  | OtherError msg => {| Code_ := grpcCodes.Unknown; Message := msg |}
  end.

Record RPCTagInfo := { FullMethodName : string; FailFast : bool }.

(** [stats.RPCStats]: the events of one call. *)
Inductive RPCStats :=
| Begin
| InPayload (Length : Z)
| InHeader
| InTrailer
| OutPayload (Length : Z)
| OutHeader
| OutTrailer
| End_ (Error_ : option error) (BeginTime EndTime : Z).

(** *** config.go *)

Definition ScopeName : string :=
  "go.opentelemetry.io/contrib/instrumentation/google.golang.org/grpc/otelgrpc".

Record config := {
  Filter : option (RPCTagInfo -> bool);
  Propagators : option TextMapPropagator;
  TracerProvider : option string;
  MeterProvider : option Meter;
  SpanAttributes : list KeyValue;
  MetricAttributes : list KeyValue;
  tracer : Tracer;
  rpcDuration : Instrument;
  rpcRequestSize : Instrument;
  rpcResponseSize : Instrument;
  rpcRequestsPerRPC : Instrument;
  rpcResponsesPerRPC : Instrument
}.

(** The options ([InterceptorFilter] and [SpanStartOptions] are stored
    and never read by the stats handler; they are left out). *)
Inductive Option_ :=
| WithFilter (f : option (RPCTagInfo -> bool))
| WithPropagators (p : option TextMapPropagator)
| WithTracerProvider (p : option string)
| WithMeterProvider (p : option Meter)
| WithSpanAttributes (attrs : list KeyValue)
| WithMetricAttributes (attrs : list KeyValue).

(** The part of [config] the options write. *)
Record settings := {
  s_Filter : option (RPCTagInfo -> bool);
  s_Propagators : option TextMapPropagator;
  s_TracerProvider : option string;
  s_MeterProvider : option Meter;
  s_SpanAttributes : list KeyValue;
  s_MetricAttributes : list KeyValue
}.

Definition zero_settings : settings :=
  {| s_Filter := None; s_Propagators := None; s_TracerProvider := None;
     s_MeterProvider := None; s_SpanAttributes := []; s_MetricAttributes := [] |}.

Definition or_keep {A} (new old : option A) : option A :=
  match new with
  | Some x => Some x
  | None => old
  end.

Definition apply (o : Option_) (c : settings) : settings :=
  match o with
  | WithFilter f =>
      {| s_Filter := or_keep f (s_Filter c); s_Propagators := s_Propagators c;
         s_TracerProvider := s_TracerProvider c; s_MeterProvider := s_MeterProvider c;
         s_SpanAttributes := s_SpanAttributes c; s_MetricAttributes := s_MetricAttributes c |}
  | WithPropagators p =>
      {| s_Filter := s_Filter c; s_Propagators := or_keep p (s_Propagators c);
         s_TracerProvider := s_TracerProvider c; s_MeterProvider := s_MeterProvider c;
         s_SpanAttributes := s_SpanAttributes c; s_MetricAttributes := s_MetricAttributes c |}
  | WithTracerProvider p =>
      {| s_Filter := s_Filter c; s_Propagators := s_Propagators c;
         s_TracerProvider := or_keep p (s_TracerProvider c); s_MeterProvider := s_MeterProvider c;
         s_SpanAttributes := s_SpanAttributes c; s_MetricAttributes := s_MetricAttributes c |}
  | WithMeterProvider p =>
      {| s_Filter := s_Filter c; s_Propagators := s_Propagators c;
         s_TracerProvider := s_TracerProvider c; s_MeterProvider := or_keep p (s_MeterProvider c);
         s_SpanAttributes := s_SpanAttributes c; s_MetricAttributes := s_MetricAttributes c |}
  | WithSpanAttributes attrs =>
      {| s_Filter := s_Filter c; s_Propagators := s_Propagators c;
         s_TracerProvider := s_TracerProvider c; s_MeterProvider := s_MeterProvider c;
         s_SpanAttributes := attrs; s_MetricAttributes := s_MetricAttributes c |}
  | WithMetricAttributes attrs =>
      {| s_Filter := s_Filter c; s_Propagators := s_Propagators c;
         s_TracerProvider := s_TracerProvider c; s_MeterProvider := s_MeterProvider c;
         s_SpanAttributes := s_SpanAttributes c; s_MetricAttributes := attrs |}
  end.

Definition default {A} (o : option A) (d : A) : A :=
  match o with
  | Some x => x
  | None => d
  end.

(** [for _, opt := range opts { opt.apply(cfg) }] on [&config{}]. *)
Definition configure (opts : list Option_) : settings :=
  fold_left (fun c o => apply o c) opts zero_settings.

(** The five instruments [newConfig] asks the meter for. *)
Definition rpcDuration_spec (role : Role) : InstrumentSpec :=
  {| i_kind := Float64Histogram;
     i_name := "rpc." +:+ Role_String role +:+ ".duration";
     i_description := "Measures the duration of inbound RPC.";
     i_unit := "ms" |}.

Definition rpcRequestSize_spec (role : Role) : InstrumentSpec :=
  {| i_kind := Int64Histogram;
     i_name := "rpc." +:+ Role_String role +:+ ".request.size";
     i_description := "Measures size of RPC request messages (uncompressed).";
     i_unit := "By" |}.

Definition rpcResponseSize_spec (role : Role) : InstrumentSpec :=
  {| i_kind := Int64Histogram;
     i_name := "rpc." +:+ Role_String role +:+ ".response.size";
     i_description := "Measures size of RPC response messages (uncompressed).";
     i_unit := "By" |}.

Definition rpcRequestsPerRPC_spec (role : Role) : InstrumentSpec :=
  {| i_kind := Int64Histogram;
     i_name := "rpc." +:+ Role_String role +:+ ".requests_per_rpc";
     i_description := "Measures the number of messages request per RPC. Should be 1 for all non-streaming RPCs.";
     i_unit := "{count}" |}.

Definition rpcResponsesPerRPC_spec (role : Role) : InstrumentSpec :=
  {| i_kind := Int64Histogram;
     i_name := "rpc." +:+ Role_String role +:+ ".responses_per_rpc";
     i_description := "Measures the number of messages received per RPC. Should be 1 for all non-streaming RPCs.";
     i_unit := "{count}" |}.

Definition newConfig (g : Globals) (role : Role) (opts : list Option_) : M config :=
  let cfg := configure opts in
  let tp := default (s_TracerProvider cfg) (g_TracerProvider g) in
  let meter := default (s_MeterProvider cfg) (g_Meter g) in
  let props := default (s_Propagators cfg) (g_Propagators g) in
  d ← create_instrument meter (rpcDuration_spec role);
  rq ← create_instrument meter (rpcRequestSize_spec role);
  rs ← create_instrument meter (rpcResponseSize_spec role);
  nrq ← create_instrument meter (rpcRequestsPerRPC_spec role);
  nrs ← create_instrument meter (rpcResponsesPerRPC_spec role);
  mret {| Filter := s_Filter cfg;
          Propagators := Some props;
          TracerProvider := Some tp;
          MeterProvider := Some meter;
          SpanAttributes := s_SpanAttributes cfg;
          MetricAttributes := s_MetricAttributes cfg;
          tracer := {| t_provider := tp; t_scope := ScopeName |};
          rpcDuration := d;
          rpcRequestSize := rq;
          rpcResponseSize := rs;
          rpcRequestsPerRPC := nrq;
          rpcResponsesPerRPC := nrs |}.

(** *** stats_handler.go *)

Record middleware := { config_ : config; role_ : Role }.

Definition TracingMiddleware (g : Globals) (role : Role) (opts : list Option_) : M middleware :=
  cfg ← newConfig g role opts;
  mret {| config_ := cfg; role_ := role |}.

(** Modelled from the spec: the helpers [extract] and [inject] of the
    grpc package are not under src/.  Section 4.2: extract parses the
    trace context from the carrier of the call (its incoming metadata);
    inject writes the current trace context into the outgoing carrier. *)
Definition extract (ctx : Context) (p : option TextMapPropagator) : Context :=
  match p with
  | Some p => Extract p ctx (ctx_md_in ctx)
  | None => ctx
  end.

(** Modelled from the spec: the helper [inject] of the grpc package is
    not under src/.  Section 4.2: the current trace context and baggage
    are written into the outgoing carrier of the call. *)
Definition inject (ctx : Context) (p : option TextMapPropagator) : Context :=
  match p with
  | Some p =>
      {| ctx_span := ctx_span ctx; ctx_baggage := ctx_baggage ctx;
         ctx_gctx := ctx_gctx ctx; ctx_peer := ctx_peer ctx;
         ctx_md_in := ctx_md_in ctx;
         ctx_md_out := Inject p ctx (ctx_md_out ctx) |}
  | None => ctx
  end.

(** [&gctx]: the per-call state is put in the store and the context
    is given its address. *)
Definition new_gctx (g : gRPCContext) : M nat :=
  fun w => ((length (gctxs w),
             {| gctxs := gctxs w ++ [g]; idgen := idgen w; clock := clock w |}), []).

Definition WithValue_gctx (ctx : Context) (p : nat) : Context :=
  {| ctx_span := ctx_span ctx; ctx_baggage := ctx_baggage ctx;
     ctx_gctx := Some p; ctx_peer := ctx_peer ctx;
     ctx_md_in := ctx_md_in ctx; ctx_md_out := ctx_md_out ctx |}.

(** [ctx.Value(gRPCContextKey{}).( *gRPCContext)] followed by the reads
    of the fields written once in [TagRPC]. *)
Definition call_context (ctx : Context) (w : World) : option gRPCContext :=
  match ctx_gctx ctx with
  | Some p => gctxs w !! p
  | None => None
  end.

Definition load_gctx (ctx : Context) : M (option gRPCContext) :=
  fun w => ((call_context ctx w, w), []).

(** [atomic.LoadInt64] of a counter of the per-call state. *)
Definition atomic_LoadInt64 (ctx : Context) (field : gRPCContext -> Z) : M Z :=
  fun w => ((match call_context ctx w with
             | Some g => field g
             | None => 0
             end, w), []).

Section Handler.

Variable I : Internal.

Definition TagRPC (m : middleware) (ctx : Context) (info : RPCTagInfo) : M Context :=
  let cfg := config_ m in
  let ctx := extract ctx (Propagators cfg) in
  let spanKind := if isServer (role_ m) then SpanKindServer else SpanKindClient in
  let name := fst (ParseFullMethod I (FullMethodName info)) in
  let attrs := snd (ParseFullMethod I (FullMethodName info)) ++ [RPCSystemGRPC] in
  r ← tracer_Start (tracer cfg)
        (ContextWithRemoteSpanContext ctx (SpanContextFromContext ctx))
        name spanKind (attrs ++ SpanAttributes cfg);
  let ctx := fst r in
  let gctx := {| messagesReceived := 0;
                 messagesSent := 0;
                 metricAttrs := attrs ++ MetricAttributes cfg;
                 record := match Filter cfg with
                           | Some f => f info
                           | None => true
                           end |} in
  p ← new_gctx gctx;
  if isServer (role_ m)
  then mret (WithValue_gctx ctx p)
  else mret (inject (WithValue_gctx ctx p) (Propagators cfg)).

(** [serverStatus]. *)
Definition serverStatus (grpcStatus : Status) : Code * string :=
  let c := Code_ grpcStatus in
  if (c =? grpcCodes.Unknown) || (c =? grpcCodes.DeadlineExceeded)
     || (c =? grpcCodes.Unimplemented) || (c =? grpcCodes.Internal)
     || (c =? grpcCodes.Unavailable) || (c =? grpcCodes.DataLoss)
  then (Error, Message grpcStatus)
  else (Unset, "").

(** The [switch] of [HandleRPC], reached when the call has no
    per-call state or when that state has [record] set. *)
Definition handle_event (m : middleware) (ctx : Context) (span : Span)
    (gctx : option gRPCContext) (metricAttrs : list KeyValue) (rs : RPCStats) : M unit :=
  let cfg := config_ m in
  match rs with
  | Begin => mret tt
  | InPayload len =>
      if gctx is Some _
      then instrument_Record (rpcRequestSize cfg) (SInt len) metricAttrs
      else mret tt
  | OutPayload len =>
      if gctx is Some _
      then instrument_Record (rpcResponseSize cfg) (SInt len) metricAttrs
      else mret tt
  | OutTrailer => mret tt
  | OutHeader =>
      match ctx_peer ctx with
      | Some network => span_SetAttributes span [NetTransport I network]
      | None => mret tt
      end
  | End_ err beginTime endTime =>
      let rpcStatusAttr :=
        match err with
        | Some e => Int_ RPCGRPCStatusCodeKey (Code_ (FromError e))
        | None => Int_ RPCGRPCStatusCodeKey grpcCodes.OK
        end in
      match err with
      | Some e =>
          let s := FromError e in
          if isServer (role_ m)
          then span_SetStatus span (fst (serverStatus s)) (snd (serverStatus s))
          else span_SetStatus span Error (Message s)
      | None => mret tt
      end;;
      span_SetAttributes span [rpcStatusAttr];;
      span_End span;;
      let metricAttrs := metricAttrs ++ [rpcStatusAttr] in
      let elapsedTime := SMillis (endTime - beginTime) in
      instrument_Record (rpcDuration cfg) elapsedTime metricAttrs;;
      if gctx is Some _
      then
        n ← atomic_LoadInt64 ctx messagesReceived;
        instrument_Record (rpcRequestsPerRPC cfg) (SInt n) metricAttrs;;
        k ← atomic_LoadInt64 ctx messagesSent;
        instrument_Record (rpcResponsesPerRPC cfg) (SInt k) metricAttrs
      else mret tt
  | InHeader | InTrailer => mret tt
  end.

Definition HandleRPC (m : middleware) (ctx : Context) (rs : RPCStats) : M unit :=
  let span := SpanFromContext ctx in
  gctx ← load_gctx ctx;
  match gctx with
  | Some g =>
      if negb (record g)
      then mret tt
      else handle_event m ctx span gctx (metricAttrs g) rs
  | None => handle_event m ctx span gctx [] rs
  end.

(** One call as the gRPC runtime drives the handler: [TagRPC], then
    the events of the call on the context [TagRPC] returned, the
    final one being [stats.End]. *)
Definition run_call (m : middleware) (ctx : Context) (info : RPCTagInfo)
    (events : list RPCStats) (err : option error) (beginTime endTime : Z) : M Context :=
  ctx' ← TagRPC m ctx info;
  forM_ events (HandleRPC m ctx');;
  HandleRPC m ctx' (End_ err beginTime endTime);;
  mret ctx'.

End Handler.

End otelgrpc.

(* ===================================================================== *)
(** ** The gin middleware (package otelgin) *)
(* ===================================================================== *)

Module otelgin.

(** *** gin and net/http as the middleware uses them *)

(** [http.Request.Body], an [io.ReadCloser]: the bytes still to be
    read, or a reader whose [Read] fails. *)
Inductive Body :=
| BodyData (remaining : list byte)
| BodyBroken (err : string).

(** [io.ReadAll]: everything that is left, leaving the reader empty,
    or the error of the reader. *)
Definition ReadAll (b : Body) : (list byte + string) * Body :=
  match b with
  | BodyData d => (inl d, BodyData [])
  | BodyBroken e => (inr e, BodyBroken e)
  end.

Record Request := {
  req_line : HttpRequestLine;
  req_Header : Header;
  req_Body : Body;
  req_Context : Context
}.

Definition WithContext (r : Request) (ctx : Context) : Request :=
  {| req_line := req_line r; req_Header := req_Header r;
     req_Body := req_Body r; req_Context := ctx |}.

Definition WithBody (r : Request) (b : Body) : Request :=
  {| req_line := req_line r; req_Header := req_Header r;
     req_Body := b; req_Context := req_Context r |}.

(** [gin.ResponseWriter]: the status (200 until set), the number of
    bytes written (-1 while nothing is) and the chunks written. *)
Record ResponseWriter := {
  w_Status : Z;
  w_Size : Z;
  w_written : list string
}.

Definition freshWriter : ResponseWriter :=
  {| w_Status := 200; w_Size := -1; w_written := [] |}.

(** [gin.Context]. *)
Record GinContext := {
  Request_ : Request;
  Writer : ResponseWriter;
  Errors : list string;
  Keys : gmap string string;
  FullPath : string;
  IsAborted : bool
}.

Definition set_Request (c : GinContext) (r : Request) : GinContext :=
  {| Request_ := r; Writer := Writer c; Errors := Errors c; Keys := Keys c;
     FullPath := FullPath c; IsAborted := IsAborted c |}.

(** [c.Set(key, value)]; the tracer and the meter stored under the two
    keys are named after the service. *)
Definition Set_ (c : GinContext) (key value : string) : GinContext :=
  {| Request_ := Request_ c; Writer := Writer c; Errors := Errors c;
     Keys := <[key := value]> (Keys c);
     FullPath := FullPath c; IsAborted := IsAborted c |}.

(** [c.AbortWithStatusJSON(code, obj)]: no pending handler runs any
    more, and [obj] is written as the response with status [code]. *)
Definition AbortWithStatusJSON (c : GinContext) (code : Z) (json : string) : GinContext :=
  {| Request_ := Request_ c;
     Writer := {| w_Status := code;
                  w_Size := Z.max 0 (w_Size (Writer c)) + Z.of_nat (String.length json);
                  w_written := w_written (Writer c) ++ [json] |};
     Errors := Errors c; Keys := Keys c;
     FullPath := FullPath c; IsAborted := true |}.

(** [c.Errors.String()]. *)
Definition Errors_String (c : GinContext) : string := String.concat "" (Errors c).

(** The handlers after this one in the chain. *)
Definition HandlersChain := GinContext -> M GinContext.

(** [c.Next()]: run the pending handlers, none when the context was
    aborted. *)
Definition Next (rest : HandlersChain) (c : GinContext) : M GinContext :=
  if IsAborted c then mret c else rest c.

Definition StatusInternalServerError : Z := 500.

(** *** option.go *)

Definition GinFilter := GinContext -> bool.
Definition Filter := Request -> bool.
Definition SpanNameFormatter := Request -> string.

(** The part of [config] the options write. *)
Record settings := {
  TracerProvider : option string;
  MeterProvider : option Meter;
  Propagators : option TextMapPropagator;
  Filters : list Filter;
  GinFilters : list GinFilter;
  SpanNameFormatter_ : option SpanNameFormatter
}.

Record config := {
  set : settings;
  reqDuration : Instrument;
  reqSize : Instrument;
  respSize : Instrument;
  activeReqs : Instrument
}.

Inductive Option_ :=
| WithPropagators (propagators : option TextMapPropagator)
| WithTracerProvider (provider : option string)
| WithMeterProvider (provider : option Meter)
| WithFilter (f : list Filter)
| WithSpanNameFormatter (f : option SpanNameFormatter)
| WithGinFilter (f : list GinFilter).

Definition apply (o : Option_) (c : settings) : settings :=
  match o with
  | WithPropagators p =>
      {| TracerProvider := TracerProvider c; MeterProvider := MeterProvider c;
         Propagators := match p with Some _ => p | None => Propagators c end;
         Filters := Filters c; GinFilters := GinFilters c;
         SpanNameFormatter_ := SpanNameFormatter_ c |}
  | WithTracerProvider p =>
      {| TracerProvider := match p with Some _ => p | None => TracerProvider c end;
         MeterProvider := MeterProvider c; Propagators := Propagators c;
         Filters := Filters c; GinFilters := GinFilters c;
         SpanNameFormatter_ := SpanNameFormatter_ c |}
  | WithMeterProvider p =>
      {| TracerProvider := TracerProvider c;
         MeterProvider := match p with Some _ => p | None => MeterProvider c end;
         Propagators := Propagators c;
         Filters := Filters c; GinFilters := GinFilters c;
         SpanNameFormatter_ := SpanNameFormatter_ c |}
  | WithFilter f =>
      {| TracerProvider := TracerProvider c; MeterProvider := MeterProvider c;
         Propagators := Propagators c;
         Filters := Filters c ++ f; GinFilters := GinFilters c;
         SpanNameFormatter_ := SpanNameFormatter_ c |}
  | WithSpanNameFormatter f =>
      {| TracerProvider := TracerProvider c; MeterProvider := MeterProvider c;
         Propagators := Propagators c;
         Filters := Filters c; GinFilters := GinFilters c;
         SpanNameFormatter_ := f |}
  | WithGinFilter f =>
      {| TracerProvider := TracerProvider c; MeterProvider := MeterProvider c;
         Propagators := Propagators c;
         Filters := Filters c; GinFilters := GinFilters c ++ f;
         SpanNameFormatter_ := SpanNameFormatter_ c |}
  end.

Definition zero_settings : settings :=
  {| TracerProvider := None; MeterProvider := None; Propagators := None;
     Filters := []; GinFilters := []; SpanNameFormatter_ := None |}.

(** [for _, opt := range opts { opt.apply(&cfg) }] on [config{}]. *)
Definition configure (opts : list Option_) : settings :=
  fold_left (fun c o => apply o c) opts zero_settings.

(** *** gintrace.go *)

Definition tracerKey : string := "kgs-tracer".
Definition meterKey : string := "kgs-meter".
Definition role : string := "server".

Definition reqDuration_spec : InstrumentSpec :=
  {| i_kind := Float64Histogram;
     i_name := "http." +:+ role +:+ ".request.duration";
     i_description := "Measures the duration of inbound RPC.";
     i_unit := "ms" |}.

Definition reqSize_spec : InstrumentSpec :=
  {| i_kind := Int64UpDownCounter;
     i_name := "http." +:+ role +:+ ".request.body.size";
     i_description := "Measures size of RPC request messages (uncompressed).";
     i_unit := "By" |}.

Definition respSize_spec : InstrumentSpec :=
  {| i_kind := Int64UpDownCounter;
     i_name := "http." +:+ role +:+ ".response.body.size";
     i_description := "Measures size of RPC response messages (uncompressed).";
     i_unit := "By" |}.

Definition activeReqs_spec : InstrumentSpec :=
  {| i_kind := Int64UpDownCounter;
     i_name := "http." +:+ role +:+ ".active_requests";
     i_description := "Measures the number of messages received per RPC. Should be 1 for all non-streaming RPCs.";
     i_unit := "{count}" |}.

Definition sum_len (values : list string) : Z :=
  fold_left (fun acc value => acc + Z.of_nat (String.length value)) values 0.

(** The header loop of [calcReqSize]; the order in which Go ranges
    over the map does not change the sum. *)
Definition headerSize (h : Header) : Z :=
  map_fold (fun name values acc => acc + (Z.of_nat (String.length name) + 2) + sum_len values) 0 h.

(** [gin.H{"error": "failed to read request body"}] rendered as JSON. *)
Definition quote : string := String (ascii_of_nat 34) EmptyString.

Definition read_error_body : string :=
  "{" +:+ quote +:+ "error" +:+ quote +:+ ":"
      +:+ quote +:+ "failed to read request body" +:+ quote +:+ "}".

(** [calcReqSize]: the size, and the gin context as the function
    leaves it. *)
Definition calcReqSize (c : GinContext) : Z * GinContext :=
  match fst (ReadAll (req_Body (Request_ c))) with
  | inr _ =>
      (0, AbortWithStatusJSON
            (set_Request c (WithBody (Request_ c) (snd (ReadAll (req_Body (Request_ c))))))
            StatusInternalServerError read_error_body)
  | inl body =>
      let c := set_Request c (WithBody (Request_ c) (BodyData body)) in
      (headerSize (req_Header (Request_ c)) + Z.of_nat (length body), c)
  end.

(** The filter loop at the head of the handler: does some filter,
    tried in order, reject the request? *)
Fixpoint rejected (fs : list Filter) (r : Request) : bool :=
  match fs with
  | [] => false
  | f :: fs' => if negb (f r) then true else rejected fs' r
  end.

Definition time_Now : M Z := fun w => ((clock w, w), []).

Section Handler.

Variable I : Internal.

(** The closure [Tracing] returns. *)
Definition handler (serviceName : string) (cfg : config) (tracer : Tracer)
    (props : TextMapPropagator) (rest : HandlersChain) (c : GinContext) : M GinContext :=
  if rejected (Filters (set cfg)) (Request_ c)
  then Next rest c
  else
    let c := Set_ c tracerKey serviceName in
    let c := Set_ c meterKey serviceName in
    let savedCtx := req_Context (Request_ c) in
    let ctx := Extract props savedCtx (req_Header (Request_ c)) in
    let httpTraceAttrs :=
      HTTPServerRequest I serviceName (req_line (Request_ c)) (req_Header (Request_ c)) in
    let metricAttrs :=
      HTTPServerRequestMetrics I serviceName (req_line (Request_ c)) (req_Header (Request_ c)) in
    let spanName :=
      match SpanNameFormatter_ (set cfg) with
      | None => FullPath c
      | Some f => f (Request_ c)
      end in
    let found := negb (String.eqb spanName "") in
    let rAttr := HTTPRoute spanName in
    let opts := if found then httpTraceAttrs ++ [rAttr] else httpTraceAttrs in
    let metricAttrs := if found then metricAttrs ++ [rAttr] else metricAttrs in
    let spanName :=
      if found then spanName
      else "HTTP " +:+ Method (req_line (Request_ c)) +:+ " route not found" in
    r ← tracer_Start tracer ctx spanName SpanKindServer opts;
    let ctx := fst r in
    let span := snd r in
    let c := set_Request c (WithContext (Request_ c) ctx) in
    let reqSz := fst (calcReqSize c) in
    let c := snd (calcReqSize c) in
    before ← time_Now;
    c ← Next rest c;
    after ← time_Now;
    let elapsedTime := SMillis (after - before) in
    let respSz := if w_Size (Writer c) <? 0 then 0 else w_Size (Writer c) in
    let status := w_Status (Writer c) in
    span_SetStatus span (fst (HTTPServerStatus I status)) (snd (HTTPServerStatus I status));;
    instrument_Add (reqSize cfg) reqSz metricAttrs;;
    instrument_Add (respSize cfg) respSz metricAttrs;;
    let statusAttr := HTTPStatusCode status in
    (if 0 <? status then span_SetAttributes span [statusAttr] else mret tt);;
    let metricAttrs := if 0 <? status then metricAttrs ++ [statusAttr] else metricAttrs in
    let errAttr := String_ "gin.errors" (Errors_String c) in
    let hasErrors := negb (Nat.eqb (length (Errors c)) 0) in
    (if hasErrors then span_SetAttributes span [errAttr] else mret tt);;
    let metricAttrs := if hasErrors then metricAttrs ++ [errAttr] else metricAttrs in
    instrument_Record (reqDuration cfg) elapsedTime metricAttrs;;
    instrument_Add (activeReqs cfg) 1 metricAttrs;;
    (* deferred calls, last registered first *)
    span_End span;;
    mret (set_Request c (WithContext (Request_ c) savedCtx)).

Definition HandlerFunc := HandlersChain -> GinContext -> M GinContext.

Definition Tracing (g : Globals) (serviceName : string) (opts : list Option_) : M HandlerFunc :=
  let cfg := configure opts in
  let props := match Propagators cfg with
               | Some p => p
               | None => g_Propagators g
               end in
  let cfg :=
    {| TracerProvider := Some (match TracerProvider cfg with
                               | Some p => p
                               | None => g_TracerProvider g
                               end);
       MeterProvider := Some (match MeterProvider cfg with
                              | Some p => p
                              | None => g_Meter g
                              end);
       Propagators := Some props;
       Filters := Filters cfg; GinFilters := GinFilters cfg;
       SpanNameFormatter_ := SpanNameFormatter_ cfg |} in
  let tracer := {| t_provider := g_TracerProvider g; t_scope := serviceName |} in
  let meter := g_Meter g in
  d ← create_instrument meter reqDuration_spec;
  rq ← create_instrument meter reqSize_spec;
  rs ← create_instrument meter respSize_spec;
  a ← create_instrument meter activeReqs_spec;
  mret (handler serviceName
          {| set := cfg; reqDuration := d; reqSize := rq; respSize := rs; activeReqs := a |}
          tracer props).

End Handler.

End otelgin.

(* ===================================================================== *)
(** ** The propagation codec *)
(* ===================================================================== *)

(** Modelled from the spec: the propagators that [initPropagator]
    composes belong to the OpenTelemetry library and are not under src/.
    Section 4.2: the codec is a composite format, trace-context (trace
    id, span id, sampling flag) plus baggage (key/value pairs), over a
    string-keyed carrier; missing or malformed fields yield the context
    unchanged, never an error; inject is a no-op if the context carries no
    active span.  The trace-context format is the [traceparent] header of
    the W3C recommendation, [00-<trace id>-<span id>-<flags>] in lower-case
    hexadecimal. *)
Module propagation.

Definition hex_digit (n : N) : ascii :=
  ascii_of_N (if (n <? 10)%N then 48 + n else 87 + n)%N.

Definition unhex_digit (a : ascii) : option N :=
  let n := N_of_ascii a in
  if (48 <=? n)%N && (n <=? 57)%N then Some (n - 48)%N
  else if (97 <=? n)%N && (n <=? 102)%N then Some (n - 87)%N
  else None.

Definition hex_byte (b : byte) : list ascii :=
  [hex_digit (Byte.to_N b / 16)%N; hex_digit (Byte.to_N b mod 16)%N].

Definition unhex_byte (h l : ascii) : option byte :=
  match unhex_digit h, unhex_digit l with
  | Some x, Some y => Byte.of_N (16 * x + y)%N
  | _, _ => None
  end.

Definition hex (bs : list byte) : list ascii := flat_map hex_byte bs.

Fixpoint unhex (s : list ascii) : option (list byte) :=
  match s with
  | [] => Some []
  | h :: l :: rest =>
      match unhex_byte h l, unhex rest with
      | Some b, Some bs => Some (b :: bs)
      | _, _ => None
      end
  | [_] => None
  end.

Definition dash : ascii := ascii_of_nat 45.

Definition traceparentHeader : string := "traceparent".
Definition baggageHeader : string := "baggage".

(** The sampling flag is the only flag that travels. *)
Definition sampled (flags : byte) : byte :=
  if N.odd (Byte.to_N flags) then x01 else x00.

(** Modelled from the spec: the trace-context half of the format is not
    under src/; trace id, span id and sampling flag, written as the
    [traceparent] header. *)
Definition encode_traceparent (sc : SpanContext) : string :=
  string_of_list_ascii
    (hex [x00] ++ dash :: hex (TraceID sc) ++ dash :: hex (SpanID sc)
       ++ dash :: hex [sampled (TraceFlags sc)]).

(** The next [n] characters of a header value and what follows them. *)
Definition take (n : nat) (s : list ascii) : option (list ascii * list ascii) :=
  if Nat.leb n (length s) then Some (firstn n s, skipn n s) else None.

Definition expect_dash (s : list ascii) : option (list ascii) :=
  match s with
  | a :: rest => if Ascii.eqb a dash then Some rest else None
  | [] => None
  end.

(** Modelled from the spec: the parser of the trace-context half is not
    under src/; a missing or malformed header gives nothing. *)
Definition decode_traceparent (h : string) : option SpanContext :=
  v ← take 2 (list_ascii_of_string h);
  ver ← unhex (fst v);
  s ← expect_dash (snd v);
  t ← take 32 s;
  tid ← unhex (fst t);
  s ← expect_dash (snd t);
  p ← take 16 s;
  sid ← unhex (fst p);
  s ← expect_dash (snd p);
  fl ← unhex s;
  match ver, fl with
  | [x00], [f] =>
      let sc := {| TraceID := tid; SpanID := sid;
                   TraceFlags := sampled f; Remote := true |} in
      if IsValid sc then Some sc else None
  | _, _ => None
  end.

(** Modelled from the spec: [propagation.TraceContext{}] is not under
    src/.  Inject is a no-op if the context carries no active span;
    extract leaves the context as it is when the header is missing or
    malformed. *)
Definition TraceContext : TextMapPropagator :=
  {| Inject := fun ctx carrier =>
       let sc := SpanContextFromContext ctx in
       if IsValid sc
       then carrier_Set carrier traceparentHeader (encode_traceparent sc)
       else carrier;
     Extract := fun ctx carrier =>
       match decode_traceparent (carrier_Get carrier traceparentHeader) with
       | Some sc => ContextWithRemoteSpanContext ctx sc
       | None => ctx
       end |}.

(** Baggage members travel as [key=value], separated by commas. *)
Definition encode_baggage (b : list (string * string)) : string :=
  String.concat "," (map (fun kv => fst kv +:+ "=" +:+ snd kv) b).

Fixpoint split_on (sep : ascii) (s : list ascii) : list (list ascii) :=
  match s with
  | [] => [[]]
  | a :: rest =>
      if Ascii.eqb a sep then [] :: split_on sep rest
      else match split_on sep rest with
           | w :: ws => (a :: w) :: ws
           | [] => [[a]]
           end
  end.

Definition decode_member (m : list ascii) : option (string * string) :=
  match split_on (ascii_of_nat 61) m with
  | k :: v :: [] =>
      if Nat.eqb (length k) 0 then None
      else Some (string_of_list_ascii k, string_of_list_ascii v)
  | _ => None
  end.

Definition decode_baggage (h : string) : list (string * string) :=
  omap decode_member (split_on (ascii_of_nat 44) (list_ascii_of_string h)).

Definition WithBaggage (ctx : Context) (b : list (string * string)) : Context :=
  {| ctx_span := ctx_span ctx; ctx_baggage := b; ctx_gctx := ctx_gctx ctx;
     ctx_peer := ctx_peer ctx; ctx_md_in := ctx_md_in ctx; ctx_md_out := ctx_md_out ctx |}.

(** Modelled from the spec: [propagation.Baggage{}] is not under src/.
    Arbitrary key/value pairs; as for the trace context, nothing is
    written if the context carries no active span. *)
Definition Baggage : TextMapPropagator :=
  {| Inject := fun ctx carrier =>
       if IsValid (SpanContextFromContext ctx)
       then match ctx_baggage ctx with
            | [] => carrier
            | b => carrier_Set carrier baggageHeader (encode_baggage b)
            end
       else carrier;
     Extract := fun ctx carrier =>
       match decode_baggage (carrier_Get carrier baggageHeader) with
       | [] => ctx
       | b => WithBaggage ctx b
       end |}.

(** Modelled from the spec: [propagation.NewCompositeTextMapPropagator]
    is not under src/; each propagator in turn writes to, or reads from,
    the same carrier. *)
Definition NewCompositeTextMapPropagator (ps : list TextMapPropagator) : TextMapPropagator :=
  {| Inject := fun ctx carrier => fold_left (fun c p => Inject p ctx c) ps carrier;
     Extract := fun ctx carrier => fold_left (fun c p => Extract p c carrier) ps ctx |}.

End propagation.

(** [initPropagator] (package kgsotel): the propagator it registers as
    the process-wide one. *)
Definition initPropagator : TextMapPropagator :=
  propagation.NewCompositeTextMapPropagator [propagation.TraceContext; propagation.Baggage].

(* ===================================================================== *)
(** ** Observations on the effects of a run *)
(* ===================================================================== *)

(** The spans opened, in order. *)
Definition span_starts (es : list Effect) : list SpanContext :=
  omap (fun e => match e with SpanStart sc _ _ _ _ _ => Some sc | _ => None end) es.

(** The spans closed, in order. *)
Definition span_ends (es : list Effect) : list SpanContext :=
  omap (fun e => match e with SpanEnd sc => Some sc | _ => None end) es.

Definition status_calls (es : list Effect) : list (SpanContext * Code * string) :=
  omap (fun e => match e with SpanSetStatus sc c d => Some (sc, c, d) | _ => None end) es.

Definition attribute_calls (es : list Effect) : list (SpanContext * list KeyValue) :=
  omap (fun e => match e with SpanSetAttributes sc kvs => Some (sc, kvs) | _ => None end) es.

(** The samples recorded on the histogram of a given name. *)
Definition samples (name : string) (es : list Effect) : list Sample :=
  omap (fun e => match e with
                 | MetricRecord i v _ => if String.eqb i name then Some v else None
                 | _ => None
                 end) es.

(** Every metric sample, histogram or counter, with its attribute set. *)
Definition metric_calls (es : list Effect) : list (string * list KeyValue) :=
  omap (fun e => match e with
                 | MetricRecord i _ kvs => Some (i, kvs)
                 | MetricAdd i _ kvs => Some (i, kvs)
                 | _ => None
                 end) es.

(** The instruments asked of the meter: kind, name and unit. *)
Definition creations (es : list Effect) : list (InstrumentKind * string * string) :=
  omap (fun e => match e with
                 | InstrumentCreate spec => Some (i_kind spec, i_name spec, i_unit spec)
                 | _ => None
                 end) es.

Module rpc_spec.
Import otelgrpc.

(** The meter built all five instruments of the handler. *)
Definition instruments_created (m : middleware) : Prop :=
  rpcDuration (config_ m) = Real (rpcDuration_spec (role_ m)) /\
  rpcRequestSize (config_ m) = Real (rpcRequestSize_spec (role_ m)) /\
  rpcResponseSize (config_ m) = Real (rpcResponseSize_spec (role_ m)) /\
  rpcRequestsPerRPC (config_ m) = Real (rpcRequestsPerRPC_spec (role_ m)) /\
  rpcResponsesPerRPC (config_ m) = Real (rpcResponsesPerRPC_spec (role_ m)).

(** The record flag [TagRPC] gives a call. *)
Definition filter_accepts (m : middleware) (info : RPCTagInfo) : bool :=
  match Filter (config_ m) with
  | Some f => f info
  | None => true
  end.

Definition is_End (rs : RPCStats) : bool :=
  match rs with
  | End_ _ _ _ => true
  | _ => false
  end.

Definition is_InPayload (rs : RPCStats) : bool :=
  match rs with
  | InPayload _ => true
  | _ => false
  end.

Definition is_OutPayload (rs : RPCStats) : bool :=
  match rs with
  | OutPayload _ => true
  | _ => false
  end.

(** The codes a server reports as span errors. *)
Definition error_codes : list Z :=
  [grpcCodes.Unknown; grpcCodes.DeadlineExceeded; grpcCodes.Unimplemented;
   grpcCodes.Internal; grpcCodes.Unavailable; grpcCodes.DataLoss].

Definition is_error_code (c : Z) : bool := existsb (Z.eqb c) error_codes.

(** A hook gets past the test at its head: the context carries no
    per-call state, or one whose record flag is set. *)
Definition recording_enabled (ctx : Context) (w : World) : bool :=
  match call_context ctx w with
  | Some g => record g
  | None => true
  end.

(** What the hooks before the end of a call leave alone: no span is
    opened, closed or given a status, and nothing is recorded on the
    duration and per-call histograms. *)
Definition quiet (m : middleware) (es : list Effect) : Prop :=
  span_starts es = [] /\ span_ends es = [] /\ status_calls es = [] /\
  samples (i_name (rpcDuration_spec (role_ m))) es = [] /\
  samples (i_name (rpcRequestsPerRPC_spec (role_ m))) es = [] /\
  samples (i_name (rpcResponsesPerRPC_spec (role_ m))) es = [].

End rpc_spec.

Module http_spec.
Import otelgin.

(** The request filters a list of options configures. *)
Definition configured_filters (opts : list Option_) : list Filter :=
  flat_map (fun o => match o with WithFilter fs => fs | _ => [] end) opts.

Definition configured_gin_filters (opts : list Option_) : list GinFilter :=
  flat_map (fun o => match o with WithGinFilter fs => fs | _ => [] end) opts.

Definition is_WithGinFilter (o : Option_) : bool :=
  match o with
  | WithGinFilter _ => true
  | _ => false
  end.

(** A list of options without its [WithGinFilter] entries. *)
Definition without_gin_filters (opts : list Option_) : list Option_ :=
  List.filter (fun o => negb (is_WithGinFilter o)) opts.

(** The attribute set an effect carries. *)
Definition effect_attrs (e : Effect) : list KeyValue :=
  match e with
  | SpanStart _ _ _ _ _ kvs => kvs
  | SpanSetAttributes _ kvs => kvs
  | MetricRecord _ _ kvs => kvs
  | MetricAdd _ _ kvs => kvs
  | _ => []
  end.

(** No span and no metric sample is given a [http.route] attribute. *)
Definition no_route (es : list Effect) : Prop :=
  Forall (fun e => has_key "http.route" (effect_attrs e) = false) es.

(** Folding the options from any starting point. *)
Definition configure_from (c : settings) (opts : list Option_) : settings :=
  fold_left (fun c o => apply o c) opts c.

(** Two settings that agree on everything but the gin filters. *)
Definition same_but_gin_filters (a b : settings) : Prop :=
  TracerProvider a = TracerProvider b /\ MeterProvider a = MeterProvider b /\
  Propagators a = Propagators b /\ Filters a = Filters b /\
  SpanNameFormatter_ a = SpanNameFormatter_ b.

End http_spec.

(* ===================================================================== *)
(** ** Concrete inputs *)
(* ===================================================================== *)

Module examples.
Import otelgrpc.

(** A stand-in for the attribute builders of the internal packages. *)
Definition I0 : Internal :=
  {| ParseFullMethod := fun s => (s, [String_ "rpc.method" s]);
     NetTransport := fun n => String_ "net.transport" n;
     HTTPServerRequest := fun _ r _ =>
       [String_ "http.method" (Method r); String_ "http.target" (URLPath r)];
     HTTPServerRequestMetrics := fun _ r _ => [String_ "http.method" (Method r)];
     HTTPServerStatus := fun s => if s <? 500 then (Unset, "") else (Error, "") |}.

(** The registry after [InitTelemetry]: a meter that builds every
    instrument and the propagator of [initPropagator]. *)
Definition G0 : Globals :=
  {| g_TracerProvider := "sdk";
     g_Meter := fun spec => Created (Real spec);
     g_Propagators := initPropagator |}.

Definition w0 : World := {| gctxs := []; idgen := 0; clock := 0 |}.

Definition hello : RPCTagInfo :=
  {| FullMethodName := "/api.HelloService/SayHelloBidiStream"; FailFast := false |}.

Definition server : middleware := result (TracingMiddleware G0 RoleServer [] w0).

Definition filtered_server : middleware :=
  result (TracingMiddleware G0 RoleServer [WithFilter (Some (fun _ => false))] w0).

(** The span [TagRPC] opens for the first call of a process. *)
Definition first_span : SpanContext :=
  {| TraceID := be_bytes 16 1; SpanID := be_bytes 8 1; TraceFlags := x01; Remote := false |}.

(** The context and the state after [TagRPC] on the first call. *)
Definition tagged : Context := result (TagRPC I0 server background hello w0).
Definition w1 : World := final (TagRPC I0 server background hello w0).

Definition filtered_tagged : Context :=
  result (TagRPC I0 filtered_server background hello w0).
Definition filtered_w1 : World :=
  final (TagRPC I0 filtered_server background hello w0).

(** A context that carries a span and no Call Context. *)
Definition bare : Context :=
  ContextWithSpan background {| sp_ctx := first_span; sp_recording := true |}.

Definition internal_error : error :=
  StatusError {| Code_ := grpcCodes.Internal; Message := "boom" |}.

Definition not_found_error : error :=
  StatusError {| Code_ := grpcCodes.NotFound; Message := "no such user" |}.

End examples.

Module http_examples.
Import otelgin examples.

(** [GET /version] with one header and an empty body, on a router that
    has no route for it. *)
Definition get_version : GinContext :=
  {| Request_ := {| req_line := {| Method := "GET"; URLPath := "/version" |};
                    req_Header := {[ "Accept" := ["*/*"] ]};
                    req_Body := BodyData [];
                    req_Context := background |};
     Writer := freshWriter;
     Errors := [];
     Keys := ∅;
     FullPath := "";
     IsAborted := false |}.

(** The same request with a body that cannot be read. *)
Definition broken_upload : GinContext :=
  set_Request get_version
    (WithBody (Request_ get_version) (BodyBroken "unexpected EOF")).

(** A downstream handler: 3 ms of work and a 17-byte answer. *)
Definition ok_handler : HandlersChain :=
  fun c w =>
    (({| Request_ := Request_ c;
         Writer := {| w_Status := 200; w_Size := 17; w_written := ["{version: 0.1.0}"] |};
         Errors := Errors c; Keys := Keys c; FullPath := FullPath c;
         IsAborted := IsAborted c |},
      {| gctxs := gctxs w; idgen := idgen w; clock := clock w + 3000000 |}), []).

Definition no_version : Filter :=
  fun r => negb (String.eqb (URLPath (req_line r)) "/version").

Definition always : GinFilter := fun _ => false.

(** The configuration and the tracer of [Tracing "svc"] with no
    option. *)
Definition plain_cfg : config :=
  {| set := zero_settings;
     reqDuration := Real reqDuration_spec; reqSize := Real reqSize_spec;
     respSize := Real respSize_spec; activeReqs := Real activeReqs_spec |}.

Definition svc_tracer : Tracer := {| t_provider := "sdk"; t_scope := "svc" |}.
End http_examples.

(* ===================================================================== *)
(** ** Further observations *)
(* ===================================================================== *)

(** The errors handed to [otel.Handle], in order. *)
Definition handled_errors (es : list Effect) : list string :=
  omap (fun e => match e with ErrorHandled err => Some err | _ => None end) es.

(** The amounts added to the counter of a given name. *)
Definition counter_adds (name : string) (es : list Effect) : list Z :=
  omap (fun e => match e with
                 | MetricAdd i n _ => if String.eqb i name then Some n else None
                 | _ => None
                 end) es.

Module rpc_more.
Import otelgrpc.

(** [TagConn] and [HandleConn]: the connection hooks do nothing. *)
Definition TagConn (m : middleware) (ctx : Context) : Context := ctx.

Definition HandleConn (m : middleware) (ctx : Context) : M unit := mret tt.

(** The byte lengths of the messages received, and sent, in order. *)
Definition received_sizes (events : list RPCStats) : list Sample :=
  omap (fun rs => match rs with InPayload len => Some (SInt len) | _ => None end) events.

Definition sent_sizes (events : list RPCStats) : list Sample :=
  omap (fun rs => match rs with OutPayload len => Some (SInt len) | _ => None end) events.

(** The meter the handler ends up with. *)
Definition meter_of (g : Globals) (opts : list Option_) : Meter :=
  default (s_MeterProvider (configure opts)) (g_Meter g).


(** The five instruments of a handler, in the order [newConfig] asks for
    them. *)
Definition rpc_specs (role : Role) : list InstrumentSpec :=
  [rpcDuration_spec role; rpcRequestSize_spec role; rpcResponseSize_spec role;
   rpcRequestsPerRPC_spec role; rpcResponsesPerRPC_spec role].

(** The non-nil filters a list of options gives, in order. *)
Definition given_filters (opts : list Option_) : list (RPCTagInfo -> bool) :=
  omap (fun o => match o with WithFilter f => f | _ => None end) opts.

Definition given_span_attributes (opts : list Option_) : list (list KeyValue) :=
  omap (fun o => match o with WithSpanAttributes a => Some a | _ => None end) opts.

Definition given_metric_attributes (opts : list Option_) : list (list KeyValue) :=
  omap (fun o => match o with WithMetricAttributes a => Some a | _ => None end) opts.

End rpc_more.

Module http_more.
Import otelgin.

(** The meter built all four instruments of the middleware. *)
Definition instruments_created (cfg : config) : Prop :=
  reqDuration cfg = Real reqDuration_spec /\ reqSize cfg = Real reqSize_spec /\
  respSize cfg = Real respSize_spec /\ activeReqs cfg = Real activeReqs_spec.

(** The name [handler] gives the span of a request. *)
Definition chosen_name (cfg : config) (c : GinContext) : string :=
  match SpanNameFormatter_ (set cfg) with
  | None => FullPath c
  | Some f => f (Request_ c)
  end.

(** The formatters a list of options gives, nil ones included. *)
Definition given_formatters (opts : list Option_) : list (option SpanNameFormatter) :=
  omap (fun o => match o with WithSpanNameFormatter f => Some f | _ => None end) opts.

Definition is_provider_option (o : Option_) : bool :=
  match o with
  | WithTracerProvider _ | WithMeterProvider _ => true
  | _ => false
  end.

(** A list of options without its [WithTracerProvider] and
    [WithMeterProvider] entries. *)
Definition without_providers (opts : list Option_) : list Option_ :=
  List.filter (fun o => negb (is_provider_option o)) opts.

(** Two settings that agree on everything but the two providers. *)
Definition same_but_providers (a b : settings) : Prop :=
  Propagators a = Propagators b /\ Filters a = Filters b /\
  GinFilters a = GinFilters b /\ SpanNameFormatter_ a = SpanNameFormatter_ b.

(** The propagators a list of options gives, nil ones left out. *)
Definition given_propagators (opts : list Option_) : list TextMapPropagator :=
  omap (fun o => match o with WithPropagators p => p | _ => None end) opts.

(** The four instruments of the middleware, in the order [Tracing]
    asks for them. *)
Definition gin_specs : list InstrumentSpec :=
  [reqDuration_spec; reqSize_spec; respSize_spec; activeReqs_spec].

(** No instrument of the configuration records anything. *)
Definition instruments_noop (cfg : config) : Prop :=
  reqDuration cfg = Noop Float64Histogram /\ reqSize cfg = Noop Int64UpDownCounter /\
  respSize cfg = Noop Int64UpDownCounter /\ activeReqs cfg = Noop Int64UpDownCounter.

(** [GET /user/42] on a router that matched it to [/user/:id]; the
    handlers before the middleware left one error on the context. *)
Definition get_user : GinContext :=
  {| Request_ := {| req_line := {| Method := "GET"; URLPath := "/user/42" |};
                    req_Header := {[ "Accept" := ["*/*"] ]};
                    req_Body := BodyData [];
                    req_Context := background |};
     Writer := freshWriter;
     Errors := ["bad token"];
     Keys := ∅;
     FullPath := "/user/:id";
     IsAborted := false |}.

(** A formatter that names the span after the method and the path. *)
Definition method_and_path : SpanNameFormatter :=
  fun r => Method (req_line r) +:+ " " +:+ URLPath (req_line r).

(** A meter that fails on every instrument. *)
Definition broken_meter : Meter := fun spec => Failed None ("no " +:+ i_name spec).

End http_more.

(* ===================================================================== *)
(** ** Set-up and logging helpers (package kgsotel) *)
(* ===================================================================== *)

From Stdlib Require Import DecimalString.

Module kgsotel.

(** *** Go errors *)

(** An error of a library, one wrapped by [fmt.Errorf] with [%w] under
    a prefix, or the result of [errors.Join]. *)
#[warnings="-register-all"]
Inductive error :=
| errorString (msg : string)
| wrapError (prefix : string) (err : error)
| joinError (errs : list error).

(** [errors.Join]: nil values are discarded, and the result is nil when
    none is left. *)
Definition errors_Join (errs : list (option error)) : option error :=
  match omap id errs with
  | [] => None
  | e :: es => Some (joinError (e :: es))
  end.

(** *** The process as otel.go sees it *)

Inductive Signal := Traces | Metrics | Logs.

(** The functions [InitTelemetry] registers for shutdown. *)
Inductive Cleanup :=
| traceExporter_Shutdown
| meterProvider_Shutdown
| loggerProvider_Shutdown.

(** Calls on the providers and exporters. *)
Inductive Call :=
| ForceFlush (s : Signal)
| Run (fn : Cleanup).

(** [shutdownFuncs] is the variable the closures of one call of
    [InitTelemetry] share; the three flags tell whether the global
    provider of a signal is one of the SDK (what the type assertions of
    [sendAllBeforeShutdown] test); [zapGlobal] is what [zap.L()] returns:
    the no-op logger zap starts with, or the logger [initLogger] built
    for a service. *)
Record Process := {
  shutdownFuncs : list Cleanup;
  sdkTracerProvider : bool;
  sdkMeterProvider : bool;
  sdkLoggerProvider : bool;
  textMapPropagator : option TextMapPropagator;
  zapGlobal : option string;
  calls : list Call
}.

Definition with_shutdownFuncs (p : Process) (fs : list Cleanup) : Process :=
  {| shutdownFuncs := fs;
     sdkTracerProvider := sdkTracerProvider p; sdkMeterProvider := sdkMeterProvider p;
     sdkLoggerProvider := sdkLoggerProvider p; textMapPropagator := textMapPropagator p;
     zapGlobal := zapGlobal p; calls := calls p |}.

Definition called (p : Process) (cs : list Call) : Process :=
  {| shutdownFuncs := shutdownFuncs p;
     sdkTracerProvider := sdkTracerProvider p; sdkMeterProvider := sdkMeterProvider p;
     sdkLoggerProvider := sdkLoggerProvider p; textMapPropagator := textMapPropagator p;
     zapGlobal := zapGlobal p; calls := calls p ++ cs |}.

(** [otel.SetTracerProvider], [otel.SetMeterProvider] and
    [global.SetLoggerProvider] with a provider of the SDK. *)
Definition SetProvider (s : Signal) (p : Process) : Process :=
  {| shutdownFuncs := shutdownFuncs p;
     sdkTracerProvider := if s is Traces then true else sdkTracerProvider p;
     sdkMeterProvider := if s is Metrics then true else sdkMeterProvider p;
     sdkLoggerProvider := if s is Logs then true else sdkLoggerProvider p;
     textMapPropagator := textMapPropagator p;
     zapGlobal := zapGlobal p; calls := calls p |}.

Definition SetTextMapPropagator (props : TextMapPropagator) (p : Process) : Process :=
  {| shutdownFuncs := shutdownFuncs p;
     sdkTracerProvider := sdkTracerProvider p; sdkMeterProvider := sdkMeterProvider p;
     sdkLoggerProvider := sdkLoggerProvider p; textMapPropagator := Some props;
     zapGlobal := zapGlobal p; calls := calls p |}.

Definition ReplaceGlobals (logger : string) (p : Process) : Process :=
  {| shutdownFuncs := shutdownFuncs p;
     sdkTracerProvider := sdkTracerProvider p; sdkMeterProvider := sdkMeterProvider p;
     sdkLoggerProvider := sdkLoggerProvider p; textMapPropagator := textMapPropagator p;
     zapGlobal := Some logger; calls := calls p |}.

(** What the constructors of the libraries and the registered cleanups
    return: nil or an error. *)
Record Outcomes := {
  grpc_NewClient : option error;
  resource_New : option error;
  otlptracegrpc_New : option error;
  otlpmetricgrpc_New : option error;
  otlploggrpc_New : option error;
  cleanup_result : Cleanup -> option error
}.

(** *** otel.go *)

Section Init.

Variable o : Outcomes.

Definition initConn : option error :=
  match grpc_NewClient o with
  | Some err => Some (wrapError "init conn: " err)
  | None => None
  end.

(** The composite propagator of [initPropagator]. *)
Definition props : TextMapPropagator := initPropagator.

Definition initPropagator (p : Process) : Process := SetTextMapPropagator props p.

Definition initTracerProvider (p : Process) : (Cleanup + error) * Process :=
  match otlptracegrpc_New o with
  | Some err => (inr (wrapError "init trace exporter: " err), p)
  | None => (inl traceExporter_Shutdown, SetProvider Traces p)
  end.

Definition initMeterProvider (p : Process) : (Cleanup + error) * Process :=
  match otlpmetricgrpc_New o with
  | Some err => (inr (wrapError "create metrics exporter: " err), p)
  | None => (inl meterProvider_Shutdown, SetProvider Metrics p)
  end.

Definition initLoggerProvider (p : Process) : (Cleanup + error) * Process :=
  match otlploggrpc_New o with
  | Some err => (inr (wrapError "init logger exporter: " err), p)
  | None => (inl loggerProvider_Shutdown, SetProvider Logs p)
  end.

(** logger.go, [initLogger]: the logger built for the service replaces
    the global one. *)
Definition initLogger (serviceName : string) (p : Process) : Process :=
  ReplaceGlobals serviceName p.

(** The closure [finalShutdown]. *)
Definition finalShutdown (p : Process) : option error * Process :=
  (fold_left (fun err fn => errors_Join [err; cleanup_result o fn]) (shutdownFuncs p) None,
   with_shutdownFuncs (called p (map Run (shutdownFuncs p))) []).

(** The closure [sendAllBeforeShutdown]. *)
Definition sendAllBeforeShutdown (p : Process) : option error * Process :=
  let p := if sdkTracerProvider p then called p [ForceFlush Traces] else p in
  let p := if sdkMeterProvider p then called p [ForceFlush Metrics] else p in
  let p := if sdkLoggerProvider p then called p [ForceFlush Logs] else p in
  finalShutdown p.

(** The closure [handleErr]; its result is what it assigns to the
    named result [err]. *)
Definition handleErr (inErr : error) (p : Process) : option error * Process :=
  (errors_Join [Some inErr; fst (finalShutdown p)], snd (finalShutdown p)).

(** The function value [InitTelemetry] returns. *)
Inductive ShutdownFunc := FinalShutdown | SendAllBeforeShutdown.

Definition call (f : ShutdownFunc) (p : Process) : option error * Process :=
  match f with
  | FinalShutdown => finalShutdown p
  | SendAllBeforeShutdown => sendAllBeforeShutdown p
  end.

(** [InitTelemetry]: the shutdown function (nil where the source
    returns the named result [shutdown], which is never assigned), the
    error, and the process as it is left. *)
Definition InitTelemetry (serviceName : string) (p : Process)
    : (option ShutdownFunc * option error) * Process :=
  let p := with_shutdownFuncs p [] in
  match initConn with
  | Some err => ((Some FinalShutdown, fst (handleErr err p)), snd (handleErr err p))
  | None =>
  let p := initPropagator p in
  match resource_New o with
  | Some err => ((Some FinalShutdown, fst (handleErr err p)), snd (handleErr err p))
  | None =>
  match initTracerProvider p with
  | (inr err, p) => ((None, fst (handleErr err p)), snd (handleErr err p))
  | (inl shutdownTracer, p) =>
  let p := with_shutdownFuncs p (shutdownFuncs p ++ [shutdownTracer]) in
  match initMeterProvider p with
  | (inr err, p) => ((Some FinalShutdown, fst (handleErr err p)), snd (handleErr err p))
  | (inl shutdownMeter, p) =>
  let p := with_shutdownFuncs p (shutdownFuncs p ++ [shutdownMeter]) in
  match initLoggerProvider p with
  | (inr err, p) => ((Some FinalShutdown, fst (handleErr err p)), snd (handleErr err p))
  | (inl shutdownLogger, p) =>
  let p := with_shutdownFuncs p (shutdownFuncs p ++ [shutdownLogger]) in
  let p := initLogger serviceName p in
  ((Some SendAllBeforeShutdown, None), p)
  end end end end end.

(** The shutdown function called [n] times in a row: what each call
    returned, and the process after the last. *)
Fixpoint call_repeatedly (f : ShutdownFunc) (n : nat) (p : Process)
    : list (option error) * Process :=
  match n with
  | O => ([], p)
  | S n' =>
      (fst (call f p) :: fst (call_repeatedly f n' (snd (call f p))),
       snd (call_repeatedly f n' (snd (call f p))))
  end.

End Init.

(** *** utils.go *)

(** A frame of the call stack, as [runtime.Caller] and
    [runtime.FuncForPC] describe it. *)
Record Frame := { fr_file : string; fr_line : Z; fr_func : string }.

(** [%d]. *)
Definition itoa (n : Z) : string := NilZero.string_of_int (Z.to_int n).

(** [getCaller]; [stack] is the stack of the goroutine inside
    [getCaller], its own frame first, so that [skip] counts as it does
    for [runtime.Caller]. *)
Definition getCaller (stack : list Frame) (skip : nat) : string * string :=
  match stack !! skip with
  | None => ("unknown", "unknown")
  | Some f => (fr_file f +:+ ":" +:+ itoa (fr_line f), fr_func f)
  end.

(** The values the examples pass as [interface{}]. *)
Inductive Any :=
| AnyString (s : string)
| AnyInt (n : Z)
| AnyBool (b : bool)
| AnyError (msg : string).

(** [fmt.Sprintf("%v", value)]. *)
Definition Sprint (v : Any) : string :=
  match v with
  | AnyString s => s
  | AnyInt n => itoa n
  | AnyBool b => if b then "true" else "false"
  | AnyError msg => msg
  end.

Record Field := { f_Key : string; f_Value : Any }.

Definition NewFiled (key : string) (value : Any) : Field :=
  {| f_Key := key; f_Value := value |}.

(** [zap.Field]. *)
Record ZapField := { z_Key : string; z_Value : Any }.

Definition zap_String (key val : string) : ZapField :=
  {| z_Key := key; z_Value := AnyString val |}.

Definition zap_Any (key : string) (value : Any) : ZapField :=
  {| z_Key := key; z_Value := value |}.

Inductive Level := InfoLevel | WarnLevel | ErrorLevel.

(** What the helpers do to the span and to the logger. *)
Inductive Output :=
| Started (sc parent : SpanContext) (t : Tracer) (name : string)
| AddEvent (sc : SpanContext) (name : string)
| SetAttributes (sc : SpanContext) (attrs : list KeyValue)
| SetStatus (sc : SpanContext) (code : Code) (description : string)
| Logged (logger : string) (level : Level) (message : string) (fields : list ZapField).

Definition span_AddEvent (s : Span) (name : string) : list Output :=
  if sp_recording s then [AddEvent (sp_ctx s) name] else [].

Definition span_SetAttributes (s : Span) (attrs : list KeyValue) : list Output :=
  if sp_recording s then [SetAttributes (sp_ctx s) attrs] else [].

Definition span_SetStatus (s : Span) (code : Code) (description : string) : list Output :=
  if sp_recording s then [SetStatus (sp_ctx s) code description] else [].

(** [zap.L().Info], [.Warn] and [.Error]: the no-op logger drops the
    entry. *)
Definition zap_log (p : Process) (level : Level) (message : string)
    (fields : list ZapField) : list Output :=
  match zapGlobal p with
  | Some logger => [Logged logger level message fields]
  | None => []
  end.

(** [TraceID.String] and [SpanID.String]. *)
Definition ID_String (id : list byte) : string :=
  string_of_list_ascii (propagation.hex id).

Section Helpers.

(** The frame the runtime pushes when a function of this file is
    called. *)
Variable pushed : string -> Frame.

(** [setSpanAttrsAndZapFields]; [stack] is the stack inside it. *)
Definition setSpanAttrsAndZapFields (stack : list Frame) (ctx : Context)
    (fields : list Field) : (Span * list ZapField) * list Output :=
  let span := SpanFromContext ctx in
  let traceID := ID_String (TraceID (sp_ctx span)) in
  let spanID := ID_String (SpanID (sp_ctx span)) in
  let caller := fst (getCaller (pushed "getCaller" :: stack) 3) in
  let funcName := snd (getCaller (pushed "getCaller" :: stack) 3) in
  let attributes :=
    [String_ "traceID" traceID; String_ "spanID" spanID;
     String_ "caller" caller; String_ "funcName" funcName] in
  let zapFields :=
    [zap_String "traceID" traceID; zap_String "spanID" spanID;
     zap_String "caller" caller; zap_String "funcName" funcName] in
  let attributes :=
    fold_left (fun attributes field =>
                 attributes ++ [String_ (f_Key field) (Sprint (f_Value field))])
              fields attributes in
  let zapFields :=
    fold_left (fun zapFields field => zapFields ++ [zap_Any (f_Key field) (f_Value field)])
              fields zapFields in
  ((span, zapFields), span_SetAttributes span attributes).

(** [Info], [Warn] and [Error]; [stack] is the stack inside the
    helper, its own frame first. *)
Definition Info (p : Process) (stack : list Frame) (ctx : Context) (message : string)
    (fields : list Field) : list Output :=
  let r := setSpanAttrsAndZapFields (pushed "setSpanAttrsAndZapFields" :: stack) ctx fields in
  let span := fst (fst r) in
  let zapFields := snd (fst r) in
  snd r ++ span_AddEvent span message ++ zap_log p InfoLevel message zapFields.

Definition Warn (p : Process) (stack : list Frame) (ctx : Context) (message : string)
    (fields : list Field) : list Output :=
  let r := setSpanAttrsAndZapFields (pushed "setSpanAttrsAndZapFields" :: stack) ctx fields in
  let span := fst (fst r) in
  let zapFields := snd (fst r) in
  snd r ++ span_AddEvent span message ++ span_SetStatus span Error message
    ++ zap_log p WarnLevel message zapFields.

Definition Error_ (p : Process) (stack : list Frame) (ctx : Context) (message : string)
    (fields : list Field) : list Output :=
  let r := setSpanAttrsAndZapFields (pushed "setSpanAttrsAndZapFields" :: stack) ctx fields in
  let span := fst (fst r) in
  let zapFields := snd (fst r) in
  snd r ++ span_AddEvent span message ++ span_SetStatus span Error message
    ++ zap_log p ErrorLevel message zapFields.

(** [StartTrace], with the tracer provider of the SDK in place: the
    span and the state of the identifier generator are those of
    [tracer_Start]; the span is of the default kind and starts without
    attributes. *)
Definition StartTrace (g : Globals) (stack : list Frame) (ctx : Context) (w : World)
    : ((Context * Span) * World) * list Output :=
  let tracer := {| t_provider := g_TracerProvider g; t_scope := "" |} in
  let caller := fst (getCaller (pushed "getCaller" :: stack) 2) in
  let funcName := snd (getCaller (pushed "getCaller" :: stack) 2) in
  let r := tracer_Start tracer ctx funcName SpanKindServer [] w in
  let ctx' := fst (result r) in
  let span := snd (result r) in
  let traceID := ID_String (TraceID (sp_ctx span)) in
  let spanID := ID_String (SpanID (sp_ctx span)) in
  let attributes :=
    [String_ "traceID" traceID; String_ "spanID" spanID;
     String_ "caller" caller; String_ "funcName" funcName] in
  (((ctx', span), final r),
   Started (sp_ctx span) (SpanContextFromContext ctx) tracer funcName
     :: span_SetAttributes span attributes).

End Helpers.

(** The helper of a level. *)
Definition log_at (level : Level) :=
  match level with
  | InfoLevel => Info
  | WarnLevel => Warn
  | ErrorLevel => Error_
  end.

End kgsotel.

Module init_spec.
Import kgsotel.

(** The cleanups run, in order. *)
Definition cleanups_run (cs : list Call) : list Cleanup :=
  omap (fun c => match c with Run fn => Some fn | _ => None end) cs.

(** The providers flushed, in order. *)
Definition flushes (cs : list Call) : list Signal :=
  omap (fun c => match c with ForceFlush s => Some s | _ => None end) cs.

(** Every constructor [InitTelemetry] calls succeeds. *)
Definition all_built (o : Outcomes) : Prop :=
  grpc_NewClient o = None /\ resource_New o = None /\ otlptracegrpc_New o = None /\
  otlpmetricgrpc_New o = None /\ otlploggrpc_New o = None.

(** The errors of the cleanups, joined as [finalShutdown] joins them. *)
Definition joined_errors (o : Outcomes) (fs : list Cleanup) : option error :=
  fold_left (fun err fn => errors_Join [err; cleanup_result o fn]) fs None.

(** The log entries written. *)
Definition entries (out : list Output) : list (Level * string * list ZapField) :=
  omap (fun x => match x with Logged _ l m fs => Some (l, m, fs) | _ => None end) out.

(** What was done to spans. *)
Definition on_span (out : list Output) : list Output :=
  List.filter (fun x => match x with Logged _ _ _ _ => false | _ => true end) out.

(** The four fields every log entry starts with, and the four
    attributes the span gets with them. *)
Definition id_fields (sc : SpanContext) (caller funcName : string) : list ZapField :=
  [zap_String "traceID" (ID_String (TraceID sc)); zap_String "spanID" (ID_String (SpanID sc));
   zap_String "caller" caller; zap_String "funcName" funcName].

Definition id_attrs (sc : SpanContext) (caller funcName : string) : list KeyValue :=
  [String_ "traceID" (ID_String (TraceID sc)); String_ "spanID" (ID_String (SpanID sc));
   String_ "caller" caller; String_ "funcName" funcName].

(** The attribute and the log field made of a field of the caller. *)
Definition field_attr (f : Field) : KeyValue := String_ (f_Key f) (Sprint (f_Value f)).

Definition field_zap (f : Field) : ZapField := zap_Any (f_Key f) (f_Value f).

(** The log records, with the logger that wrote them. *)
Definition logged (out : list Output) : list Output :=
  List.filter (fun x => match x with Logged _ _ _ _ => true | _ => false end) out.

(** A process in which nothing was set up. *)
Definition fresh : Process :=
  {| shutdownFuncs := []; sdkTracerProvider := false; sdkMeterProvider := false;
     sdkLoggerProvider := false; textMapPropagator := None; zapGlobal := None;
     calls := [] |}.

(** A collector that answers, with healthy cleanups. *)
Definition healthy : Outcomes :=
  {| grpc_NewClient := None; resource_New := None; otlptracegrpc_New := None;
     otlpmetricgrpc_New := None; otlploggrpc_New := None;
     cleanup_result := fun _ => None |}.

(** The metric exporter cannot be built, and the trace exporter fails
    to shut down. *)
Definition no_metrics : Outcomes :=
  {| grpc_NewClient := None; resource_New := None; otlptracegrpc_New := None;
     otlpmetricgrpc_New := Some (errorString "metrics: connection refused");
     otlploggrpc_New := None;
     cleanup_result := fun fn => if fn is traceExporter_Shutdown
                                 then Some (errorString "trace exporter: timeout") else None |}.

(** The trace exporter cannot be built. *)
Definition no_traces : Outcomes :=
  {| grpc_NewClient := None; resource_New := None;
     otlptracegrpc_New := Some (errorString "traces: connection refused");
     otlpmetricgrpc_New := None; otlploggrpc_New := None;
     cleanup_result := fun _ => None |}.

(** Frames of the library and of a handler that logs. *)
Definition lib_frame (function : string) : Frame :=
  {| fr_file := "utils.go"; fr_line := 0; fr_func := "kgsotel." +:+ function |}.

Definition fooHandler : Frame :=
  {| fr_file := "http.go"; fr_line := 67; fr_func := "main.fooHandler" |}.

(** A context that carries a recording span. *)
Definition in_span : Context := ContextWithSpan background
  {| sp_ctx := examples.first_span; sp_recording := true |}.

(** A process whose logger was built for the service. *)
Definition ready : Process :=
  {| shutdownFuncs := []; sdkTracerProvider := true; sdkMeterProvider := true;
     sdkLoggerProvider := true; textMapPropagator := Some props; zapGlobal := Some "svc";
     calls := [] |}.

End init_spec.

Module rpc_calls.
Import otelgrpc.

(** The status-code attribute the end hook builds. *)
Definition status_attr (err : option error) : KeyValue :=
  match err with
  | Some e => Int_ RPCGRPCStatusCodeKey (Code_ (FromError e))
  | None => Int_ RPCGRPCStatusCodeKey grpcCodes.OK
  end.

(** The instruments an event of a recorded call is recorded on, with
    the attribute set of each sample, given the attributes of the
    call. *)
Definition event_calls (role : Role) (attrs : list KeyValue) (rs : RPCStats)
    : list (string * list KeyValue) :=
  match rs with
  | InPayload _ => [(i_name (rpcRequestSize_spec role), attrs)]
  | OutPayload _ => [(i_name (rpcResponseSize_spec role), attrs)]
  | End_ err _ _ =>
      [(i_name (rpcDuration_spec role), attrs ++ [status_attr err]);
       (i_name (rpcRequestsPerRPC_spec role), attrs ++ [status_attr err]);
       (i_name (rpcResponsesPerRPC_spec role), attrs ++ [status_attr err])]
  | _ => []
  end.

(** The attributes [TagRPC] gives the samples of a call. *)
Definition call_attrs (I : Internal) (m : middleware) (info : RPCTagInfo) : list KeyValue :=
  (snd (ParseFullMethod I (FullMethodName info)) ++ [RPCSystemGRPC])
    ++ MetricAttributes (config_ m).

(** The non-nil providers a list of options gives, in order. *)
Definition given_tracer_providers (opts : list Option_) : list string :=
  omap (fun o => match o with WithTracerProvider p => p | _ => None end) opts.

Definition given_meter_providers (opts : list Option_) : list Meter :=
  omap (fun o => match o with WithMeterProvider p => p | _ => None end) opts.

End rpc_calls.

(* ===================================================================== *)
(** ** Running computations *)
(* ===================================================================== *)

Lemma final_bind {A B} (m : M A) (f : A -> M B) w :
  final ((m ≫= f) w) = final (f (result (m w)) (final (m w))).
Proof. reflexivity. Qed.

Lemma result_bind {A B} (m : M A) (f : A -> M B) w :
  result ((m ≫= f) w) = result (f (result (m w)) (final (m w))).
Proof. reflexivity. Qed.

Lemma effects_bind {A B} (m : M A) (f : A -> M B) w :
  effects ((m ≫= f) w) = effects (m w) ++ effects (f (result (m w)) (final (m w))).
Proof. reflexivity. Qed.

Ltac run :=
  unfold mbind, M_bind, bind, mret, M_ret, ret, emit, result, final, effects in *;
  cbn in *.

Ltac split_match :=
  match goal with
  | |- context [match ?x with _ => _ end] => destruct x eqn:?
  end.

Lemma span_starts_app a b : span_starts (a ++ b) = span_starts a ++ span_starts b.
Proof. apply omap_app. Qed.

Lemma span_ends_app a b : span_ends (a ++ b) = span_ends a ++ span_ends b.
Proof. apply omap_app. Qed.

Lemma status_calls_app a b : status_calls (a ++ b) = status_calls a ++ status_calls b.
Proof. apply omap_app. Qed.

Lemma attribute_calls_app a b :
  attribute_calls (a ++ b) = attribute_calls a ++ attribute_calls b.
Proof. apply omap_app. Qed.

Lemma samples_app n a b : samples n (a ++ b) = samples n a ++ samples n b.
Proof. apply omap_app. Qed.

Lemma metric_calls_app a b : metric_calls (a ++ b) = metric_calls a ++ metric_calls b.
Proof. apply omap_app. Qed.

(* ===================================================================== *)
(** ** The gRPC stats handler: facts about the hooks *)
(* ===================================================================== *)

Module rpc_facts.
Import otelgrpc rpc_spec.

#[local] Arguments call_context : simpl never.

Ltac unfold_hooks :=
  unfold HandleRPC, handle_event, load_gctx, atomic_LoadInt64,
    instrument_Record, span_SetStatus, span_SetAttributes, span_End in *.

Section Facts.

Variable I : Internal.
Variable m : middleware.

(** No hook writes the process state: in particular the two message
    counters of a call keep the value [TagRPC] gave them. *)
Lemma HandleRPC_final ctx rs w : final (HandleRPC I m ctx rs w) = w.
Proof. unfold_hooks. run. repeat (split_match; cbn); reflexivity. Qed.

Lemma forM_HandleRPC_final ctx events w :
  final (forM_ events (HandleRPC I m ctx) w) = w.
Proof.
  induction events as [|rs events IH]; [reflexivity|].
  cbn [forM_]. rewrite final_bind, HandleRPC_final. apply IH.
Qed.

(** A call whose record flag is off: every hook returns at once. *)
Lemma HandleRPC_gated ctx rs w g :
  call_context ctx w = Some g -> record g = false ->
  effects (HandleRPC I m ctx rs w) = [].
Proof.
  intros Hg Hr. unfold HandleRPC, load_gctx. run. rewrite Hg. cbn.
  rewrite Hr. reflexivity.
Qed.

Lemma forM_HandleRPC_gated ctx events w g :
  call_context ctx w = Some g -> record g = false ->
  effects (forM_ events (HandleRPC I m ctx) w) = [].
Proof.
  intros Hg Hr. induction events as [|rs events IH]; [reflexivity|].
  cbn [forM_].
  rewrite effects_bind, HandleRPC_final, IH, (HandleRPC_gated _ _ _ g); auto.
Qed.

Lemma run_call_effects ctx info events err b e w :
  let r1 := TagRPC I m ctx info w in
  effects (run_call I m ctx info events err b e w) =
    effects r1 ++ effects (forM_ events (HandleRPC I m (result r1)) (final r1))
               ++ effects (HandleRPC I m (result r1) (End_ err b e) (final r1))
  /\ result (run_call I m ctx info events err b e w) = result r1.
Proof.
  cbn zeta. unfold run_call. split.
  - rewrite !effects_bind, forM_HandleRPC_final. cbn. rewrite app_nil_r. reflexivity.
  - reflexivity.
Qed.

(** [TagRPC] opens one recording span and attaches fresh per-call
    state whose counters are zero and whose record flag is the
    verdict of the filter. *)
Lemma TagRPC_spec ctx info w :
  let r := TagRPC I m ctx info w in
  exists s g,
    ctx_span (result r) = Some s /\
    call_context (result r) (final r) = Some g /\
    sp_recording s = true /\
    record g = filter_accepts m info /\
    messagesReceived g = 0 /\ messagesSent g = 0 /\
    span_starts (effects r) = [sp_ctx s] /\ span_ends (effects r) = [] /\
    metric_calls (effects r) = [] /\
    (forall name, samples name (effects r) = []).
Proof.
  unfold TagRPC, tracer_Start, new_gctx, filter_accepts. run.
  destruct (isServer (role_ m)); [|unfold inject; destruct (Propagators (config_ m))];
    cbn; do 2 eexists; (split; [reflexivity|]);
    (split; [unfold call_context; cbn; apply list_lookup_middle; reflexivity|]);
    repeat split; reflexivity.
Qed.

Hypothesis Hm : instruments_created m.

Lemma quiet_app es1 es2 : quiet m es1 -> quiet m es2 -> quiet m (es1 ++ es2).
Proof.
  unfold quiet, span_starts, span_ends, status_calls, samples.
  intros (?&?&?&?&?&?) (?&?&?&?&?&?). rewrite !omap_app.
  repeat split; apply app_nil; split; assumption.
Qed.

Lemma HandleRPC_quiet ctx rs w :
  is_End rs = false -> quiet m (effects (HandleRPC I m ctx rs w)).
Proof.
  destruct Hm as (Hd & Hrq & Hrs & Hn & Hk).
  intros HE. unfold quiet. unfold_hooks. run. rewrite ?Hd, ?Hrq, ?Hrs, ?Hn, ?Hk.
  destruct rs; try discriminate HE; destruct (role_ m);
    (destruct (call_context ctx w) as [g|]; [destruct (record g)|]);
    destruct (ctx_peer ctx); destruct (sp_recording (SpanFromContext ctx));
    repeat split; reflexivity.
Qed.

Lemma forM_HandleRPC_quiet ctx events w :
  forallb (fun rs => negb (is_End rs)) events = true ->
  quiet m (effects (forM_ events (HandleRPC I m ctx) w)).
Proof.
  induction events as [|rs events IH]; cbn [forallb forM_]; intros H.
  - repeat split.
  - apply andb_prop in H as [H1 H2]. rewrite effects_bind, HandleRPC_final.
    apply quiet_app; [|auto].
    apply HandleRPC_quiet. destruct (is_End rs); [discriminate|reflexivity].
Qed.

(** The hook at the end of a call that records. *)
Lemma HandleRPC_End_open ctx s g err b e w :
  ctx_span ctx = Some s -> sp_recording s = true ->
  call_context ctx w = Some g -> record g = true ->
  let es := effects (HandleRPC I m ctx (End_ err b e) w) in
  span_starts es = [] /\ span_ends es = [sp_ctx s] /\
  samples (i_name (rpcDuration_spec (role_ m))) es = [SMillis (e - b)] /\
  samples (i_name (rpcRequestsPerRPC_spec (role_ m))) es = [SInt (messagesReceived g)] /\
  samples (i_name (rpcResponsesPerRPC_spec (role_ m))) es = [SInt (messagesSent g)].
Proof.
  destruct Hm as (Hd & Hrq & Hrs & Hn & Hk).
  intros Hs Hrec Hg Hr. unfold_hooks. unfold SpanFromContext. run.
  rewrite !Hg, Hr, Hs, Hd, Hn, Hk. cbn. rewrite Hrec. cbn.
  destruct (role_ m), err as [er|]; cbn; rewrite ?Hg; repeat split; reflexivity.
Qed.

End Facts.

(** A meter that builds what it is asked for yields a handler with
    all five instruments. *)
Lemma instruments_created_TracingMiddleware g role opts w :
  (forall spec,
      default (s_MeterProvider (configure opts)) (g_Meter g) spec = Created (Real spec)) ->
  instruments_created (result (TracingMiddleware g role opts w)).
Proof.
  intros H. unfold instruments_created, TracingMiddleware, newConfig, create_instrument.
  cbv zeta. rewrite !H. repeat split; reflexivity.
Qed.

End rpc_facts.

(* ===================================================================== *)
(** ** The gRPC stats handler: what the specification states *)
(* ===================================================================== *)

Section RPCClaims.
Import otelgrpc rpc_spec rpc_facts examples.

#[local] Arguments call_context : simpl never.
#[local] Arguments is_error_code : simpl never.

(** C1, as the code has it.  The per-call histograms are meant to
    receive the number of messages of each direction, but no hook ever
    increments [messagesReceived] or [messagesSent]: whatever the payload
    events of a recorded call, the samples recorded on [requests_per_rpc]
    and [responses_per_rpc] at its end are both 0. *)
Theorem per_rpc_samples_stay_zero I m ctx info events err b e w :
  instruments_created m ->
  filter_accepts m info = true ->
  forallb (fun rs => negb (is_End rs)) events = true ->
  let r := run_call I m ctx info events err b e w in
  samples (i_name (rpcRequestsPerRPC_spec (role_ m))) (effects r) = [SInt 0] /\
  samples (i_name (rpcResponsesPerRPC_spec (role_ m))) (effects r) = [SInt 0].
Proof.
  intros Hm Ha Hev. cbn zeta.
  destruct (run_call_effects I m ctx info events err b e w) as [-> _].
  destruct (TagRPC_spec I m ctx info w)
    as (s & g & Hs & Hg & Hrec & Hr & Hin & Hout & _ & _ & _ & Hsa).
  rewrite Ha in Hr.
  pose proof (forM_HandleRPC_quiet I m Hm (result (TagRPC I m ctx info w)) events
                (final (TagRPC I m ctx info w)) Hev) as (_ & _ & _ & _ & Q5 & Q6).
  destruct (HandleRPC_End_open I m Hm _ s g err b e _ Hs Hrec Hg Hr) as (_ & _ & _ & E4 & E5).
  rewrite !samples_app, !Hsa, Q5, Q6, E4, E5, Hin, Hout. split; reflexivity.
Qed.

(** Three messages in, two out, and both samples are 0. *)
Lemma per_rpc_samples_stay_zero_witness :
  let events := [Begin; InPayload 5; OutPayload 7; InPayload 3; InPayload 4; OutPayload 1] in
  let r := run_call I0 server background hello events None 10 30 w0 in
  length (List.filter is_InPayload events) = 3%nat /\
  length (List.filter is_OutPayload events) = 2%nat /\
  samples "rpc.server.requests_per_rpc" (effects r) = [SInt 0] /\
  samples "rpc.server.responses_per_rpc" (effects r) = [SInt 0].
Proof.
  cbn zeta. split; [reflexivity|]. split; [reflexivity|].
  apply (per_rpc_samples_stay_zero I0 server background hello
           [Begin; InPayload 5; OutPayload 7; InPayload 3; InPayload 4; OutPayload 1]
           None 10 30 w0).
  - apply instruments_created_TracingMiddleware. reflexivity.
  - reflexivity.
  - reflexivity.
Defined.

(** C2 (amended).  [TagRPC] opens exactly one span for a call.  When
    the call is recorded (no filter, or the filter accepted it) the end
    hook closes that span exactly once and records exactly one duration
    sample; when the filter turned recording off, no hook records any
    metric sample, the duration included. *)
Theorem span_closed_once_when_recorded I m ctx info events err b e w :
  instruments_created m ->
  forallb (fun rs => negb (is_End rs)) events = true ->
  let r := run_call I m ctx info events err b e w in
  let sp := SpanContextFromContext (result r) in
  span_starts (effects r) = [sp] /\
  if filter_accepts m info
  then span_ends (effects r) = [sp] /\
       samples (i_name (rpcDuration_spec (role_ m))) (effects r) = [SMillis (e - b)]
  else metric_calls (effects r) = [].
Proof.
  intros Hm Hev. cbn zeta.
  destruct (run_call_effects I m ctx info events err b e w) as [-> ->].
  destruct (TagRPC_spec I m ctx info w)
    as (s & g & Hs & Hg & Hrec & Hr & _ & _ & Hst & Hen & Hmc & Hsa).
  pose proof (forM_HandleRPC_quiet I m Hm (result (TagRPC I m ctx info w)) events
                (final (TagRPC I m ctx info w)) Hev) as (Q1 & Q2 & _ & Q4 & _).
  unfold SpanContextFromContext, SpanFromContext. rewrite Hs.
  destruct (filter_accepts m info) eqn:Ha.
  - destruct (HandleRPC_End_open I m Hm _ s g err b e _ Hs Hrec Hg Hr) as (E1 & E2 & E3 & _).
    rewrite !span_starts_app, !span_ends_app, !samples_app, Hst, Hen, Hsa, Q1, Q2, Q4, E1, E2, E3.
    repeat split; reflexivity.
  - rewrite !span_starts_app, !metric_calls_app, Hst, Hmc, Q1.
    rewrite (forM_HandleRPC_gated I m _ events _ g Hg Hr), (HandleRPC_gated I m _ _ _ g Hg Hr).
    split; reflexivity.
Qed.

Lemma span_closed_once_when_recorded_witness :
  let r := run_call I0 server background hello
             [Begin; InPayload 5; OutHeader; OutPayload 7] None 10 30 w0 in
  span_starts (effects r) = [first_span] /\
  span_ends (effects r) = [first_span] /\
  samples "rpc.server.duration" (effects r) = [SMillis 20].
Proof.
  assert (Hm : instruments_created server)
    by (apply instruments_created_TracingMiddleware; reflexivity).
  destruct (span_closed_once_when_recorded I0 server background hello
              [Begin; InPayload 5; OutHeader; OutPayload 7] None 10 30 w0 Hm eq_refl)
    as [H1 [H2 H3]].
  split; [exact H1 | split; [exact H2 | exact H3]].
Defined.

(** Against C2 as first stated: with a filter that turns recording
    off, the span [TagRPC] opened is not closed by the end hook and no
    duration sample is recorded. *)
Lemma filtered_call_not_closed_no_duration :
  let r := run_call I0 filtered_server background hello
             [Begin; InPayload 5; OutPayload 7] None 10 30 w0 in
  span_starts (effects r) = [first_span] /\
  ~ In first_span (span_ends (effects r)) /\
  length (samples "rpc.server.duration" (effects r)) <> 1%nat.
Proof. vm_compute. split; [reflexivity|]. split; [tauto | discriminate]. Qed.

Lemma serverStatus_spec s :
  serverStatus s = if is_error_code (Code_ s) then (Error, Message s) else (Unset, "").
Proof.
  unfold serverStatus, is_error_code, error_codes. cbn [existsb].
  rewrite orb_false_r, !orb_assoc. reflexivity.
Qed.

(** C3 (amended).  For a server-role handler and a call whose hooks
    are not turned off by the filter: a terminal error whose gRPC code is
    Unknown, DeadlineExceeded, Unimplemented, Internal, Unavailable or
    DataLoss sets the span status to Error with the message of the
    status; any other terminal error sets it to Unset; without a
    terminal error no status is set; and in each case the
    [rpc.grpc.status_code] attribute put on the span and on every metric
    sample is the code of the status, OK (0) when there is no error. *)
Theorem server_end_status I m ctx s err b e w :
  role_ m = RoleServer ->
  ctx_span ctx = Some s -> sp_recording s = true ->
  recording_enabled ctx w = true ->
  let es := effects (HandleRPC I m ctx (End_ err b e) w) in
  status_calls es =
    match err with
    | Some er =>
        if is_error_code (Code_ (FromError er))
        then [(sp_ctx s, Error, Message (FromError er))]
        else [(sp_ctx s, Unset, "")]
    | None => []
    end /\
  let code := match err with
              | Some er => Code_ (FromError er)
              | None => 0
              end in
  attribute_calls es = [(sp_ctx s, [Int_ "rpc.grpc.status_code" code])] /\
  (forall i kvs, In (i, kvs) (metric_calls es) ->
                 In (Int_ "rpc.grpc.status_code" code) kvs).
Proof.
  intros Hrole Hs Hrec Hen. unfold recording_enabled in Hen.
  unfold_hooks. unfold SpanFromContext.
  destruct (rpcDuration (config_ m)), (rpcRequestsPerRPC (config_ m)),
    (rpcResponsesPerRPC (config_ m));
    run; rewrite Hs, Hrole; cbn;
    (destruct (call_context ctx w) as [g|] eqn:Hg; [rewrite Hen|]); cbn;
    rewrite ?Hg, ?Hrec; destruct err as [er|]; cbn;
    rewrite ?serverStatus_spec; try destruct (is_error_code (Code_ (FromError er)));
    cbn; rewrite ?Hrec; cbn;
    (split; [reflexivity|]); (split; [reflexivity|]);
    intros i kvs Hin;
    repeat (destruct Hin as [Hin|Hin]; [inversion Hin; subst; clear Hin|]);
    try contradiction;
    first [left; reflexivity | apply in_or_app; right; left; reflexivity].
Qed.

Lemma server_end_status_witness :
  status_calls (effects (HandleRPC I0 server tagged (End_ (Some internal_error) 10 30) w1))
    = [(first_span, Error, "boom")] /\
  status_calls (effects (HandleRPC I0 server tagged (End_ (Some not_found_error) 10 30) w1))
    = [(first_span, Unset, "")] /\
  attribute_calls (effects (HandleRPC I0 server tagged (End_ None 10 30) w1))
    = [(first_span, [Int_ "rpc.grpc.status_code" 0])].
Proof.
  pose proof (fun err => server_end_status I0 server tagged
                {| sp_ctx := first_span; sp_recording := true |} err 10 30 w1
                eq_refl eq_refl eq_refl eq_refl) as H.
  split; [exact (proj1 (H (Some internal_error)))|].
  split; [exact (proj1 (H (Some not_found_error)))|].
  exact (proj1 (proj2 (H None))).
Defined.

(** Against C3 as first stated: on a call the filter turned off, the
    call ends with Internal and the span [TagRPC] opened gets no status. *)
Lemma filtered_call_error_not_reported :
  let r := run_call I0 filtered_server background hello
             [Begin; InPayload 5] (Some internal_error) 10 30 w0 in
  span_starts (effects r) = [first_span] /\
  ~ In (first_span, Error, "boom") (status_calls (effects r)).
Proof. vm_compute. split; [reflexivity | tauto]. Qed.

(** C5 (amended).  No hook fails or writes the process state.  On a
    context with no Call Context the Begin, payload, InHeader, InTrailer
    and OutTrailer hooks do nothing; the OutHeader hook still puts the
    transport attribute on the span of the context when the peer is
    known; the End hook still puts the status code on that span, ends
    it and records one duration sample, whose only attribute is the
    status code, and no per-call sample.  A filtered-out call does carry a Call Context, with the
    record flag off, and every hook on it does nothing. *)
Theorem hook_without_call_context I m ctx rs w :
  let r := HandleRPC I m ctx rs w in
  let span := SpanFromContext ctx in
  final r = w /\
  match call_context ctx w with
  | Some g => record g = false -> effects r = []
  | None =>
      match rs with
      | End_ err b e =>
          let code := match err with
                      | Some er => Code_ (FromError er)
                      | None => 0
                      end in
          span_ends (effects r) = (if sp_recording span then [sp_ctx span] else []) /\
          attribute_calls (effects r) =
            (if sp_recording span
             then [(sp_ctx span, [Int_ "rpc.grpc.status_code" code])]
             else []) /\
          metric_calls (effects r) =
            match rpcDuration (config_ m) with
            | Real spec => [(i_name spec, [Int_ "rpc.grpc.status_code" code])]
            | Noop _ => []
            end
      | OutHeader =>
          effects r =
            match ctx_peer ctx with
            | Some network =>
                if sp_recording span
                then [SpanSetAttributes (sp_ctx span) [NetTransport I network]]
                else []
            | None => []
            end
      | _ => effects r = []
      end
  end.
Proof.
  cbn zeta. split; [apply HandleRPC_final|].
  destruct (call_context ctx w) as [g|] eqn:Hg.
  - intros Hr. apply (HandleRPC_gated I m ctx rs w g Hg Hr).
  - unfold_hooks. run. rewrite Hg. cbn.
    destruct rs as [| | | | | | |err b e]; cbn; try reflexivity.
    + destruct (ctx_peer ctx); [|reflexivity]. cbn.
      destruct (sp_recording (SpanFromContext ctx)); reflexivity.
    + destruct (rpcDuration (config_ m)), (sp_recording (SpanFromContext ctx)),
        err as [er|], (isServer (role_ m)); cbn; repeat split; reflexivity.
Qed.

Lemma hook_without_call_context_witness :
  span_ends (effects (HandleRPC I0 server bare (End_ None 10 30) w0)) = [first_span] /\
  metric_calls (effects (HandleRPC I0 server bare (End_ None 10 30) w0))
    = [("rpc.server.duration", [Int_ "rpc.grpc.status_code" 0])] /\
  effects (HandleRPC I0 server bare (InPayload 5) w0) = [] /\
  effects (HandleRPC I0 filtered_server filtered_tagged (End_ None 10 30) filtered_w1) = [].
Proof.
  pose proof (hook_without_call_context I0 server bare (End_ None 10 30) w0)
    as [_ [H1 [_ H2]]].
  pose proof (hook_without_call_context I0 server bare (InPayload 5) w0) as [_ H3].
  pose proof (hook_without_call_context I0 filtered_server filtered_tagged
                (End_ None 10 30) filtered_w1) as [_ H4].
  split; [exact H1|]. split; [exact H2|]. split; [exact H3|]. exact (H4 eq_refl).
Defined.

(** Against C5 as first stated: on a context with a span and no Call
    Context the End hook closes the span and records a duration sample. *)
Lemma end_hook_without_call_context_acts :
  let es := effects (HandleRPC I0 server bare (End_ None 10 30) w0) in
  In (SpanEnd first_span) es /\ samples "rpc.server.duration" es = [SMillis 20].
Proof. vm_compute. split; [tauto | reflexivity]. Qed.
End RPCClaims.

(* ===================================================================== *)
(** ** The gin middleware: facts, and what the specification states *)
(* ===================================================================== *)

Module http_facts.
Import otelgin http_spec.

Lemma has_key_app k a b : has_key k (a ++ b) = has_key k a || has_key k b.
Proof. apply existsb_app. Qed.

Lemma rejected_In fs f r : In f fs -> f r = false -> rejected fs r = true.
Proof.
  induction fs as [|f' fs IH]; cbn; [tauto|].
  intros [->|Hin] Hf.
  - rewrite Hf. reflexivity.
  - destruct (f' r); cbn; auto.
Qed.

Lemma Filters_configure_from opts : forall c,
  Filters (configure_from c opts) = Filters c ++ configured_filters opts.
Proof.
  induction opts as [|o opts IH]; intros c; cbn.
  - rewrite app_nil_r. reflexivity.
  - unfold configure_from in IH. rewrite IH.
    destruct o; cbn; rewrite ?app_assoc; try reflexivity;
      destruct propagators || destruct provider; reflexivity.
Qed.

Lemma GinFilters_configure_from opts : forall c,
  GinFilters (configure_from c opts) = GinFilters c ++ configured_gin_filters opts.
Proof.
  induction opts as [|o opts IH]; intros c; cbn.
  - rewrite app_nil_r. reflexivity.
  - unfold configure_from in IH. rewrite IH.
    destruct o; cbn; rewrite ?app_assoc; try reflexivity;
      destruct propagators || destruct provider; reflexivity.
Qed.

Lemma apply_same_but_gin_filters o a b :
  same_but_gin_filters a b -> same_but_gin_filters (apply o a) (apply o b).
Proof.
  intros (H1 & H2 & H3 & H4 & H5). unfold same_but_gin_filters.
  destruct o as [p|p|p|f|f|f]; try destruct p; cbn; rewrite ?H1, ?H2, ?H3, ?H4, ?H5; tauto.
Qed.

Lemma configure_from_without_gin_filters opts : forall a b,
  same_but_gin_filters a b ->
  same_but_gin_filters (configure_from a opts) (configure_from b (without_gin_filters opts)).
Proof.
  induction opts as [|o opts IH]; intros a b H; [exact H|].
  cbn. destruct (is_WithGinFilter o) eqn:Ho; cbn.
  - apply IH. destruct o; try discriminate Ho. exact H.
  - apply IH. apply apply_same_but_gin_filters. exact H.
Qed.

Lemma create_instrument_spec meter spec w :
  creations (effects (create_instrument meter spec w)) = [(i_kind spec, i_name spec, i_unit spec)] /\
  final (create_instrument meter spec w) = w.
Proof. unfold create_instrument. run. destruct (meter spec); split; reflexivity. Qed.

End http_facts.

Section HTTPClaims.
Import otelgin http_spec http_facts examples http_examples.

(** C4 (amended).  The gin middleware, which only has the server
    role, asks the meter for [http.server.request.duration] (a
    millisecond histogram), [http.server.request.body.size],
    [http.server.response.body.size] and [http.server.active_requests]
    (up/down counters); the gRPC handler of role R asks for
    [rpc.R.duration] (a millisecond histogram), [rpc.R.request.size],
    [rpc.R.response.size], [rpc.R.requests_per_rpc] and
    [rpc.R.responses_per_rpc] (histograms); neither asks for anything
    else. *)
Theorem instrument_names I g sn hopts role ropts w :
  creations (effects (Tracing I g sn hopts w)) =
    [(Float64Histogram, "http.server.request.duration", "ms");
     (Int64UpDownCounter, "http.server.request.body.size", "By");
     (Int64UpDownCounter, "http.server.response.body.size", "By");
     (Int64UpDownCounter, "http.server.active_requests", "{count}")] /\
  creations (effects (otelgrpc.newConfig g role ropts w)) =
    match role with
    | otelgrpc.RoleServer =>
        [(Float64Histogram, "rpc.server.duration", "ms");
         (Int64Histogram, "rpc.server.request.size", "By");
         (Int64Histogram, "rpc.server.response.size", "By");
         (Int64Histogram, "rpc.server.requests_per_rpc", "{count}");
         (Int64Histogram, "rpc.server.responses_per_rpc", "{count}")]
    | otelgrpc.RoleClient =>
        [(Float64Histogram, "rpc.client.duration", "ms");
         (Int64Histogram, "rpc.client.request.size", "By");
         (Int64Histogram, "rpc.client.response.size", "By");
         (Int64Histogram, "rpc.client.requests_per_rpc", "{count}");
         (Int64Histogram, "rpc.client.responses_per_rpc", "{count}")]
    end.
Proof.
  split.
  - unfold Tracing. cbv zeta. rewrite !effects_bind.
    unfold creations. rewrite !omap_app. fold creations.
    rewrite ?final_bind.
    repeat (rewrite (proj2 (create_instrument_spec _ _ _))
            || rewrite (proj1 (create_instrument_spec _ _ _))).
    reflexivity.
  - unfold otelgrpc.newConfig. cbv zeta. rewrite !effects_bind.
    unfold creations. rewrite !omap_app. fold creations.
    rewrite ?final_bind.
    repeat (rewrite (proj2 (create_instrument_spec _ _ _))
            || rewrite (proj1 (create_instrument_spec _ _ _))).
    destruct role; reflexivity.
Qed.

(** Against C4 as first stated: the gRPC handler creates no
    instrument named [rpc.server.request.duration] or
    [rpc.server.request.body.size], and the gin middleware none for a
    client role. *)
Lemma rpc_instruments_named_otherwise :
  let rpc := map (fun x => snd (fst x))
               (creations (effects (otelgrpc.newConfig G0 otelgrpc.RoleServer [] w0))) in
  let http := map (fun x => snd (fst x)) (creations (effects (Tracing I0 G0 "svc" [] w0))) in
  ~ In "rpc.server.request.duration" rpc /\
  ~ In "rpc.server.request.body.size" rpc /\
  ~ In "http.client.active_requests" http.
Proof.
  vm_compute. repeat split; intros H;
    repeat (destruct H as [H|H]; [discriminate H|]); exact H.
Qed.

(** C6.  A request that one of the configured filters rejects is
    handed to the next handlers and nothing else happens: the handler
    behaves as [c.Next()] alone, so it opens no span and records no
    sample of its own. *)
Theorem rejected_request_passes_through I g sn opts w0 f rest c w :
  In f (configured_filters opts) ->
  f (Request_ c) = false ->
  let h := result (Tracing I g sn opts w0) in
  h rest c w = Next rest c w /\
  effects (h (fun c => mret c) c w) = [].
Proof.
  intros Hin Hf. cbn zeta.
  assert (Hrej : rejected (Filters (configure opts)) (Request_ c) = true).
  { apply (rejected_In _ f); [|exact Hf].
    unfold configure. fold (configure_from zero_settings opts).
    rewrite Filters_configure_from. exact Hin. }
  unfold Tracing. cbv zeta. rewrite !result_bind. cbn [mret M_ret ret result fst].
  unfold handler. cbn [set Filters]. rewrite Hrej.
  split; [reflexivity|]. unfold Next. destruct (IsAborted c); reflexivity.
Qed.

Lemma rejected_request_passes_through_witness :
  let h := result (Tracing I0 G0 "svc" [WithGinFilter [always]; WithFilter [no_version]] w0) in
  h ok_handler get_version w0 = ok_handler get_version w0 /\
  effects (h (fun c => mret c) get_version w0) = [].
Proof.
  exact (rejected_request_passes_through I0 G0 "svc"
           [WithGinFilter [always]; WithFilter [no_version]] w0 no_version
           ok_handler get_version w0 (or_introl eq_refl) eq_refl).
Defined.

(** C10.  The gin filters given by [WithGinFilter] are appended to
    the configuration and never read: two lists of options that differ
    only in their [WithGinFilter] entries set up the same instruments
    and yield handlers that do the same on every request. *)
Theorem gin_filters_never_evaluated I g sn opts1 opts2 w0 :
  without_gin_filters opts1 = without_gin_filters opts2 ->
  GinFilters (configure opts1) = configured_gin_filters opts1 /\
  effects (Tracing I g sn opts1 w0) = effects (Tracing I g sn opts2 w0) /\
  final (Tracing I g sn opts1 w0) = final (Tracing I g sn opts2 w0) /\
  forall rest c w,
    result (Tracing I g sn opts1 w0) rest c w = result (Tracing I g sn opts2 w0) rest c w.
Proof.
  intros Hsame.
  assert (Hz : same_but_gin_filters zero_settings zero_settings) by (repeat split).
  pose proof (configure_from_without_gin_filters opts1 _ _ Hz) as (A1 & A2 & A3 & A4 & A5).
  pose proof (configure_from_without_gin_filters opts2 _ _ Hz) as (B1 & B2 & B3 & B4 & B5).
  rewrite <- Hsame in B1, B2, B3, B4, B5.
  change (configure_from zero_settings opts1) with (configure opts1) in *.
  change (configure_from zero_settings opts2) with (configure opts2) in *.
  split; [|split; [|split]].
  - unfold configure. fold (configure_from zero_settings opts1).
    apply GinFilters_configure_from.
  - reflexivity.
  - reflexivity.
  - intros rest c w. unfold Tracing. cbv zeta. rewrite !result_bind.
    cbn [mret M_ret ret result fst]. unfold handler. cbn [set Filters SpanNameFormatter_].
    rewrite A3, A4, A5, B3, B4, B5. reflexivity.
Qed.

Lemma gin_filters_never_evaluated_witness :
  let h1 := result (Tracing I0 G0 "svc" [WithGinFilter [always]] w0) in
  let h2 := result (Tracing I0 G0 "svc" [] w0) in
  h1 ok_handler get_version w0 = h2 ok_handler get_version w0.
Proof.
  exact (proj2 (proj2 (proj2
           (gin_filters_never_evaluated I0 G0 "svc" [WithGinFilter [always]] [] w0 eq_refl)))
           ok_handler get_version w0).
Defined.

Lemma no_route_app a b : no_route a -> no_route b -> no_route (a ++ b).
Proof. intros Ha Hb. apply Forall_app. split; assumption. Qed.

Lemma no_route_instrument_Add i n kvs w :
  has_key "http.route" kvs = false -> no_route (effects (instrument_Add i n kvs w)).
Proof. intros H. destruct i; repeat constructor. exact H. Qed.

Lemma no_route_instrument_Record i v kvs w :
  has_key "http.route" kvs = false -> no_route (effects (instrument_Record i v kvs w)).
Proof. intros H. destruct i; repeat constructor. exact H. Qed.

Lemma no_route_span_SetAttributes s kvs w :
  has_key "http.route" kvs = false -> no_route (effects (span_SetAttributes s kvs w)).
Proof.
  intros H. unfold span_SetAttributes. destruct (sp_recording s); repeat constructor. exact H.
Qed.

Lemma no_route_span_SetStatus s c d w : no_route (effects (span_SetStatus s c d w)).
Proof. unfold span_SetStatus. destruct (sp_recording s); repeat constructor. Qed.

Lemma no_route_span_End s w : no_route (effects (span_End s w)).
Proof. unfold span_End. destruct (sp_recording s); repeat constructor. Qed.

Lemma no_route_Next rest c w :
  (forall c' w', no_route (effects (rest c' w'))) -> no_route (effects (Next rest c w)).
Proof. intros H. unfold Next. destruct (IsAborted c); [constructor | apply H]. Qed.

(** C8.  With no span-name formatter and no matched route, the span
    the middleware opens is named [HTTP <method> route not found], and
    neither that span nor any metric sample gets a [http.route]
    attribute (the attribute builders and the handlers downstream not
    adding one themselves). *)
Theorem route_not_found_fallback I sn cfg tracer props rest c w :
  (forall line h, has_key "http.route" (HTTPServerRequest I sn line h) = false) ->
  (forall line h, has_key "http.route" (HTTPServerRequestMetrics I sn line h) = false) ->
  (forall c' w', no_route (effects (rest c' w'))) ->
  rejected (Filters (set cfg)) (Request_ c) = false ->
  SpanNameFormatter_ (set cfg) = None ->
  FullPath c = "" ->
  let es := effects (handler I sn cfg tracer props rest c w) in
  (exists sc parent attrs tail,
      es = SpanStart sc parent tracer
             ("HTTP " +:+ Method (req_line (Request_ c)) +:+ " route not found")
             SpanKindServer attrs :: tail) /\
  no_route es.
Proof.
  intros HI HIm Hrest Hrej Hfmt Hpath. cbn zeta.
  unfold handler. rewrite Hrej, Hfmt. cbn [Set_ FullPath Request_]. rewrite Hpath.
  cbv zeta. cbn [String.eqb negb]. rewrite !effects_bind. split.
  - do 4 eexists. reflexivity.
  - repeat (apply no_route_app);
      try apply no_route_span_SetStatus; try apply no_route_span_End;
      try (apply no_route_Next; exact Hrest);
      try (repeat constructor; apply HI);
      try (apply no_route_instrument_Add); try (apply no_route_instrument_Record);
      repeat match goal with
             | |- no_route (effects ((if ?b then _ else _) _)) => destruct b
             | |- has_key _ (if ?b then _ else _) = false => destruct b
             end;
      try apply no_route_span_SetAttributes;
      try constructor;
      repeat match goal with
             | |- context [if ?b then _ else _] => destruct b
             end;
      rewrite ?has_key_app, ?HIm; reflexivity.
Qed.

Lemma route_not_found_fallback_witness :
  exists sc parent attrs tail,
    effects (handler I0 "svc" plain_cfg svc_tracer initPropagator
               ok_handler get_version w0)
    = SpanStart sc parent svc_tracer
        "HTTP GET route not found" SpanKindServer attrs :: tail.
Proof.
  refine (proj1 (route_not_found_fallback I0 "svc" plain_cfg svc_tracer initPropagator
                   ok_handler get_version w0 _ _ _ eq_refl eq_refl eq_refl)).
  - intros line h. reflexivity.
  - intros line h. reflexivity.
  - intros c' w'. constructor.
Defined.

(** C9.  When the body of an filter_accepts request cannot be read, the
    middleware aborts the request: the response gets status 500 and the
    JSON error body, and no handler downstream runs.  This is the only
    case in which the middleware touches the response: when the body can
    be read, the handlers downstream get the response writer and the
    body as they came, and the response is the one they leave. *)
Theorem body_read_failure_aborts I sn cfg tracer props rest c w :
  rejected (Filters (set cfg)) (Request_ c) = false ->
  let r := handler I sn cfg tracer props rest c w in
  match req_Body (Request_ c) with
  | BodyBroken _ =>
      IsAborted (result r) = true /\
      w_Status (Writer (result r)) = 500 /\
      w_written (Writer (result r)) = w_written (Writer c) ++ [read_error_body] /\
      r = handler I sn cfg tracer props (fun c => mret c) c w
  | BodyData body =>
      exists c1 w1,
        Writer c1 = Writer c /\ IsAborted c1 = IsAborted c /\
        req_Body (Request_ c1) = BodyData body /\
        Writer (result r) = Writer (result (Next rest c1 w1)) /\
        IsAborted (result r) = IsAborted (result (Next rest c1 w1))
  end.
Proof.
  intros Hrej. cbn zeta. unfold handler. rewrite Hrej. cbv zeta.
  unfold calcReqSize. cbn [Request_ set_Request Set_ WithContext req_Body].
  destruct (req_Body (Request_ c)) as [body|e] eqn:Hbody; cbn [ReadAll fst snd].
  - do 2 eexists. rewrite !result_bind. cbn [mret M_ret ret result fst].
    cbn [set_Request Writer IsAborted].
    split; [|split; [|split; [|split]]]; [| | |reflexivity|reflexivity]; reflexivity.
  - unfold Next at 1 2 3. cbn [AbortWithStatusJSON IsAborted]. repeat split.
Qed.

Lemma body_read_failure_aborts_witness :
  let r := handler I0 "svc" plain_cfg svc_tracer initPropagator
             ok_handler broken_upload w0 in
  IsAborted (result r) = true /\ w_Status (Writer (result r)) = 500.
Proof.
  pose proof (body_read_failure_aborts I0 "svc" plain_cfg svc_tracer initPropagator
                ok_handler broken_upload w0 eq_refl) as [H1 [H2 _]].
  split; [exact H1 | exact H2].
Defined.
End HTTPClaims.

(* ===================================================================== *)
(** ** The propagation codec: round trip *)
(* ===================================================================== *)

Module codec_facts.
Import propagation.

Lemma unhex_hex_byte b : unhex_byte (hex_digit (Byte.to_N b / 16)%N)
                                    (hex_digit (Byte.to_N b mod 16)%N) = Some b.
Proof. destruct b; vm_compute; reflexivity. Qed.

Lemma hex_digit_not_dash b rest :
  expect_dash (hex_byte b ++ rest) = None.
Proof. destruct b; vm_compute; reflexivity. Qed.

Lemma unhex_hex bs : unhex (hex bs) = Some bs.
Proof.
  induction bs as [|b bs IH]; [reflexivity|].
  cbn [hex flat_map hex_byte app unhex]. fold (hex bs).
  rewrite unhex_hex_byte, IH. reflexivity.
Qed.

Lemma length_hex bs : length (hex bs) = (2 * length bs)%nat.
Proof.
  induction bs as [|b bs IH]; [reflexivity|].
  cbn [hex flat_map hex_byte app length]. fold (hex bs). rewrite IH. lia.
Qed.

Lemma take_app n a b : length a = n -> take n (a ++ b) = Some (a, b).
Proof.
  intros <-. unfold take. rewrite length_app.
  replace (length a <=? length a + length b)%nat with true
    by (symmetry; apply Nat.leb_le; lia).
  rewrite firstn_app, Nat.sub_diag, firstn_all, skipn_app, Nat.sub_diag, skipn_all.
  cbn. rewrite app_nil_r. reflexivity.
Qed.

Lemma expect_dash_cons s : expect_dash (dash :: s) = Some s.
Proof. reflexivity. Qed.

(** Decoding the header written for a span context gives back its
    identifiers. *)
Lemma decode_encode_traceparent sc :
  length (TraceID sc) = 16%nat -> length (SpanID sc) = 8%nat ->
  IsValid sc = true ->
  decode_traceparent (encode_traceparent sc) =
    Some {| TraceID := TraceID sc; SpanID := SpanID sc;
            TraceFlags := sampled (sampled (TraceFlags sc)); Remote := true |}.
Proof.
  intros Ht Hs Hv. unfold decode_traceparent, encode_traceparent.
  rewrite list_ascii_of_string_of_list_ascii.
  rewrite (take_app 2) by reflexivity. cbn [mbind option_bind fst snd].
  rewrite unhex_hex. cbn [mbind option_bind]. rewrite expect_dash_cons. cbn [mbind option_bind].
  rewrite (take_app 32) by (rewrite length_hex, Ht; reflexivity). cbn [mbind option_bind fst snd].
  rewrite unhex_hex. cbn [mbind option_bind]. rewrite expect_dash_cons. cbn [mbind option_bind].
  rewrite (take_app 16) by (rewrite length_hex, Hs; reflexivity). cbn [mbind option_bind fst snd].
  rewrite unhex_hex. cbn [mbind option_bind]. rewrite expect_dash_cons. cbn [mbind option_bind].
  rewrite unhex_hex. cbn [mbind option_bind].
  unfold IsValid in *. cbn [TraceID SpanID]. rewrite Hv. reflexivity.
Qed.

End codec_facts.

Section CodecClaims.
Import propagation codec_facts.

(** C7.  For a context that carries a valid span context (16-byte
    trace id, 8-byte span id, neither all zero), injecting it into an
    empty carrier with the propagator of [initPropagator] and extracting
    from that carrier, into any context, yields a context whose span
    context has the same trace id and the same span id. *)
Theorem extract_inject_roundtrip ctx ctx0 :
  IsValid (SpanContextFromContext ctx) = true ->
  length (TraceID (SpanContextFromContext ctx)) = 16%nat ->
  length (SpanID (SpanContextFromContext ctx)) = 8%nat ->
  let ctx' := Extract initPropagator ctx0 (Inject initPropagator ctx ∅) in
  TraceID (SpanContextFromContext ctx') = TraceID (SpanContextFromContext ctx) /\
  SpanID (SpanContextFromContext ctx') = SpanID (SpanContextFromContext ctx).
Proof.
  intros Hv Ht Hs. cbn zeta.
  unfold initPropagator, NewCompositeTextMapPropagator. cbn [Inject Extract fold_left].
  set (sc := SpanContextFromContext ctx) in *.
  assert (Hget : carrier_Get (Inject Baggage ctx (Inject TraceContext ctx ∅)) traceparentHeader
                 = encode_traceparent sc).
  { unfold TraceContext, Baggage. cbn [Inject]. fold sc. rewrite Hv.
    unfold carrier_Get, carrier_Set.
    destruct (ctx_baggage ctx).
    - rewrite lookup_insert_eq. reflexivity.
    - rewrite lookup_insert_ne by discriminate. rewrite lookup_insert_eq. reflexivity. }
  set (carrier := Inject Baggage ctx (Inject TraceContext ctx ∅)) in *.
  unfold TraceContext, Baggage. cbn [Extract]. rewrite Hget.
  rewrite decode_encode_traceparent by assumption.
  destruct (decode_baggage _); split; reflexivity.
Qed.

Lemma extract_inject_roundtrip_witness :
  let ctx' := Extract initPropagator background (Inject initPropagator examples.bare ∅) in
  TraceID (SpanContextFromContext ctx') = be_bytes 16 1 /\
  SpanID (SpanContextFromContext ctx') = be_bytes 8 1.
Proof.
  exact (extract_inject_roundtrip examples.bare background eq_refl eq_refl eq_refl).
Defined.
End CodecClaims.

(* ===================================================================== *)
(** ** The gRPC stats handler: further properties *)
(* ===================================================================== *)

Section RPCMore.
Import otelgrpc rpc_spec rpc_facts rpc_more examples.

#[local] Arguments call_context : simpl never.

Lemma HandleRPC_sizes I m ctx rs w g :
  instruments_created m ->
  call_context ctx w = Some g -> record g = true ->
  samples (i_name (rpcRequestSize_spec (role_ m))) (effects (HandleRPC I m ctx rs w))
    = received_sizes [rs] /\
  samples (i_name (rpcResponseSize_spec (role_ m))) (effects (HandleRPC I m ctx rs w))
    = sent_sizes [rs].
Proof.
  intros (Hd & Hrq & Hrs & Hn & Hk) Hg Hr. unfold_hooks. run.
  rewrite !Hg, Hr, Hd, Hrq, Hrs, Hn, Hk. cbn.
  destruct rs, (role_ m); cbn; rewrite ?Hg; cbn;
    try (split; reflexivity);
    destruct (ctx_peer ctx), (sp_recording (SpanFromContext ctx));
    try destruct Error_; cbn; split; reflexivity.
Qed.

Lemma forM_HandleRPC_sizes I m ctx events w g :
  instruments_created m ->
  call_context ctx w = Some g -> record g = true ->
  samples (i_name (rpcRequestSize_spec (role_ m)))
    (effects (forM_ events (HandleRPC I m ctx) w)) = received_sizes events /\
  samples (i_name (rpcResponseSize_spec (role_ m)))
    (effects (forM_ events (HandleRPC I m ctx) w)) = sent_sizes events.
Proof.
  intros Hm Hg Hr. induction events as [|rs events [IH1 IH2]]; [split; reflexivity|].
  cbn [forM_]. rewrite effects_bind, HandleRPC_final, !samples_app, IH1, IH2.
  destruct (HandleRPC_sizes I m ctx rs w g Hm Hg Hr) as [-> ->].
  change (rs :: events) with ([rs] ++ events).
  unfold received_sizes, sent_sizes. rewrite !omap_app. split; reflexivity.
Qed.

(** X1.  For a recorded call, the request-size histogram gets the
    byte length of every message received, in the order of arrival, and
    the response-size histogram that of every message sent; no other
    hook records on them. *)
Theorem payload_sizes_recorded I m ctx info events err b e w :
  instruments_created m ->
  filter_accepts m info = true ->
  let r := run_call I m ctx info events err b e w in
  samples (i_name (rpcRequestSize_spec (role_ m))) (effects r) = received_sizes events /\
  samples (i_name (rpcResponseSize_spec (role_ m))) (effects r) = sent_sizes events.
Proof.
  intros Hm Ha. cbn zeta.
  destruct (run_call_effects I m ctx info events err b e w) as [-> _].
  destruct (TagRPC_spec I m ctx info w)
    as (s & g & Hs & Hg & Hrec & Hr & _ & _ & _ & _ & _ & Hsa).
  rewrite Ha in Hr.
  destruct (forM_HandleRPC_sizes I m _ events _ g Hm Hg Hr) as [F1 F2].
  destruct (HandleRPC_sizes I m _ (End_ err b e) _ g Hm Hg Hr) as [E1 E2].
  rewrite !samples_app, !Hsa, F1, F2, E1, E2. cbn. rewrite !app_nil_r. split; reflexivity.
Qed.

Lemma payload_sizes_recorded_witness :
  let r := run_call I0 server background hello
             [Begin; InPayload 5; OutPayload 7; InPayload 3] None 10 30 w0 in
  samples "rpc.server.request.size" (effects r) = [SInt 5; SInt 3] /\
  samples "rpc.server.response.size" (effects r) = [SInt 7].
Proof.
  apply (payload_sizes_recorded I0 server background hello
           [Begin; InPayload 5; OutPayload 7; InPayload 3] None 10 30 w0).
  - apply instruments_created_TracingMiddleware. reflexivity.
  - reflexivity.
Defined.


(** What [TagRPC] emits and allocates. *)
Lemma TagRPC_effects I m ctx info w :
  let r := TagRPC I m ctx info w in
  let parsed := ParseFullMethod I (FullMethodName info) in
  exists parent,
    effects r =
      [SpanStart (SpanContextFromContext (result r)) parent (tracer (config_ m))
         (fst parsed)
         (if isServer (role_ m) then SpanKindServer else SpanKindClient)
         ((snd parsed ++ [RPCSystemGRPC]) ++ SpanAttributes (config_ m))] /\
    gctxs (final r) =
      gctxs w ++ [{| messagesReceived := 0; messagesSent := 0;
                     metricAttrs := (snd parsed ++ [RPCSystemGRPC]) ++ MetricAttributes (config_ m);
                     record := filter_accepts m info |}] /\
    ctx_gctx (result r) = Some (length (gctxs w)).
Proof.
  unfold TagRPC, tracer_Start, new_gctx, filter_accepts. run.
  destruct (isServer (role_ m)); [|unfold inject; destruct (Propagators (config_ m))];
    cbn; eexists; repeat split; reflexivity.
Qed.

(** X2.  A call the filter rejects leaves exactly one trace in the
    telemetry: the span [TagRPC] opened.  Whatever events follow, the end
    of the call included, nothing is recorded and the span is not ended. *)
Theorem rejected_call_only_opens_span I m ctx info events err b e w :
  filter_accepts m info = false ->
  let r := run_call I m ctx info events err b e w in
  span_starts (effects r) = [SpanContextFromContext (result r)] /\
  length (effects r) = 1%nat /\
  span_ends (effects r) = [] /\
  final r = final (TagRPC I m ctx info w).
Proof.
  intros Ha. cbn zeta.
  destruct (run_call_effects I m ctx info events err b e w) as [He Hres].
  destruct (TagRPC_spec I m ctx info w)
    as (s & g & Hs & Hg & Hrec & Hr & _ & _ & _ & _ & _ & _).
  rewrite Ha in Hr.
  destruct (TagRPC_effects I m ctx info w) as (parent & Hte & _ & _).
  rewrite He, Hres, (forM_HandleRPC_gated I m _ events _ g Hg Hr),
    (HandleRPC_gated I m _ _ _ g Hg Hr), Hte.
  repeat split.
  unfold run_call. rewrite !final_bind, forM_HandleRPC_final, HandleRPC_final. reflexivity.
Qed.

Lemma rejected_call_only_opens_span_witness :
  let r := run_call I0 filtered_server background hello
             [Begin; InPayload 5; OutPayload 7] (Some internal_error) 10 30 w0 in
  span_starts (effects r) = [first_span] /\ length (effects r) = 1%nat.
Proof.
  pose proof (rejected_call_only_opens_span I0 filtered_server background hello
                [Begin; InPayload 5; OutPayload 7] (Some internal_error) 10 30 w0 eq_refl)
    as [H1 [H2 _]].
  split; [exact H1 | exact H2].
Defined.

(** X3.  [TagRPC] gives each call a Call Context of its own: the
    address it attaches was not in use before, the Call Context of every
    other call is left as it was, and the new one starts with both
    counters at zero and the verdict of the filter as its record flag. *)
Theorem TagRPC_fresh_call_context I m ctx info w other :
  let r := TagRPC I m ctx info w in
  call_context (result r) w = None /\
  (forall g, call_context other w = Some g -> call_context other (final r) = Some g) /\
  exists g, call_context (result r) (final r) = Some g /\
            messagesReceived g = 0 /\ messagesSent g = 0 /\
            record g = filter_accepts m info.
Proof.
  cbn zeta. destruct (TagRPC_effects I m ctx info w) as (parent & _ & Hheap & Hptr).
  unfold call_context. rewrite Hptr, Hheap. split; [|split].
  - apply lookup_ge_None_2. lia.
  - intros g. destruct (ctx_gctx other) as [p|]; [|discriminate].
    intros Hp. rewrite lookup_app_l; [exact Hp|]. apply lookup_lt_Some in Hp. exact Hp.
  - eexists. split; [apply list_lookup_middle; reflexivity|]. repeat split.
Qed.

(** X4.  On the client side every terminal error is a span error:
    whatever its gRPC code, the end hook sets the span status to Error
    with the message of the status; a call that ends without error gets no
    status.  (On the server side only six codes do, see C3.) *)
Theorem client_end_status I m ctx s err b e w :
  role_ m = RoleClient ->
  ctx_span ctx = Some s -> sp_recording s = true ->
  recording_enabled ctx w = true ->
  status_calls (effects (HandleRPC I m ctx (End_ err b e) w)) =
    match err with
    | Some er => [(sp_ctx s, Error, Message (FromError er))]
    | None => []
    end.
Proof.
  intros Hrole Hs Hrec Hen. unfold recording_enabled in Hen.
  unfold_hooks. unfold SpanFromContext.
  destruct (rpcDuration (config_ m)), (rpcRequestsPerRPC (config_ m)),
    (rpcResponsesPerRPC (config_ m));
    run; rewrite Hs, Hrole; cbn;
    (destruct (call_context ctx w) as [g|] eqn:Hg; [rewrite Hen|]); cbn;
    rewrite ?Hg, ?Hrec; destruct err as [er|]; cbn; rewrite ?Hrec; reflexivity.
Qed.

Lemma client_end_status_witness :
  status_calls
    (effects (HandleRPC I0 (result (TracingMiddleware G0 RoleClient [] w0)) tagged
                (End_ (Some not_found_error) 10 30) w1))
  = [(first_span, Error, "no such user")].
Proof.
  exact (client_end_status I0 (result (TracingMiddleware G0 RoleClient [] w0)) tagged
           {| sp_ctx := first_span; sp_recording := true |} (Some not_found_error) 10 30 w1
           eq_refl eq_refl eq_refl eq_refl).
Defined.


(** X5.  A meter that fails on every instrument does not stop the
    handler from being built or from tracing: each of the five errors is
    handed to [otel.Handle] once, in order; every hook then records
    nothing; [TagRPC] still opens the span and the end hook still ends
    it. *)
Theorem failing_meter_degrades_to_noop I g role opts reason w :
  (forall spec, meter_of g opts spec = Failed None (reason spec)) ->
  let r0 := TracingMiddleware g role opts w in
  let m := result r0 in
  handled_errors (effects r0) = map reason (rpc_specs role) /\
  final r0 = w /\
  (forall ctx rs w', metric_calls (effects (HandleRPC I m ctx rs w')) = []) /\
  (forall ctx info w',
      span_starts (effects (TagRPC I m ctx info w'))
        = [SpanContextFromContext (result (TagRPC I m ctx info w'))]) /\
  (forall ctx s err b e w',
      ctx_span ctx = Some s -> sp_recording s = true -> recording_enabled ctx w' = true ->
      span_ends (effects (HandleRPC I m ctx (End_ err b e) w')) = [sp_ctx s]).
Proof.
  intros H. unfold meter_of in H. cbn zeta.
  assert (Hi : rpcDuration (config_ (result (TracingMiddleware g role opts w))) = Noop Float64Histogram /\
               rpcRequestSize (config_ (result (TracingMiddleware g role opts w))) = Noop Int64Histogram /\
               rpcResponseSize (config_ (result (TracingMiddleware g role opts w))) = Noop Int64Histogram /\
               rpcRequestsPerRPC (config_ (result (TracingMiddleware g role opts w))) = Noop Int64Histogram /\
               rpcResponsesPerRPC (config_ (result (TracingMiddleware g role opts w))) = Noop Int64Histogram).
  { unfold TracingMiddleware, newConfig, create_instrument. cbv zeta. rewrite !H.
    repeat split; reflexivity. }
  destruct Hi as (Hd & Hrq & Hrs & Hn & Hk).
  split; [|split].
  - unfold TracingMiddleware, newConfig, create_instrument. cbv zeta. rewrite !H. reflexivity.
  - unfold TracingMiddleware, newConfig, create_instrument. cbv zeta. rewrite !H. reflexivity.
  - set (m := result (TracingMiddleware g role opts w)) in *. clearbody m.
    split; [|split].
    + intros ctx rs w'. unfold_hooks. rewrite Hd, Hrq, Hrs, Hn, Hk. run.
      destruct (call_context ctx w') as [g0|]; [destruct (record g0)|]; cbn;
        destruct rs; cbn; try reflexivity;
        destruct (ctx_peer ctx), (sp_recording (SpanFromContext ctx)), (isServer (role_ m));
        try destruct Error_; reflexivity.
    + intros ctx info w'.
      destruct (TagRPC_spec I m ctx info w') as (s & g0 & Hs & _ & _ & _ & _ & _ & Hst & _).
      unfold SpanContextFromContext, SpanFromContext. rewrite Hs. exact Hst.
    + intros ctx s err b e w' Hs Hrec Hen. unfold recording_enabled in Hen.
      unfold_hooks. unfold SpanFromContext. rewrite Hd, Hn, Hk, Hs. run.
      destruct (call_context ctx w') as [g0|]; [rewrite Hen|]; cbn; rewrite Hrec;
        destruct err, (isServer (role_ m)); cbn; rewrite ?Hrec; reflexivity.
Qed.

Lemma failing_meter_degrades_to_noop_witness :
  let opts := [WithMeterProvider (Some (fun spec => Failed None ("no " +:+ i_name spec)))] in
  let r0 := TracingMiddleware G0 RoleServer opts w0 in
  handled_errors (effects r0) =
    ["no rpc.server.duration"; "no rpc.server.request.size"; "no rpc.server.response.size";
     "no rpc.server.requests_per_rpc"; "no rpc.server.responses_per_rpc"] /\
  metric_calls (effects (HandleRPC I0 (result r0) bare (End_ None 10 30) w0)) = [].
Proof.
  pose proof (failing_meter_degrades_to_noop I0 G0 RoleServer
                [WithMeterProvider (Some (fun spec => Failed None ("no " +:+ i_name spec)))]
                (fun spec => "no " +:+ i_name spec) w0 (fun spec => eq_refl))
    as (H1 & _ & H3 & _).
  split; [exact H1 | exact (H3 bare (End_ None 10 30) w0)].
Defined.

Lemma configure_snoc opts o : configure (opts ++ [o]) = apply o (configure opts).
Proof. unfold configure. rewrite fold_left_app. reflexivity. Qed.

(** X6.  Options do not accumulate on the gRPC side: the filter in
    force is the last non-nil one given (a nil filter is ignored, and no
    filter at all means none), and the span and metric attributes are
    those of the last [WithSpanAttributes], [WithMetricAttributes] given,
    an empty list included. *)
Theorem rpc_options_last_one_wins opts :
  s_Filter (configure opts) = last (given_filters opts) /\
  s_SpanAttributes (configure opts) = default (last (given_span_attributes opts)) [] /\
  s_MetricAttributes (configure opts) = default (last (given_metric_attributes opts)) [].
Proof.
  induction opts as [|o opts (IH1 & IH2 & IH3)] using rev_ind; [repeat split|].
  rewrite configure_snoc.
  unfold given_filters, given_span_attributes, given_metric_attributes in *.
  rewrite !omap_app.
  destruct o as [f|p|p|p|a|a];
    cbn [omap list_omap apply s_Filter s_SpanAttributes s_MetricAttributes];
    rewrite ?app_nil_r, ?last_snoc; cbn [default];
    try (repeat split; assumption).
  destruct f as [f|]; cbn [or_keep]; rewrite ?app_nil_r, ?last_snoc;
    repeat split; assumption.
Qed.

End RPCMore.

(* ===================================================================== *)
(** ** The gin middleware: further properties *)
(* ===================================================================== *)

Module http_more_facts.
Import otelgin http_spec http_facts http_more.

(** What an observation sees of the calls on a span or an instrument
    that it does not look at. *)
Lemma omap_span_SetStatus {B} (f : Effect -> option B) s c d w :
  (forall sc c d, f (SpanSetStatus sc c d) = None) ->
  omap f (effects (span_SetStatus s c d w)) = [].
Proof. intros H. unfold span_SetStatus. destruct (sp_recording s); cbn; rewrite ?H; reflexivity. Qed.

Lemma omap_span_SetAttributes {B} (f : Effect -> option B) s kvs w :
  (forall sc kvs, f (SpanSetAttributes sc kvs) = None) ->
  omap f (effects (span_SetAttributes s kvs w)) = [].
Proof.
  intros H. unfold span_SetAttributes. destruct (sp_recording s); cbn; rewrite ?H; reflexivity.
Qed.

Lemma omap_span_End {B} (f : Effect -> option B) s w :
  (forall sc, f (SpanEnd sc) = None) -> omap f (effects (span_End s w)) = [].
Proof. intros H. unfold span_End. destruct (sp_recording s); cbn; rewrite ?H; reflexivity. Qed.

Lemma omap_instrument_Add {B} (f : Effect -> option B) i n kvs w :
  (forall name n kvs, f (MetricAdd name n kvs) = None) ->
  omap f (effects (instrument_Add i n kvs w)) = [].
Proof. intros H. destruct i; cbn; rewrite ?H; reflexivity. Qed.

Lemma omap_instrument_Record {B} (f : Effect -> option B) i v kvs w :
  (forall name v kvs, f (MetricRecord name v kvs) = None) ->
  omap f (effects (instrument_Record i v kvs w)) = [].
Proof. intros H. destruct i; cbn; rewrite ?H; reflexivity. Qed.

Lemma omap_tracer_Start {B} (f : Effect -> option B) t ctx name kind attrs w :
  (forall sc parent t name kind attrs, f (SpanStart sc parent t name kind attrs) = None) ->
  omap f (effects (tracer_Start t ctx name kind attrs w)) = [].
Proof. intros H. cbn. rewrite H. reflexivity. Qed.

Lemma omap_time_Now {B} (f : Effect -> option B) w : omap f (effects (time_Now w)) = [].
Proof. reflexivity. Qed.

(** None of these calls writes the process state. *)
Lemma final_span_SetStatus s c d w : final (span_SetStatus s c d w) = w.
Proof. unfold span_SetStatus. destruct (sp_recording s); reflexivity. Qed.

Lemma final_span_SetAttributes s kvs w : final (span_SetAttributes s kvs w) = w.
Proof. unfold span_SetAttributes. destruct (sp_recording s); reflexivity. Qed.

Lemma final_span_End s w : final (span_End s w) = w.
Proof. unfold span_End. destruct (sp_recording s); reflexivity. Qed.

Lemma final_instrument_Add i n kvs w : final (instrument_Add i n kvs w) = w.
Proof. destruct i; reflexivity. Qed.

Lemma final_instrument_Record i v kvs w : final (instrument_Record i v kvs w) = w.
Proof. destruct i; reflexivity. Qed.

Lemma final_time_Now w : final (time_Now w) = w.
Proof. reflexivity. Qed.

Lemma final_if_mret (b : bool) (m : M unit) w :
  (forall w, final (m w) = w) -> final ((if b then m else mret tt) w) = w.
Proof. intros H. destruct b; [apply H | reflexivity]. Qed.

Lemma effects_if_mret (b : bool) (m : M unit) w :
  effects ((if b then m else mret tt) w) = if b then effects (m w) else [].
Proof. destruct b; reflexivity. Qed.

Lemma omap_if {B} (f : Effect -> option B) (b : bool) (l : list Effect) :
  (b = true -> omap f l = []) -> omap f (if b then l else []) = [].
Proof. destruct b; auto. Qed.

Lemma rejected_false fs r : rejected fs r = false <-> Forall (fun f => f r = true) fs.
Proof.
  induction fs as [|f fs IH]; cbn; [split; [constructor | reflexivity]|].
  destruct (f r) eqn:Hf; cbn.
  - rewrite IH. split; [intros H; constructor; assumption | intros H; inversion H; assumption].
  - split; [discriminate | intros H; inversion H; congruence].
Qed.

Lemma clamp_max s : (if s <? 0 then 0 else s) = Z.max 0 s.
Proof. destruct (Z.ltb_spec s 0); lia. Qed.

Lemma sum_len_from values : forall a,
  fold_left (fun acc value => acc + Z.of_nat (String.length value)) values a
  = a + sum_len values.
Proof.
  unfold sum_len. induction values as [|v values IH]; intros a; cbn; [lia|].
  rewrite IH, (IH (0 + _)). lia.
Qed.

Lemma sum_len_nonneg values : 0 <= sum_len values.
Proof.
  induction values as [|v values IH]; [reflexivity|].
  unfold sum_len. cbn. rewrite sum_len_from. lia.
Qed.

Lemma calcReqSize_data c body :
  req_Body (Request_ c) = BodyData body ->
  calcReqSize c = (headerSize (req_Header (Request_ c)) + Z.of_nat (length body), c).
Proof.
  intros H. unfold calcReqSize. rewrite H. cbn [ReadAll fst snd]. f_equal.
  destruct c as [[l h b x] wr er k fp ab]. cbn in *. subst b. reflexivity.
Qed.

Lemma apply_same_but_providers o a b :
  same_but_providers a b -> same_but_providers (apply o a) (apply o b).
Proof.
  intros (H1 & H2 & H3 & H4). unfold same_but_providers.
  destruct o as [p|p|p|f|f|f]; try destruct p; cbn; rewrite ?H1, ?H2, ?H3, ?H4; tauto.
Qed.

Lemma configure_from_without_providers opts : forall a b,
  same_but_providers a b ->
  same_but_providers (configure_from a opts) (configure_from b (without_providers opts)).
Proof.
  induction opts as [|o opts IH]; intros a b H; [exact H|].
  cbn. destruct (is_provider_option o) eqn:Ho; cbn.
  - apply IH. destruct H as (H1 & H2 & H3 & H4).
    destruct o as [p|p|p|f|f|f]; try discriminate Ho; destruct p; repeat split; assumption.
  - apply IH. apply apply_same_but_providers. exact H.
Qed.

Lemma headerSize_nonneg h : 0 <= headerSize h.
Proof.
  unfold headerSize.
  apply (map_fold_weak_ind (fun r (_ : Header) => 0 <= r)); [lia|].
  intros name values m r _ Hr. pose proof (sum_len_nonneg values). lia.
Qed.

Lemma gin_configure_snoc opts o : configure (opts ++ [o]) = apply o (configure opts).
Proof. unfold configure. rewrite fold_left_app. reflexivity. Qed.

Lemma not_rejected_configured opts r :
  Forall (fun f => f r = true) (configured_filters opts) ->
  rejected (Filters (configure opts)) r = false.
Proof.
  intros H. apply rejected_false.
  unfold configure. fold (configure_from zero_settings opts).
  rewrite Filters_configure_from. exact H.
Qed.

(** A handler whose instruments are all no-op ones records nothing of
    its own and traces as usual. *)
Lemma handler_without_instruments I sn cfg tracer props rest c w :
  instruments_noop cfg ->
  rejected (Filters (set cfg)) (Request_ c) = false ->
  let es := effects (handler I sn cfg tracer props rest c w) in
  exists sc c1 w1,
    let down := Next rest c1 w1 in
    metric_calls es = metric_calls (effects down) /\
    span_starts es = sc :: span_starts (effects down) /\
    span_ends es = span_ends (effects down) ++ [sc].
Proof.
  intros (Hd & Hq & Hs & Ha) Hrej.
  cbn zeta; unfold handler; rewrite Hrej; cbv zeta; rewrite !effects_bind.
  set (st := tracer_Start _ _ _ _ _ w).
  set (cq := calcReqSize _).
  set (dn := Next rest _ _).
  rewrite !effects_if_mret.
  pose proof (eq_refl : effects st = [SpanStart (sp_ctx (snd (result st))) _ _ _ _ _]) as Hst.
  rewrite Hd, Hq, Hs, Ha.
  exists (sp_ctx (snd (result st))), (snd cq), (final st).
  change (Next rest (snd cq) (final st)) with dn. cbn zeta.
  split; [|split].
  - unfold metric_calls. rewrite !omap_app, Hst.
    repeat first
      [ rewrite omap_span_SetStatus by (intros; reflexivity)
      | rewrite omap_span_SetAttributes by (intros; reflexivity)
      | rewrite omap_span_End by (intros; reflexivity)
      | rewrite omap_if by (intros; apply omap_span_SetAttributes; intros; reflexivity) ].
    cbn [omap list_omap app]. rewrite !app_nil_r. reflexivity.
  - unfold span_starts. rewrite !omap_app, Hst.
    repeat first
      [ rewrite omap_span_SetStatus by (intros; reflexivity)
      | rewrite omap_span_SetAttributes by (intros; reflexivity)
      | rewrite omap_span_End by (intros; reflexivity)
      | rewrite omap_if by (intros; apply omap_span_SetAttributes; intros; reflexivity) ].
    cbn [omap list_omap app]. rewrite !app_nil_r. reflexivity.
  - unfold span_ends. rewrite !omap_app, Hst.
    repeat first
      [ rewrite omap_span_SetStatus by (intros; reflexivity)
      | rewrite omap_span_SetAttributes by (intros; reflexivity)
      | rewrite omap_if by (intros; apply omap_span_SetAttributes; intros; reflexivity) ].
    cbn [omap list_omap app]. reflexivity.
Qed.

End http_more_facts.

Section HTTPMore.
Import otelgin http_spec http_facts http_more http_more_facts examples http_examples.

Ltac silent :=
  repeat first
    [ rewrite omap_span_SetStatus by (intros; reflexivity)
    | rewrite omap_span_SetAttributes by (intros; reflexivity)
    | rewrite omap_span_End by (intros; reflexivity)
    | rewrite omap_instrument_Add by (intros; reflexivity)
    | rewrite omap_instrument_Record by (intros; reflexivity)
    | rewrite omap_tracer_Start by (intros; reflexivity)
    | rewrite omap_time_Now
    | rewrite omap_if by (intros; silent; reflexivity) ].

Ltac enter_handler Hrej rest w :=
  cbn zeta; unfold handler; rewrite Hrej; cbv zeta; rewrite !effects_bind;
  set (st := tracer_Start _ _ _ _ _ w);
  set (cq := calcReqSize _);
  set (dn := Next rest _ _);
  rewrite !effects_if_mret;
  pose proof (eq_refl : effects st = [SpanStart (sp_ctx (snd (result st))) _ _ _ _ _]) as Hst.

Ltac observe Hst :=
  rewrite !omap_app, Hst; silent; cbn [omap list_omap app]; try reflexivity.

(** X7.  A request that no filter rejects is traced once: the handler
    opens one span before the handlers downstream run and ends that same
    span after them, records one duration sample, the time the handlers
    downstream took, and adds 1 to the active-requests counter, which it
    never decrements.  The handlers downstream find the span in the
    context of the request. *)
Theorem traced_request_one_span I sn cfg tracer props rest c w :
  instruments_created cfg ->
  rejected (Filters (set cfg)) (Request_ c) = false ->
  let es := effects (handler I sn cfg tracer props rest c w) in
  exists sc c1 w1,
    let down := Next rest c1 w1 in
    clock w1 = clock w /\
    ctx_span (req_Context (Request_ c1)) = Some {| sp_ctx := sc; sp_recording := true |} /\
    span_starts es = sc :: span_starts (effects down) /\
    span_ends es = span_ends (effects down) ++ [sc] /\
    samples "http.server.request.duration" es =
      samples "http.server.request.duration" (effects down)
        ++ [SMillis (clock (final down) - clock w)] /\
    counter_adds "http.server.active_requests" es =
      counter_adds "http.server.active_requests" (effects down) ++ [1].
Proof.
  intros (Hd & Hq & Hs & Ha) Hrej. enter_handler Hrej rest w. rewrite Hd, Hq, Hs, Ha.
  exists (sp_ctx (snd (result st))), (snd cq), (final st).
  fold dn. cbn zeta. split; [|split; [|split; [|split; [|split]]]].
  - reflexivity.
  - unfold cq, calcReqSize. cbn [Request_ set_Request Set_ WithContext req_Body].
    destruct (ReadAll _) as [[body|e] b']; reflexivity.
  - unfold span_starts. observe Hst. rewrite !app_nil_r. reflexivity.
  - unfold span_ends. observe Hst.
  - unfold samples. observe Hst.
  - unfold counter_adds. observe Hst.
Qed.

Lemma traced_request_one_span_witness :
  let es := effects (handler I0 "svc" plain_cfg svc_tracer initPropagator
                       ok_handler get_version w0) in
  exists sc c1 w1,
    let down := Next ok_handler c1 w1 in
    clock w1 = clock w0 /\
    ctx_span (req_Context (Request_ c1)) = Some {| sp_ctx := sc; sp_recording := true |} /\
    span_starts es = sc :: span_starts (effects down) /\
    span_ends es = span_ends (effects down) ++ [sc] /\
    samples "http.server.request.duration" es =
      samples "http.server.request.duration" (effects down)
        ++ [SMillis (clock (final down) - clock w0)] /\
    counter_adds "http.server.active_requests" es =
      counter_adds "http.server.active_requests" (effects down) ++ [1].
Proof.
  apply (traced_request_one_span I0 "svc" plain_cfg svc_tracer initPropagator
           ok_handler get_version w0).
  - repeat split.
  - reflexivity.
Defined.

(** X8.  The request-size counter gets the size of the headers plus
    the length of the body, and the body the handlers downstream find is
    the one that arrived; the response-size counter gets the number of
    bytes written, 0 when the writer reports a negative size, so never a
    negative amount. *)
Theorem body_sizes_recorded I sn cfg tracer props rest c w body :
  instruments_created cfg ->
  rejected (Filters (set cfg)) (Request_ c) = false ->
  req_Body (Request_ c) = BodyData body ->
  let es := effects (handler I sn cfg tracer props rest c w) in
  exists c1 w1,
    let down := Next rest c1 w1 in
    req_Body (Request_ c1) = BodyData body /\
    counter_adds "http.server.request.body.size" es =
      counter_adds "http.server.request.body.size" (effects down)
        ++ [headerSize (req_Header (Request_ c)) + Z.of_nat (length body)] /\
    counter_adds "http.server.response.body.size" es =
      counter_adds "http.server.response.body.size" (effects down)
        ++ [Z.max 0 (w_Size (Writer (result down)))].
Proof.
  intros (Hd & Hq & Hs & Ha) Hrej Hbody. enter_handler Hrej rest w.
  rewrite Hd, Hq, Hs, Ha, clamp_max.
  assert (Hsz : cq = (headerSize (req_Header (Request_ c)) + Z.of_nat (length body),
                      set_Request (Set_ (Set_ c tracerKey sn) meterKey sn)
                        (WithContext (Request_ c) (fst (result st))))).
  { unfold cq. rewrite (calcReqSize_data _ body); [reflexivity | exact Hbody]. }
  exists (snd cq), (final st). fold dn. cbn zeta. split; [|split].
  - rewrite Hsz. exact Hbody.
  - unfold counter_adds. observe Hst.
    replace (fst cq) with (headerSize (req_Header (Request_ c)) + Z.of_nat (length body))
      by (rewrite Hsz; reflexivity).
    reflexivity.
  - unfold counter_adds. observe Hst.
Qed.

Lemma body_sizes_recorded_witness :
  let es := effects (handler I0 "svc" plain_cfg svc_tracer initPropagator
                       ok_handler get_version w0) in
  exists c1 w1,
    let down := Next ok_handler c1 w1 in
    req_Body (Request_ c1) = BodyData [] /\
    counter_adds "http.server.request.body.size" es =
      counter_adds "http.server.request.body.size" (effects down) ++ [11] /\
    counter_adds "http.server.response.body.size" es =
      counter_adds "http.server.response.body.size" (effects down)
        ++ [Z.max 0 (w_Size (Writer (result down)))].
Proof.
  apply (body_sizes_recorded I0 "svc" plain_cfg svc_tracer initPropagator
           ok_handler get_version w0 []).
  - repeat split.
  - reflexivity.
  - reflexivity.
Defined.

(** X9.  The handler hands the request on with the tracer and the
    meter stored under their two keys, and gives it back as the handlers
    downstream left it, except that the context of the request is again
    the one it arrived with; the process state is the one they left. *)
Theorem request_context_restored I sn cfg tracer props rest c w :
  rejected (Filters (set cfg)) (Request_ c) = false ->
  let r := handler I sn cfg tracer props rest c w in
  exists c1 w1,
    let down := Next rest c1 w1 in
    Keys c1 = <[meterKey := sn]> (<[tracerKey := sn]> (Keys c)) /\
    result r = set_Request (result down)
                 (WithContext (Request_ (result down)) (req_Context (Request_ c))) /\
    final r = final down.
Proof.
  intros Hrej. cbn zeta. unfold handler. rewrite Hrej. cbv zeta.
  rewrite !result_bind, !final_bind.
  set (st := tracer_Start _ _ _ _ _ w).
  exists (snd (calcReqSize
            (set_Request (Set_ (Set_ c tracerKey sn) meterKey sn)
               (WithContext (Request_ c) (fst (result st)))))), (final st).
  cbn zeta. split; [|split].
  - unfold calcReqSize. cbn [Request_ set_Request Set_ WithContext req_Body].
    destruct (ReadAll _) as [[body|e] b']; reflexivity.
  - reflexivity.
  - set (dn := Next rest _ _).
    repeat first
      [ rewrite final_span_End
      | rewrite final_instrument_Add
      | rewrite final_instrument_Record
      | rewrite final_span_SetStatus
      | rewrite final_time_Now
      | rewrite final_if_mret by (intros; apply final_span_SetAttributes) ].
    reflexivity.
Qed.

Lemma request_context_restored_witness :
  req_Context (Request_ (result (handler I0 "svc" plain_cfg svc_tracer initPropagator
                                   ok_handler get_version w0))) = background.
Proof.
  destruct (request_context_restored I0 "svc" plain_cfg svc_tracer initPropagator
              ok_handler get_version w0 eq_refl) as (c1 & w1 & _ & H & _).
  rewrite H. reflexivity.
Defined.

(** X10.  When the formatter, or without one the matched route, gives
    a name, the span is opened under that name and carries it as
    [http.route]; so does every metric sample.  The two size counters
    get the request attributes and the route; the duration sample and
    the active-requests count get in addition the status code, when it
    is positive, and the errors left on the gin context, when there are
    any. *)
Theorem named_request_carries_route I sn cfg tracer props rest c w :
  instruments_created cfg ->
  rejected (Filters (set cfg)) (Request_ c) = false ->
  chosen_name cfg c <> "" ->
  let name := chosen_name cfg c in
  let base :=
    HTTPServerRequestMetrics I sn (req_line (Request_ c)) (req_Header (Request_ c))
      ++ [HTTPRoute name] in
  let es := effects (handler I sn cfg tracer props rest c w) in
  exists sc parent c1 w1,
    let c2 := result (Next rest c1 w1) in
    let status := w_Status (Writer c2) in
    let full :=
      base ++ (if 0 <? status then [HTTPStatusCode status] else [])
           ++ (if negb (Nat.eqb (length (Errors c2)) 0)
               then [String_ "gin.errors" (Errors_String c2)] else []) in
    hd_error es =
      Some (SpanStart sc parent tracer name SpanKindServer
              (HTTPServerRequest I sn (req_line (Request_ c)) (req_Header (Request_ c))
                 ++ [HTTPRoute name])) /\
    metric_calls es =
      metric_calls (effects (Next rest c1 w1))
        ++ [("http.server.request.body.size", base);
            ("http.server.response.body.size", base);
            ("http.server.request.duration", full);
            ("http.server.active_requests", full)].
Proof.
  intros (Hd & Hq & Hs & Ha) Hrej Hname.
  assert (Hfound : negb (chosen_name cfg c =? "")%string = true).
  { apply negb_true_iff, String.eqb_neq. exact Hname. }
  cbn zeta. unfold handler. rewrite Hrej. cbn [Set_ FullPath Request_].
  fold (chosen_name cfg c). rewrite Hfound, Hd, Hq, Hs, Ha. rewrite !effects_bind.
  set (st := tracer_Start _ _ _ _ _ w).
  set (cq := calcReqSize _).
  set (dn := Next rest _ _).
  rewrite !effects_if_mret.
  pose proof (eq_refl : effects st = [SpanStart (sp_ctx (snd (result st))) _ _ _ _ _]) as Hst.
  exists (sp_ctx (snd (result st))). eexists. exists (snd cq), (final st).
  change (Next rest (snd cq) (final st)) with dn. cbn zeta. split.
  - rewrite Hst. reflexivity.
  - unfold metric_calls. observe Hst.
    destruct (0 <? w_Status (Writer (result dn)));
      destruct (negb (Nat.eqb (length (Errors (result dn))) 0));
      cbv iota; rewrite ?app_nil_r, <- ?app_assoc; reflexivity.
Qed.

Lemma named_request_carries_route_witness :
  let cfg := {| set := configure [WithSpanNameFormatter (Some method_and_path)];
                reqDuration := Real reqDuration_spec; reqSize := Real reqSize_spec;
                respSize := Real respSize_spec; activeReqs := Real activeReqs_spec |} in
  let es := effects (handler I0 "svc" cfg svc_tracer initPropagator ok_handler get_user w0) in
  let base := [String_ "http.method" "GET"; HTTPRoute "GET /user/42"] in
  exists sc parent c1 w1,
    let c2 := result (Next ok_handler c1 w1) in
    let status := w_Status (Writer c2) in
    let full :=
      base ++ (if 0 <? status then [HTTPStatusCode status] else [])
           ++ (if negb (Nat.eqb (length (Errors c2)) 0)
               then [String_ "gin.errors" (Errors_String c2)] else []) in
    hd_error es =
      Some (SpanStart sc parent svc_tracer "GET /user/42" SpanKindServer
              ([String_ "http.method" "GET"; String_ "http.target" "/user/42"]
                 ++ [HTTPRoute "GET /user/42"])) /\
    metric_calls es =
      metric_calls (effects (Next ok_handler c1 w1))
        ++ [("http.server.request.body.size", base);
            ("http.server.response.body.size", base);
            ("http.server.request.duration", full);
            ("http.server.active_requests", full)].
Proof.
  apply (named_request_carries_route I0 "svc"
           {| set := configure [WithSpanNameFormatter (Some method_and_path)];
              reqDuration := Real reqDuration_spec; reqSize := Real reqSize_spec;
              respSize := Real respSize_spec; activeReqs := Real activeReqs_spec |}
           svc_tracer initPropagator ok_handler get_user w0).
  - repeat split.
  - reflexivity.
  - discriminate.
Defined.

(** X11.  After the handlers downstream have run, the span gets the
    status that [HTTPServerStatus] gives for the status code of the
    response, then the status code as an attribute when it is positive,
    then the errors left on the gin context when there are any. *)
Theorem response_status_on_span I sn cfg tracer props rest c w :
  rejected (Filters (set cfg)) (Request_ c) = false ->
  let es := effects (handler I sn cfg tracer props rest c w) in
  exists sc c1 w1,
    let down := Next rest c1 w1 in
    let c2 := result down in
    let status := w_Status (Writer c2) in
    span_starts es = sc :: span_starts (effects down) /\
    status_calls es =
      status_calls (effects down)
        ++ [(sc, fst (HTTPServerStatus I status), snd (HTTPServerStatus I status))] /\
    attribute_calls es =
      attribute_calls (effects down)
        ++ (if 0 <? status then [(sc, [HTTPStatusCode status])] else [])
        ++ (if negb (Nat.eqb (length (Errors c2)) 0)
            then [(sc, [String_ "gin.errors" (Errors_String c2)])] else []).
Proof.
  intros Hrej. enter_handler Hrej rest w.
  exists (sp_ctx (snd (result st))), (snd cq), (final st).
  change (Next rest (snd cq) (final st)) with dn. cbn zeta. split; [|split].
  - unfold span_starts. observe Hst. rewrite !app_nil_r. reflexivity.
  - unfold status_calls. observe Hst.
  - unfold attribute_calls. observe Hst.
    destruct (0 <? w_Status (Writer (result dn)));
      destruct (negb (Nat.eqb (length (Errors (result dn))) 0)); reflexivity.
Qed.

Lemma response_status_on_span_witness :
  let es := effects (handler I0 "svc" plain_cfg svc_tracer initPropagator
                       ok_handler get_user w0) in
  exists sc c1 w1,
    let down := Next ok_handler c1 w1 in
    let c2 := result down in
    let status := w_Status (Writer c2) in
    span_starts es = sc :: span_starts (effects down) /\
    status_calls es =
      status_calls (effects down)
        ++ [(sc, fst (HTTPServerStatus I0 status), snd (HTTPServerStatus I0 status))] /\
    attribute_calls es =
      attribute_calls (effects down)
        ++ (if 0 <? status then [(sc, [HTTPStatusCode status])] else [])
        ++ (if negb (Nat.eqb (length (Errors c2)) 0)
            then [(sc, [String_ "gin.errors" (Errors_String c2)])] else []).
Proof.
  apply (response_status_on_span I0 "svc" plain_cfg svc_tracer initPropagator
           ok_handler get_user w0).
  reflexivity.
Defined.

(** X12.  [calcReqSize] never returns a negative size.  When the body
    can be read it returns the size of the headers plus the length of
    the body and leaves the gin context, the body included, as it found
    it; when the body cannot be read it returns 0 and leaves the request,
    the keys and the errors as they were. *)
Theorem calcReqSize_keeps_readable_request c :
  0 <= fst (calcReqSize c) /\
  match req_Body (Request_ c) with
  | BodyData body =>
      calcReqSize c = (headerSize (req_Header (Request_ c)) + Z.of_nat (length body), c)
  | BodyBroken _ =>
      fst (calcReqSize c) = 0 /\
      Request_ (snd (calcReqSize c)) = Request_ c /\
      Keys (snd (calcReqSize c)) = Keys c /\
      Errors (snd (calcReqSize c)) = Errors c
  end.
Proof.
  destruct (req_Body (Request_ c)) as [body|e] eqn:Hbody.
  - rewrite (calcReqSize_data c body Hbody). cbn [fst].
    split; [|reflexivity]. pose proof (headerSize_nonneg (req_Header (Request_ c))). lia.
  - unfold calcReqSize. rewrite Hbody. cbn [ReadAll fst snd].
    split; [lia|]. split; [reflexivity|]. split; [|split; reflexivity].
    destruct c as [[l h b x] wr er k fp ab]. cbn in *. subst b. reflexivity.
Qed.

(** X13.  The size of the headers is the sum, over the header names,
    of the length of the name plus 2 plus the lengths of its values: no
    header gives 0, and a header under a new name adds its own share. *)
Theorem headerSize_insert (h : Header) name values :
  h !! name = None ->
  headerSize ∅ = 0 /\
  headerSize (<[name := values]> h) =
    headerSize h + (Z.of_nat (String.length name) + 2)
      + fold_right (fun value acc => Z.of_nat (String.length value) + acc) 0 values.
Proof.
  intros Hnew. split; [reflexivity|].
  unfold headerSize. rewrite map_fold_insert_L; [|intros; lia|exact Hnew].
  f_equal. clear. induction values as [|v values IH]; [reflexivity|].
  unfold sum_len in *. cbn. rewrite sum_len_from. unfold sum_len. lia.
Qed.

Lemma headerSize_insert_witness :
  headerSize (<[ "Accept" := ["text/html"; "*/*"] ]> ({[ "Host" := ["a.io"] ]} : Header)) = 30.
Proof.
  assert (Hnew : ({[ "Host" := ["a.io"] ]} : Header) !! "Accept" = None)
    by (vm_compute; reflexivity).
  rewrite (proj2 (headerSize_insert {[ "Host" := ["a.io"] ]} "Accept" ["text/html"; "*/*"]
                    Hnew)).
  reflexivity.
Defined.

(** X14.  A meter that fails on every instrument does not stop
    [Tracing] from building the handler: each of the four errors is
    handed to [otel.Handle] once, in order, and the process state is not
    written.  The handler it returns records no sample of its own and
    still opens one span for a request that no filter rejects and ends
    it after the handlers downstream.  The meter asked is the global
    one, whatever [WithMeterProvider] gave. *)
Theorem gin_failing_meter_degrades_to_noop I g sn opts reason w0 rest c w :
  (forall spec, g_Meter g spec = Failed None (reason spec)) ->
  Forall (fun f => f (Request_ c) = true) (configured_filters opts) ->
  let r0 := Tracing I g sn opts w0 in
  let es := effects (result r0 rest c w) in
  handled_errors (effects r0) = map reason gin_specs /\
  creations (effects r0) = map (fun spec => (i_kind spec, i_name spec, i_unit spec)) gin_specs /\
  final r0 = w0 /\
  exists sc c1 w1,
    let down := Next rest c1 w1 in
    metric_calls es = metric_calls (effects down) /\
    span_starts es = sc :: span_starts (effects down) /\
    span_ends es = span_ends (effects down) ++ [sc].
Proof.
  intros H Hacc. cbn zeta.
  unfold Tracing, create_instrument. cbv zeta. rewrite !H.
  split; [reflexivity|]. split; [reflexivity|]. split; [reflexivity|].
  rewrite !result_bind. cbn [mret M_ret ret result fst].
  apply handler_without_instruments.
  - repeat split.
  - cbn [set Filters]. apply not_rejected_configured. exact Hacc.
Qed.

Lemma gin_failing_meter_degrades_to_noop_witness :
  let g := {| g_TracerProvider := "sdk"; g_Meter := broken_meter;
              g_Propagators := initPropagator |} in
  let opts := [WithMeterProvider (Some (fun spec => Created (Real spec)))] in
  let r0 := Tracing I0 g "svc" opts w0 in
  handled_errors (effects r0) =
    ["no http.server.request.duration"; "no http.server.request.body.size";
     "no http.server.response.body.size"; "no http.server.active_requests"] /\
  final r0 = w0.
Proof.
  pose proof (gin_failing_meter_degrades_to_noop I0
                {| g_TracerProvider := "sdk"; g_Meter := broken_meter;
                   g_Propagators := initPropagator |}
                "svc" [WithMeterProvider (Some (fun spec => Created (Real spec)))]
                (fun spec => "no " +:+ i_name spec) w0 ok_handler get_version w0
                (fun spec => eq_refl) (List.Forall_nil _))
    as (H1 & _ & H3 & _).
  split; [exact H1 | exact H3].
Defined.

(** X15.  The tracer and the meter the handler works with are the
    global ones: [WithTracerProvider] and [WithMeterProvider] are stored
    in the configuration and never read.  Two lists of options that
    differ only in these entries set up the same instruments and yield
    handlers that do the same on every request. *)
Theorem provider_options_never_used I g sn opts1 opts2 w0 :
  without_providers opts1 = without_providers opts2 ->
  effects (Tracing I g sn opts1 w0) = effects (Tracing I g sn opts2 w0) /\
  final (Tracing I g sn opts1 w0) = final (Tracing I g sn opts2 w0) /\
  forall rest c w,
    result (Tracing I g sn opts1 w0) rest c w = result (Tracing I g sn opts2 w0) rest c w.
Proof.
  intros Hsame.
  assert (Hz : same_but_providers zero_settings zero_settings) by (repeat split).
  pose proof (configure_from_without_providers opts1 _ _ Hz) as (A1 & A2 & A3 & A4).
  pose proof (configure_from_without_providers opts2 _ _ Hz) as (B1 & B2 & B3 & B4).
  rewrite <- Hsame in B1, B2, B3, B4.
  change (configure_from zero_settings opts1) with (configure opts1) in *.
  change (configure_from zero_settings opts2) with (configure opts2) in *.
  split; [reflexivity|]. split; [reflexivity|].
  intros rest c w. unfold Tracing. cbv zeta. rewrite !result_bind.
  cbn [mret M_ret ret result fst]. unfold handler. cbn [set Filters SpanNameFormatter_].
  rewrite A1, A2, A4, B1, B2, B4. reflexivity.
Qed.

Lemma provider_options_never_used_witness :
  let h1 := result (Tracing I0 G0 "svc"
                      [WithTracerProvider (Some "other"); WithMeterProvider (Some broken_meter)]
                      w0) in
  let h2 := result (Tracing I0 G0 "svc" [] w0) in
  h1 ok_handler get_version w0 = h2 ok_handler get_version w0.
Proof.
  exact (proj2 (proj2
           (provider_options_never_used I0 G0 "svc"
              [WithTracerProvider (Some "other"); WithMeterProvider (Some broken_meter)] []
              w0 eq_refl))
           ok_handler get_version w0).
Defined.

(** X16.  Of the gin options, the filters accumulate in the order
    given; the span-name formatter is that of the last
    [WithSpanNameFormatter], a nil one included, which puts the matched
    route back in force; the propagator is the last non-nil one given. *)
Theorem gin_options_combine opts :
  Filters (configure opts) = configured_filters opts /\
  SpanNameFormatter_ (configure opts) = default None (last (given_formatters opts)) /\
  Propagators (configure opts) = last (given_propagators opts).
Proof.
  split; [|split].
  - unfold configure. fold (configure_from zero_settings opts).
    apply Filters_configure_from.
  - induction opts as [|o opts IH] using rev_ind; [reflexivity|].
    rewrite gin_configure_snoc. unfold given_formatters in *. rewrite omap_app.
    destruct o as [p|p|p|f|f|f]; cbn [omap list_omap apply SpanNameFormatter_];
      rewrite ?app_nil_r, ?last_snoc; try assumption; reflexivity.
  - induction opts as [|o opts IH] using rev_ind; [reflexivity|].
    rewrite gin_configure_snoc. unfold given_propagators in *. rewrite omap_app.
    destruct o as [p|p|p|f|f|f]; cbn [omap list_omap apply Propagators];
      rewrite ?app_nil_r, ?last_snoc; try assumption.
    destruct p; cbn [omap list_omap]; rewrite ?app_nil_r, ?last_snoc;
      [reflexivity | assumption].
Qed.

End HTTPMore.

(* ===================================================================== *)
(** ** Set-up and logging helpers: properties *)
(* ===================================================================== *)

Module init_facts.
Import kgsotel init_spec.

#[local] Arguments cleanups_run : simpl never.
#[local] Arguments flushes : simpl never.

Lemma errors_Join_None a b : errors_Join [a; b] = None <-> a = None /\ b = None.
Proof. destruct a, b; cbn; split; try tauto; try discriminate; intros [? ?]; discriminate. Qed.

Lemma joined_from_None o fs : forall acc,
  fold_left (fun err fn => errors_Join [err; cleanup_result o fn]) fs acc = None <->
  acc = None /\ Forall (fun fn => cleanup_result o fn = None) fs.
Proof.
  induction fs as [|fn fs IH]; intros acc; cbn.
  - split; [intros H; split; [exact H | constructor] | tauto].
  - rewrite IH, errors_Join_None. split.
    + intros [[Ha Hb] Hfs]. split; [exact Ha | constructor; assumption].
    + intros [Ha Hfs]. inversion Hfs; subst. tauto.
Qed.

Lemma cleanups_run_app a b : cleanups_run (a ++ b) = cleanups_run a ++ cleanups_run b.
Proof. apply omap_app. Qed.

Lemma cleanups_run_Run fs : cleanups_run (map Run fs) = fs.
Proof.
  unfold cleanups_run. induction fs as [|fn fs IH]; cbn; [|rewrite IH]; reflexivity.
Qed.

Lemma cleanups_run_ForceFlush s : cleanups_run [ForceFlush s] = [].
Proof. reflexivity. Qed.

Lemma flushes_app a b : flushes (a ++ b) = flushes a ++ flushes b.
Proof. apply omap_app. Qed.

Lemma flushes_Run fs : flushes (map Run fs) = [].
Proof. unfold flushes. induction fs as [|fn fs IH]; cbn; [|rewrite IH]; reflexivity. Qed.

(** One call of a shutdown function. *)
Lemma call_once o f p :
  fst (call o f p) = joined_errors o (shutdownFuncs p) /\
  shutdownFuncs (snd (call o f p)) = [] /\
  cleanups_run (calls (snd (call o f p))) = cleanups_run (calls p) ++ shutdownFuncs p /\
  sdkTracerProvider (snd (call o f p)) = sdkTracerProvider p /\
  sdkMeterProvider (snd (call o f p)) = sdkMeterProvider p /\
  sdkLoggerProvider (snd (call o f p)) = sdkLoggerProvider p /\
  textMapPropagator (snd (call o f p)) = textMapPropagator p /\
  zapGlobal (snd (call o f p)) = zapGlobal p.
Proof.
  unfold joined_errors.
  destruct p as [fs t m l pr z cs], f; cbn [call].
  - unfold finalShutdown. cbn. rewrite cleanups_run_app, cleanups_run_Run. repeat split.
  - unfold sendAllBeforeShutdown, finalShutdown.
    destruct t, m, l; cbn;
      rewrite !cleanups_run_app, cleanups_run_Run, ?cleanups_run_ForceFlush, ?app_nil_r;
      repeat split.
Qed.

Lemma call_repeatedly_done o f n : forall p,
  shutdownFuncs p = [] ->
  fst (call_repeatedly o f n p) = repeat None n /\
  shutdownFuncs (snd (call_repeatedly o f n p)) = [] /\
  cleanups_run (calls (snd (call_repeatedly o f n p))) = cleanups_run (calls p) /\
  zapGlobal (snd (call_repeatedly o f n p)) = zapGlobal p.
Proof.
  induction n as [|n IH]; intros p Hp; [repeat split; assumption|].
  destruct (call_once o f p) as (H1 & H2 & H3 & _ & _ & _ & _ & H4).
  destruct (IH (snd (call o f p)) H2) as (I1 & I2 & I3 & I4).
  cbn [call_repeatedly fst snd repeat]. rewrite I1, I2, I3, I4, H1, H3, H4, Hp.
  rewrite app_nil_r. repeat split.
Qed.

Lemma handleErr_spec o inErr p :
  fst (handleErr o inErr p) = errors_Join [Some inErr; joined_errors o (shutdownFuncs p)] /\
  snd (handleErr o inErr p) = with_shutdownFuncs (called p (map Run (shutdownFuncs p))) [].
Proof. split; reflexivity. Qed.

Lemma fold_left_snoc {A B} (g : A -> B) l : forall acc,
  fold_left (fun acc x => acc ++ [g x]) l acc = acc ++ map g l.
Proof.
  induction l as [|x l IH]; intros acc; cbn; [rewrite app_nil_r; reflexivity|].
  rewrite IH, <- app_assoc. reflexivity.
Qed.

Lemma InitTelemetry_error o sn p :
  snd (fst (InitTelemetry o sn p)) = None <-> all_built o.
Proof.
  unfold all_built, InitTelemetry, initConn, initTracerProvider, initMeterProvider,
    initLoggerProvider.
  destruct (grpc_NewClient o); [cbn; split; [discriminate | intros (H & _); discriminate H]|].
  destruct (resource_New o); [cbn; split; [discriminate | intros (_ & H & _); discriminate H]|].
  destruct (otlptracegrpc_New o);
    [cbn; split; [discriminate | intros (_ & _ & H & _); discriminate H]|].
  destruct (otlpmetricgrpc_New o);
    [cbn; split; [discriminate | intros (_ & _ & _ & H & _); discriminate H]|].
  destruct (otlploggrpc_New o);
    [cbn; split; [discriminate | intros (_ & _ & _ & _ & H); discriminate H]|].
  cbn. repeat split.
Qed.

(** The logger is replaced on success only. *)
Lemma InitTelemetry_zapGlobal o sn p :
  zapGlobal (snd (InitTelemetry o sn p)) =
    match snd (fst (InitTelemetry o sn p)) with
    | None => Some sn
    | Some _ => zapGlobal p
    end.
Proof.
  unfold InitTelemetry, initConn, initTracerProvider, initMeterProvider, initLoggerProvider.
  destruct (grpc_NewClient o); [reflexivity|].
  destruct (resource_New o); [reflexivity|].
  destruct (otlptracegrpc_New o); [reflexivity|].
  destruct (otlpmetricgrpc_New o); [reflexivity|].
  destruct (otlploggrpc_New o); reflexivity.
Qed.

End init_facts.

Section Setup.
Import kgsotel init_spec init_facts.

#[local] Arguments cleanups_run : simpl never.
#[local] Arguments flushes : simpl never.

(** X17.  [InitTelemetry] returns no error exactly when every
    constructor it calls succeeds.  It then returns
    [sendAllBeforeShutdown], has registered the shutdown of the trace
    exporter, of the meter provider and of the logger provider in this
    order, has put the three providers of the SDK, the propagator and
    the logger of the service in place, and has called no cleanup. *)
Theorem init_succeeds_iff_all_built o sn p :
  let r := InitTelemetry o sn p in
  (snd (fst r) = None <-> all_built o) /\
  (all_built o ->
     fst (fst r) = Some SendAllBeforeShutdown /\
     shutdownFuncs (snd r) =
       [traceExporter_Shutdown; meterProvider_Shutdown; loggerProvider_Shutdown] /\
     sdkTracerProvider (snd r) = true /\ sdkMeterProvider (snd r) = true /\
     sdkLoggerProvider (snd r) = true /\
     textMapPropagator (snd r) = Some props /\
     zapGlobal (snd r) = Some sn /\
     calls (snd r) = calls p).
Proof.
  cbn zeta. split; [apply InitTelemetry_error|].
  intros (H1 & H2 & H3 & H4 & H5).
  unfold InitTelemetry, initConn, initTracerProvider, initMeterProvider, initLoggerProvider.
  rewrite H1, H2, H3, H4, H5. cbn. repeat split.
Qed.

(** X18.  Each registered cleanup is invoked once.  However often the
    shutdown function is called, the first call runs the registered
    cleanups in the order of their registration and returns their
    errors joined, nil exactly when every cleanup returned nil; every
    later call runs no cleanup and returns nil. *)
Theorem shutdown_runs_each_cleanup_once o f n p :
  let r := call_repeatedly o f (S n) p in
  cleanups_run (calls (snd r)) = cleanups_run (calls p) ++ shutdownFuncs p /\
  shutdownFuncs (snd r) = [] /\
  fst r = joined_errors o (shutdownFuncs p) :: repeat None n /\
  (joined_errors o (shutdownFuncs p) = None <->
   Forall (fun fn => cleanup_result o fn = None) (shutdownFuncs p)).
Proof.
  cbn zeta. destruct (call_once o f p) as (H1 & H2 & H3 & _).
  destruct (call_repeatedly_done o f n (snd (call o f p)) H2) as (I1 & I2 & I3 & _).
  cbn [call_repeatedly fst snd]. rewrite I1, I2, I3, H1, H3.
  split; [reflexivity|]. split; [reflexivity|]. split; [reflexivity|].
  unfold joined_errors. rewrite joined_from_None. tauto.
Qed.





(** X20.  The shutdown function [InitTelemetry] returns is nil
    exactly when the trace exporter is the constructor that fails: that
    branch returns the named result [shutdown], which is never
    assigned, where every other branch returns a closure. *)
Theorem nil_shutdown_iff_trace_exporter_fails o sn p :
  fst (fst (InitTelemetry o sn p)) = None <->
  grpc_NewClient o = None /\ resource_New o = None /\ otlptracegrpc_New o <> None.
Proof.
  unfold InitTelemetry, initConn, initTracerProvider, initMeterProvider, initLoggerProvider.
  destruct (grpc_NewClient o) as [e1|]; [cbn; split; [discriminate | intros (H & _); discriminate H]|].
  destruct (resource_New o) as [e2|]; [cbn; split; [discriminate | intros (_ & H & _); discriminate H]|].
  destruct (otlptracegrpc_New o) as [e3|]; [cbn; split; [intros _; repeat split; discriminate | reflexivity]|].
  destruct (otlpmetricgrpc_New o) as [e4|]; [cbn; split; [discriminate | intros (_ & _ & H); contradiction H; reflexivity]|].
  destruct (otlploggrpc_New o) as [e5|]; cbn; (split; [discriminate | intros (_ & _ & H); contradiction H; reflexivity]).
Qed.

(** X21.  A failure does not roll the globals back.  When the trace
    exporter was built and a later constructor fails, the global tracer
    provider stays the one of the SDK and the propagator stays in
    place, although the trace exporter has been shut down and the
    shutdown function returned no longer flushes or shuts anything
    down. *)
Theorem failed_init_keeps_globals o sn p :
  grpc_NewClient o = None -> resource_New o = None -> otlptracegrpc_New o = None ->
  snd (fst (InitTelemetry o sn p)) <> None ->
  let r := InitTelemetry o sn p in
  sdkTracerProvider (snd r) = true /\
  textMapPropagator (snd r) = Some props /\
  (exists rest, cleanups_run (calls (snd r))
                = cleanups_run (calls p) ++ traceExporter_Shutdown :: rest) /\
  fst (fst r) = Some FinalShutdown /\
  flushes (calls (snd (call o FinalShutdown (snd r)))) = flushes (calls p).
Proof.
  intros H1 H2 H3. cbn zeta.
  unfold InitTelemetry, initConn, initTracerProvider, initMeterProvider, initLoggerProvider.
  rewrite H1, H2, H3.
  destruct (otlpmetricgrpc_New o) as [e4|].
  { intros _. cbn. rewrite !app_nil_r, !cleanups_run_app, !flushes_app. cbn.
    rewrite app_nil_r. repeat split. exists []. reflexivity. }
  destruct (otlploggrpc_New o) as [e5|].
  { intros _. cbn. rewrite !app_nil_r, !cleanups_run_app, !flushes_app. cbn.
    rewrite app_nil_r. repeat split. exists [meterProvider_Shutdown]. reflexivity. }
  cbn. intros H. contradiction H. reflexivity.
Qed.

Lemma failed_init_keeps_globals_witness :
  let r := InitTelemetry no_metrics "svc" fresh in
  sdkTracerProvider (snd r) = true /\
  cleanups_run (calls (snd r)) = [traceExporter_Shutdown] /\
  snd (fst r) =
    Some (joinError [wrapError "create metrics exporter: "
                       (errorString "metrics: connection refused");
                     joinError [errorString "trace exporter: timeout"]]).
Proof.
  pose proof (failed_init_keeps_globals no_metrics "svc" fresh eq_refl eq_refl eq_refl)
    as H.
  split; [apply H; discriminate|]. split; reflexivity.
Defined.

(** X22.  After a successful set-up the function returned flushes
    the three providers, traces, metrics and logs in this order, and
    only then runs the three cleanups in the order of their
    registration, returning their errors joined.  Called a second time
    it flushes the providers again, runs nothing and returns nil. *)
Theorem graceful_shutdown_sequence o sn p :
  all_built o ->
  let r := InitTelemetry o sn p in
  exists f,
    fst (fst r) = Some f /\
    let s1 := call o f (snd r) in
    let s2 := call o f (snd s1) in
    calls (snd s1) =
      calls p ++ [ForceFlush Traces; ForceFlush Metrics; ForceFlush Logs;
                  Run traceExporter_Shutdown; Run meterProvider_Shutdown;
                  Run loggerProvider_Shutdown] /\
    fst s1 = joined_errors o
               [traceExporter_Shutdown; meterProvider_Shutdown; loggerProvider_Shutdown] /\
    calls (snd s2) =
      calls (snd s1) ++ [ForceFlush Traces; ForceFlush Metrics; ForceFlush Logs] /\
    fst s2 = None.
Proof.
  intros (H1 & H2 & H3 & H4 & H5). cbn zeta. exists SendAllBeforeShutdown.
  unfold InitTelemetry, initConn, initTracerProvider, initMeterProvider, initLoggerProvider.
  rewrite H1, H2, H3, H4, H5. cbn. rewrite <- !app_assoc. cbn. repeat split.
Qed.

Lemma graceful_shutdown_sequence_witness :
  let r := InitTelemetry healthy "svc" fresh in
  exists f,
    fst (fst r) = Some f /\
    let s1 := call healthy f (snd r) in
    let s2 := call healthy f (snd s1) in
    calls (snd s1) =
      calls fresh ++ [ForceFlush Traces; ForceFlush Metrics; ForceFlush Logs;
                      Run traceExporter_Shutdown; Run meterProvider_Shutdown;
                      Run loggerProvider_Shutdown] /\
    fst s1 = joined_errors healthy
               [traceExporter_Shutdown; meterProvider_Shutdown; loggerProvider_Shutdown] /\
    calls (snd s2) =
      calls (snd s1) ++ [ForceFlush Traces; ForceFlush Metrics; ForceFlush Logs] /\
    fst s2 = None.
Proof.
  apply (graceful_shutdown_sequence healthy "svc" fresh). repeat split.
Defined.

End Setup.

Section Logging.
Import kgsotel init_spec init_facts.

Lemma setSpanAttrsAndZapFields_spec pushed stack ctx fields :
  let caller := getCaller (pushed "getCaller" :: stack) 3 in
  let span := SpanFromContext ctx in
  setSpanAttrsAndZapFields pushed stack ctx fields =
    ((span, id_fields (sp_ctx span) (fst caller) (snd caller) ++ map field_zap fields),
     span_SetAttributes span
       (id_attrs (sp_ctx span) (fst caller) (snd caller) ++ map field_attr fields)).
Proof.
  cbn zeta. unfold setSpanAttrsAndZapFields. cbv zeta.
  rewrite (fold_left_snoc field_attr), (fold_left_snoc field_zap). reflexivity.
Qed.

(** What a helper does, written out. *)
Lemma log_at_spec level pushed p stack ctx message fields :
  let caller := getCaller (pushed "getCaller" :: pushed "setSpanAttrsAndZapFields" :: stack) 3 in
  let span := SpanFromContext ctx in
  log_at level pushed p stack ctx message fields =
    span_SetAttributes span
      (id_attrs (sp_ctx span) (fst caller) (snd caller) ++ map field_attr fields)
    ++ span_AddEvent span message
    ++ (if level is InfoLevel then [] else span_SetStatus span Error message)
    ++ zap_log p level message
         (id_fields (sp_ctx span) (fst caller) (snd caller) ++ map field_zap fields).
Proof.
  cbn zeta. destruct level; cbn [log_at]; unfold Info, Warn, Error_; cbv zeta;
    rewrite setSpanAttrsAndZapFields_spec; reflexivity.
Qed.

Lemma logged_log_at level pushed p stack ctx message fields :
  let caller := getCaller (pushed "getCaller" :: pushed "setSpanAttrsAndZapFields" :: stack) 3 in
  logged (log_at level pushed p stack ctx message fields) =
    zap_log p level message
      (id_fields (SpanContextFromContext ctx) (fst caller) (snd caller)
         ++ map field_zap fields).
Proof.
  cbn zeta. rewrite log_at_spec. cbv zeta.
  unfold SpanContextFromContext, span_SetAttributes, span_AddEvent, span_SetStatus, zap_log.
  destruct level, (sp_recording (SpanFromContext ctx)), (zapGlobal p); reflexivity.
Qed.

Lemma on_span_log_at level pushed p stack ctx message fields :
  let caller := getCaller (pushed "getCaller" :: pushed "setSpanAttrsAndZapFields" :: stack) 3 in
  let span := SpanFromContext ctx in
  on_span (log_at level pushed p stack ctx message fields) =
    span_SetAttributes span
      (id_attrs (sp_ctx span) (fst caller) (snd caller) ++ map field_attr fields)
    ++ span_AddEvent span message
    ++ (if level is InfoLevel then [] else span_SetStatus span Error message).
Proof.
  cbn zeta. rewrite log_at_spec. cbv zeta.
  unfold span_SetAttributes, span_AddEvent, span_SetStatus, zap_log.
  destruct level, (sp_recording (SpanFromContext ctx)), (zapGlobal p); reflexivity.
Qed.

(** X23.  On a recording span every helper first sets the
    attributes (the two identifiers, the caller, and the fields of the
    caller rendered with [%v]) and then adds the message as an event;
    [Warn] as well as [Error] then set the status of the span to Error
    with the message, [Info] leaves the status alone. *)
Theorem helpers_annotate_recording_span pushed p stack ctx s level message fields :
  ctx_span ctx = Some s -> sp_recording s = true ->
  let caller := getCaller (pushed "getCaller" :: pushed "setSpanAttrsAndZapFields" :: stack) 3 in
  on_span (log_at level pushed p stack ctx message fields) =
    [SetAttributes (sp_ctx s)
       (id_attrs (sp_ctx s) (fst caller) (snd caller) ++ map field_attr fields);
     AddEvent (sp_ctx s) message]
    ++ (if level is InfoLevel then [] else [SetStatus (sp_ctx s) Error message]).
Proof.
  intros Hs Hrec. cbn zeta. rewrite on_span_log_at. cbv zeta.
  unfold SpanFromContext, span_SetAttributes, span_AddEvent, span_SetStatus.
  rewrite Hs, Hrec. destruct level; reflexivity.
Qed.

Lemma helpers_annotate_recording_span_witness :
  on_span (Warn lib_frame fresh [lib_frame "Warn"; fooHandler] in_span "foo called"
             [NewFiled "attempt" (AnyInt 3)]) =
    [SetAttributes examples.first_span
       [String_ "traceID" "00000000000000000000000000000001";
        String_ "spanID" "0000000000000001";
        String_ "caller" "http.go:67"; String_ "funcName" "main.fooHandler";
        String_ "attempt" "3"];
     AddEvent examples.first_span "foo called";
     SetStatus examples.first_span Error "foo called"].
Proof.
  exact (helpers_annotate_recording_span lib_frame fresh [lib_frame "Warn"; fooHandler]
           in_span {| sp_ctx := examples.first_span; sp_recording := true |} WarnLevel
           "foo called" [NewFiled "attempt" (AnyInt 3)] eq_refl eq_refl).
Defined.

(** X24.  With a logger in place every helper writes one entry, at
    its own level, whose fields are the trace and span identifiers of
    the span the context carries, the caller, and the fields of the
    caller with their values as given.  When the span of the context
    does not record, the entry is all the helper produces; when the
    context carries no span at all the identifiers are all zeros. *)
Theorem log_entry_carries_trace_ids pushed p stack ctx level message fields logger :
  zapGlobal p = Some logger ->
  let sc := SpanContextFromContext ctx in
  let caller := getCaller (pushed "getCaller" :: pushed "setSpanAttrsAndZapFields" :: stack) 3 in
  let entry := Logged logger level message
                 (id_fields sc (fst caller) (snd caller) ++ map field_zap fields) in
  logged (log_at level pushed p stack ctx message fields) = [entry] /\
  (sp_recording (SpanFromContext ctx) = false ->
   log_at level pushed p stack ctx message fields = [entry]) /\
  (ctx_span ctx = None ->
   ID_String (TraceID sc) = "00000000000000000000000000000000" /\
   ID_String (SpanID sc) = "0000000000000000").
Proof.
  intros Hlog. cbn zeta. split; [|split].
  - rewrite logged_log_at. unfold zap_log. rewrite Hlog. reflexivity.
  - intros Hrec. rewrite log_at_spec. cbv zeta.
    unfold SpanContextFromContext, span_SetAttributes, span_AddEvent, span_SetStatus, zap_log.
    rewrite Hlog, Hrec. destruct level; reflexivity.
  - intros Hnone. unfold SpanContextFromContext, SpanFromContext. rewrite Hnone.
    split; reflexivity.
Qed.

Lemma log_entry_carries_trace_ids_witness :
  Info lib_frame ready [lib_frame "Info"; fooHandler] background "version endpoint called" [] =
    [Logged "svc" InfoLevel "version endpoint called"
       [zap_String "traceID" "00000000000000000000000000000000";
        zap_String "spanID" "0000000000000000";
        zap_String "caller" "http.go:67"; zap_String "funcName" "main.fooHandler"]].
Proof.
  exact (proj1 (proj2 (log_entry_carries_trace_ids lib_frame ready
                         [lib_frame "Info"; fooHandler] background InfoLevel
                         "version endpoint called" [] "svc" eq_refl)) eq_refl).
Defined.

(** X25.  The caller a helper reports is the function that called
    the helper: its file and line, and its name; [StartTrace] names the
    span after the function that called it.  Only when the stack holds
    no frame above the helper do they report [unknown]. *)
Theorem caller_is_who_called_the_helper pushed g p own frame rest ctx w level message fields :
  let here := fr_file frame +:+ ":" +:+ itoa (fr_line frame) in
  let span := SpanFromContext ctx in
  let st := StartTrace pushed g (own :: frame :: rest) ctx w in
  setSpanAttrsAndZapFields pushed (pushed "setSpanAttrsAndZapFields" :: own :: frame :: rest)
      ctx fields
    = ((span, id_fields (sp_ctx span) here (fr_func frame) ++ map field_zap fields),
       span_SetAttributes span
         (id_attrs (sp_ctx span) here (fr_func frame) ++ map field_attr fields)) /\
  snd st =
    [Started (sp_ctx (snd (fst (fst st)))) (SpanContextFromContext ctx)
       {| t_provider := g_TracerProvider g; t_scope := "" |} (fr_func frame);
     SetAttributes (sp_ctx (snd (fst (fst st))))
       (id_attrs (sp_ctx (snd (fst (fst st)))) here (fr_func frame))] /\
  setSpanAttrsAndZapFields pushed [pushed "setSpanAttrsAndZapFields"; own] ctx fields
    = ((span, id_fields (sp_ctx span) "unknown" "unknown" ++ map field_zap fields),
       span_SetAttributes span
         (id_attrs (sp_ctx span) "unknown" "unknown" ++ map field_attr fields)) /\
  logged (log_at level pushed p [own] ctx message fields) =
    logged (zap_log p level message
              (id_fields (sp_ctx span) "unknown" "unknown" ++ map field_zap fields)).
Proof.
  cbn zeta. split; [|split; [|split]].
  - rewrite setSpanAttrsAndZapFields_spec. reflexivity.
  - reflexivity.
  - rewrite setSpanAttrsAndZapFields_spec. reflexivity.
  - rewrite logged_log_at. unfold zap_log. destruct (zapGlobal p); reflexivity.
Qed.

(** X26.  A span opened by [StartTrace] correlates the log with the
    trace: the context returned carries the new span, which records and
    continues the trace of the span it was started under, and every
    entry logged with that context carries the identifiers of the new
    span, the same two that [StartTrace] put on the span as
    attributes. *)
Theorem started_span_correlates_logs pushed g p stack stack' ctx w level message fields logger :
  zapGlobal p = Some logger ->
  let st := StartTrace pushed g stack ctx w in
  let ctx' := fst (fst (fst st)) in
  let span := snd (fst (fst st)) in
  SpanFromContext ctx' = span /\ sp_recording span = true /\
  (IsValid (SpanContextFromContext ctx) = true ->
   TraceID (sp_ctx span) = TraceID (SpanContextFromContext ctx)) /\
  exists caller funcName caller' funcName',
    snd st = [Started (sp_ctx span) (SpanContextFromContext ctx)
                {| t_provider := g_TracerProvider g; t_scope := "" |} funcName;
              SetAttributes (sp_ctx span) (id_attrs (sp_ctx span) caller funcName)] /\
    logged (log_at level pushed p stack' ctx' message fields) =
      [Logged logger level message
         (id_fields (sp_ctx span) caller' funcName' ++ map field_zap fields)].
Proof.
  intros Hlog. cbn zeta. split; [reflexivity|]. split; [reflexivity|]. split.
  - intros Hvalid. unfold StartTrace, tracer_Start, result.
    cbn [fst snd sp_ctx TraceID]. rewrite Hvalid. reflexivity.
  - do 4 eexists. split; [reflexivity|].
    rewrite logged_log_at. unfold zap_log. rewrite Hlog. reflexivity.
Qed.

Lemma started_span_correlates_logs_witness :
  let st := StartTrace lib_frame examples.G0 [lib_frame "StartTrace"; fooHandler]
              background examples.w0 in
  let ctx' := fst (fst (fst st)) in
  let span := snd (fst (fst st)) in
  SpanFromContext ctx' = span /\ sp_recording span = true /\
  (IsValid (SpanContextFromContext background) = true ->
   TraceID (sp_ctx span) = TraceID (SpanContextFromContext background)) /\
  exists caller funcName caller' funcName',
    snd st = [Started (sp_ctx span) (SpanContextFromContext background)
                {| t_provider := g_TracerProvider examples.G0; t_scope := "" |} funcName;
              SetAttributes (sp_ctx span) (id_attrs (sp_ctx span) caller funcName)] /\
    logged (log_at ErrorLevel lib_frame ready [lib_frame "Error"; fooHandler] ctx'
              "bar called" [NewFiled "error" (AnyError "EOF")]) =
      [Logged "svc" ErrorLevel "bar called"
         (id_fields (sp_ctx span) caller' funcName'
            ++ map field_zap [NewFiled "error" (AnyError "EOF")])].
Proof.
  apply (started_span_correlates_logs lib_frame examples.G0 ready
           [lib_frame "StartTrace"; fooHandler] [lib_frame "Error"; fooHandler]
           background examples.w0 ErrorLevel "bar called"
           [NewFiled "error" (AnyError "EOF")] "svc").
  reflexivity.
Defined.

(** X27.  Log entries are written only after a successful
    [InitTelemetry]: it is the last step of the set-up that replaces
    the no-op logger zap starts with.  After a set-up that returned an
    error the helpers still annotate the span but write no entry. *)
Theorem logs_need_successful_init o sn p pushed stack ctx level message fields :
  zapGlobal p = None ->
  let p' := snd (InitTelemetry o sn p) in
  let out := log_at level pushed p' stack ctx message fields in
  on_span out = on_span (log_at level pushed p stack ctx message fields) /\
  (all_built o -> exists fs, logged out = [Logged sn level message fs]) /\
  (snd (fst (InitTelemetry o sn p)) <> None -> logged out = []).
Proof.
  intros Hnone. cbn zeta. split; [|split].
  - rewrite !on_span_log_at. reflexivity.
  - intros Hall. eexists. rewrite logged_log_at. unfold zap_log.
    rewrite InitTelemetry_zapGlobal, (proj2 (InitTelemetry_error o sn p) Hall). reflexivity.
  - intros Herr. rewrite logged_log_at. unfold zap_log. rewrite InitTelemetry_zapGlobal.
    destruct (snd (fst (InitTelemetry o sn p))); [|contradiction Herr; reflexivity].
    rewrite Hnone. reflexivity.
Qed.

Lemma logs_need_successful_init_witness :
  logged (Info lib_frame (snd (InitTelemetry no_traces "svc" fresh))
            [lib_frame "Info"; fooHandler] in_span "version endpoint called" []) = [].
Proof.
  apply (logs_need_successful_init no_traces "svc" fresh lib_frame
           [lib_frame "Info"; fooHandler] in_span InfoLevel "version endpoint called" []
           eq_refl).
  discriminate.
Defined.

End Logging.

(* ===================================================================== *)
(** ** The gRPC stats handler: the samples of a call *)
(* ===================================================================== *)

Section RPCCalls.
Import otelgrpc rpc_spec rpc_facts rpc_more rpc_calls examples.

#[local] Arguments call_context : simpl never.

Lemma HandleRPC_calls I m ctx rs w g :
  instruments_created m ->
  call_context ctx w = Some g -> record g = true ->
  metric_calls (effects (HandleRPC I m ctx rs w)) = event_calls (role_ m) (metricAttrs g) rs.
Proof.
  intros (Hd & Hrq & Hrs & Hn & Hk) Hg Hr. unfold_hooks. run.
  rewrite !Hg, Hr, Hd, Hrq, Hrs, Hn, Hk. cbn.
  destruct rs; cbn; rewrite ?Hg; cbn; try reflexivity;
    destruct (ctx_peer ctx), (sp_recording (SpanFromContext ctx)), (isServer (role_ m));
    try destruct Error_; cbn; reflexivity.
Qed.

Lemma forM_HandleRPC_calls I m ctx events w g :
  instruments_created m ->
  call_context ctx w = Some g -> record g = true ->
  metric_calls (effects (forM_ events (HandleRPC I m ctx) w))
    = flat_map (event_calls (role_ m) (metricAttrs g)) events.
Proof.
  intros Hm Hg Hr. induction events as [|rs events IH]; [reflexivity|].
  cbn [forM_ flat_map].
  rewrite effects_bind, HandleRPC_final, metric_calls_app, IH,
    (HandleRPC_calls I m ctx rs w g Hm Hg Hr).
  reflexivity.
Qed.

(** X28.  The metric samples of a recorded call are those of its
    events and nothing else: one request-size sample per message
    received and one response-size sample per message sent, each with
    the attributes [TagRPC] stored for the call (those parsed from the
    method name, [rpc.system], and the configured metric attributes),
    and at the end one duration and two per-call samples with the same
    attributes followed by the status code. *)
Theorem call_samples_carry_call_attributes I m ctx info events err b e w :
  instruments_created m ->
  filter_accepts m info = true ->
  let r := run_call I m ctx info events err b e w in
  metric_calls (effects r) =
    flat_map (event_calls (role_ m) (call_attrs I m info)) (events ++ [End_ err b e]).
Proof.
  intros Hm Ha. cbn zeta.
  destruct (run_call_effects I m ctx info events err b e w) as [-> _].
  destruct (TagRPC_spec I m ctx info w)
    as (s & g & _ & Hg & _ & _ & _ & _ & _ & _ & Hmc & _).
  destruct (TagRPC_effects I m ctx info w) as (parent & _ & Hheap & Hptr).
  assert (Hg' : call_context (result (TagRPC I m ctx info w)) (final (TagRPC I m ctx info w))
                = Some {| messagesReceived := 0; messagesSent := 0;
                          metricAttrs := call_attrs I m info;
                          record := filter_accepts m info |}).
  { unfold call_context. cbn zeta in Hheap, Hptr. rewrite Hptr, Hheap.
    apply list_lookup_middle. reflexivity. }
  rewrite !metric_calls_app, Hmc.
  rewrite (forM_HandleRPC_calls I m _ events _ _ Hm Hg' Ha).
  rewrite (HandleRPC_calls I m _ (End_ err b e) _ _ Hm Hg' Ha).
  rewrite flat_map_app. cbn [flat_map metricAttrs app]. rewrite app_nil_r. reflexivity.
Qed.

Lemma call_samples_carry_call_attributes_witness :
  metric_calls (effects (run_call I0 server background hello
                           [Begin; InPayload 5; OutPayload 7] None 10 30 w0)) =
    [("rpc.server.request.size", call_attrs I0 server hello);
     ("rpc.server.response.size", call_attrs I0 server hello);
     ("rpc.server.duration", call_attrs I0 server hello ++ [Int_ "rpc.grpc.status_code" 0]);
     ("rpc.server.requests_per_rpc",
      call_attrs I0 server hello ++ [Int_ "rpc.grpc.status_code" 0]);
     ("rpc.server.responses_per_rpc",
      call_attrs I0 server hello ++ [Int_ "rpc.grpc.status_code" 0])].
Proof.
  apply (call_samples_carry_call_attributes I0 server background hello
           [Begin; InPayload 5; OutPayload 7] None 10 30 w0).
  - apply instruments_created_TracingMiddleware. reflexivity.
  - reflexivity.
Defined.

Lemma providers_configure opts :
  s_TracerProvider (configure opts) = last (given_tracer_providers opts) /\
  s_MeterProvider (configure opts) = last (given_meter_providers opts).
Proof.
  induction opts as [|o opts (IH1 & IH2)] using rev_ind; [split; reflexivity|].
  rewrite configure_snoc. unfold given_tracer_providers, given_meter_providers in *.
  rewrite !omap_app.
  destruct o as [f|p|p|p|a|a];
    cbn [omap list_omap apply s_TracerProvider s_MeterProvider];
    rewrite ?app_nil_r; try (split; assumption);
    destruct p; cbn [or_keep omap list_omap]; rewrite ?app_nil_r, ?last_snoc;
    split; try assumption; reflexivity.
Qed.

(** X29.  On the gRPC side the provider options are honoured: the
    spans of the handler are started on the tracer of the last non-nil
    [WithTracerProvider], under the scope name of the package, and its
    instruments are asked of the meter of the last non-nil
    [WithMeterProvider]; the global provider and meter are used only
    when no such option is given. *)
Theorem rpc_provider_options_take_effect I g role opts w ctx info w' :
  let m := result (TracingMiddleware g role opts w) in
  let tp := default (last (given_tracer_providers opts)) (g_TracerProvider g) in
  let meter := default (last (given_meter_providers opts)) (g_Meter g) in
  tracer (config_ m) = {| t_provider := tp; t_scope := ScopeName |} /\
  (exists sc parent name kind attrs,
      effects (TagRPC I m ctx info w') =
        [SpanStart sc parent {| t_provider := tp; t_scope := ScopeName |} name kind attrs]) /\
  effects (TracingMiddleware g role opts w) =
    flat_map (fun spec => effects (create_instrument meter spec w)) (rpc_specs role).
Proof.
  cbn zeta. destruct (providers_configure opts) as (Ht & Hm).
  assert (Htr : tracer (config_ (result (TracingMiddleware g role opts w)))
                = {| t_provider := default (last (given_tracer_providers opts))
                                     (g_TracerProvider g);
                     t_scope := ScopeName |}).
  { unfold TracingMiddleware, newConfig. cbv zeta. rewrite !result_bind.
    cbn [mret M_ret ret result fst config_ tracer]. rewrite Ht. reflexivity. }
  split; [exact Htr|]. split.
  - destruct (TagRPC_effects I (result (TracingMiddleware g role opts w)) ctx info w')
      as (parent & He & _).
    cbn zeta in He. rewrite Htr in He. do 5 eexists. exact He.
  - unfold TracingMiddleware, newConfig. cbv zeta. rewrite Hm. unfold create_instrument.
    set (meter := default (last (given_meter_providers opts)) (g_Meter g)).
    run.
    destruct (meter (rpcDuration_spec role)), (meter (rpcRequestSize_spec role)),
      (meter (rpcResponseSize_spec role)), (meter (rpcRequestsPerRPC_spec role)),
      (meter (rpcResponsesPerRPC_spec role)); reflexivity.
Qed.

End RPCCalls.

Section HTTPParent.
Import otelgin http_spec http_facts http_more http_more_facts examples http_examples.

Lemma Propagators_configure opts :
  Propagators (configure opts) = last (given_propagators opts).
Proof.
  induction opts as [|o opts IH] using rev_ind; [reflexivity|].
  rewrite gin_configure_snoc. unfold given_propagators in *. rewrite omap_app.
  destruct o as [p|p|p|f|f|f]; cbn [omap list_omap apply Propagators];
    rewrite ?app_nil_r, ?last_snoc; try assumption.
  destruct p; cbn [omap list_omap]; rewrite ?app_nil_r, ?last_snoc;
    [reflexivity | assumption].
Qed.

(** X30.  The span of a request is started on the global tracer of
    the service, as a server span, under the span context that the
    propagator extracts from the headers of the request; the propagator
    is the last non-nil one given by [WithPropagators], the global one
    without.  When the extracted span context is valid the new span
    continues its trace. *)
Theorem request_span_parent_from_propagator I g sn opts w0 rest c w :
  Forall (fun f => f (Request_ c) = true) (configured_filters opts) ->
  let props := match last (given_propagators opts) with
               | Some p => p
               | None => g_Propagators g
               end in
  let parent :=
    SpanContextFromContext
      (Extract props (req_Context (Request_ c)) (req_Header (Request_ c))) in
  exists sc name attrs tail,
    effects (result (Tracing I g sn opts w0) rest c w) =
      SpanStart sc parent {| t_provider := g_TracerProvider g; t_scope := sn |}
        name SpanKindServer attrs :: tail /\
    Remote sc = false /\
    (IsValid parent = true -> TraceID sc = TraceID parent).
Proof.
  intros Hacc. cbn zeta.
  unfold Tracing. cbv zeta. rewrite !result_bind. cbn [mret M_ret ret result fst].
  unfold handler. cbn [set Filters SpanNameFormatter_].
  rewrite (not_rejected_configured opts _ Hacc), Propagators_configure.
  cbv zeta. rewrite !effects_bind.
  set (st := tracer_Start _ _ _ _ _ w).
  do 4 eexists. split; [reflexivity|]. split; [reflexivity|].
  intros Hvalid. cbn [TraceID Set_ Request_]. rewrite Hvalid. reflexivity.
Qed.

Lemma request_span_parent_from_propagator_witness :
  exists sc name attrs tail,
    effects (result (Tracing I0 G0 "svc" [] w0) ok_handler get_version w0) =
      SpanStart sc emptySpanContext {| t_provider := "sdk"; t_scope := "svc" |}
        name SpanKindServer attrs :: tail /\
    Remote sc = false /\
    (IsValid emptySpanContext = true -> TraceID sc = TraceID emptySpanContext).
Proof.
  apply (request_span_parent_from_propagator I0 G0 "svc" [] w0 ok_handler get_version w0).
  constructor.
Defined.

End HTTPParent.
